(** * A BLE central over pc-ble-driver-js: the two example programs

    [src/central.js] (the Blinky central) and the second program of the
    repository (the Nordic UART central) are Node.js scripts that drive an
    asynchronous BLE adapter.  Both are event driven: the adapter emits
    events, the script registers listeners, and every adapter operation
    takes a callback that the adapter invokes later.

    The embedding is shallow.  A listener body is a value of the free monad
    [Proc]: its nodes are the effects the JavaScript performs (console
    output, array allocation and update, registration of a stdin listener,
    an adapter operation with its callback, [process.exit]).  The event loop
    of Node.js is the function [step] on a [World]: it runs the synchronous
    part of a listener and parks the callback of the adapter operation it
    ends with in the list of pending callbacks, from which a later [Reply]
    resumes it. *)

From Stdlib Require Import ZArith QArith Ascii String.
From stdpp Require Import base option list strings gmap.

Close Scope Q_scope.
Open Scope string_scope.
Open Scope Z_scope.
Open Scope list_scope.

(** ** JavaScript values that occur in the programs *)

(** A GATT attribute as the driver hands it out: a service, a
    characteristic or a descriptor.  Only [instanceId], [uuid] and [value]
    are read by the programs. *)
Record Attribute := mkAttribute {
  instanceId : string;
  uuid : string;
  value : list Z;
}.

(** A remote device, as carried by the adapter events. *)
Record Device := mkDevice {
  dev_instanceId : string;
  address : string;
  addressType : string;
  name : string;
}.

(** The error value an adapter callback receives. *)
Record JsError := mkJsError { message : string }.

(** [scanParams] objects: all four fields are always written. *)
Record ScanParams := mkScanParams {
  active : bool;
  interval : Q;
  window : Q;
  timeout : Q;
}.

(** A [connParams] object is a JavaScript object used as a map from field
    names to numbers; which names are present matters. *)
Abbreviation ConnParams := (gmap string Q).

Record ConnectOptions := mkConnectOptions {
  scanParams : ScanParams;
  connParams : ConnParams;
}.

(** ** Console output

    A template literal is kept as the list of its pieces, so that no number
    or object has to be rendered: [`LOG ${severity} ${message}`] is
    [[Lit "LOG "; Num severity; Lit " "; Str message]]. *)
Inductive Frag :=
| Lit (s : string)                 (* literal text of the template *)
| Str (s : string)                 (* ${a string} *)
| Num (z : Z)                      (* ${a number} *)
| Err (e : JsError)                (* ${err} *)
| JsonErr (e : JsError)            (* ${JSON.stringify(err)} *)
| JsonParams (p : ConnParams)      (* ${JSON.stringify(connectionParameters)} *)
| JsonErrIndented (e : JsError)    (* ${JSON.stringify(error, null, 1)} *)
| Bytes (l : list Z)               (* ${attribute.value} *)
| AdapterInstanceId                (* ${adapter.instanceId} *)
| Basename.                        (* ${path.basename(__filename)} *)

Inductive Output :=
| LogText (text : list Frag)          (* console.log(`...`) *)
| LogErrorObject (error : list Frag)  (* console.log(error), error = Error(`...`) *)
| ErrorText (text : list Frag).       (* console.error(`...`) *)

(** ** The adapter interface

    [Request V] lists the adapter operations the programs call, with their
    arguments.  The byte array given to [writeDescriptorValue] is a
    JavaScript array, passed by reference: inside a program [V] is the
    reference [Ref], in the observable trace it is the content of the array
    at the moment of the call. *)
Definition Ref := nat.

Inductive Request (V : Type) :=
| Adapter_open (baudRate : Z) (logLevel : string)
| Adapter_close
| Adapter_startScan (scanParameters : ScanParams)
| Adapter_connect (connectToAddress : string) (options : ConnectOptions)
| Adapter_getServices (deviceInstanceId : string)
| Adapter_getCharacteristics (serviceInstanceId : string)
| Adapter_getDescriptors (characteristicInstanceId : string)
| Adapter_writeDescriptorValue (descriptorInstanceId : string) (bytes : V) (ack : bool)
| Adapter_updateConnectionParameters (deviceInstanceId : string) (connectionParameters : ConnParams).
Arguments Adapter_open {V}.
Arguments Adapter_close {V}.
Arguments Adapter_startScan {V}.
Arguments Adapter_connect {V}.
Arguments Adapter_getServices {V}.
Arguments Adapter_getCharacteristics {V}.
Arguments Adapter_getDescriptors {V}.
Arguments Adapter_writeDescriptorValue {V}.
Arguments Adapter_updateConnectionParameters {V}.

(** What the adapter passes to a callback: [(err, items)].  Operations
    whose callback takes only [err] ignore [items]. *)
Record Response := mkResponse {
  err : option JsError;
  items : list Attribute;
}.

(** ** Listener bodies as a free monad *)
Inductive Proc (A : Type) : Type :=
| Ret (a : A)                                            (* the body ends *)
| Exit (code : Z)                                        (* process.exit(code) *)
| Log (o : Output) (k : Proc A)                          (* console.log / console.error *)
| Alloc (init : list Z) (k : Ref -> Proc A)              (* const a = [ ... ] *)
| ArrayGet (a : Ref) (i : nat) (k : option Z -> Proc A)  (* a[i] *)
| ArraySet (a : Ref) (i : nat) (v : Z) (k : Proc A)      (* a[i] = v *)
| Listen (cccdDescriptor : Attribute) (a : Ref) (k : Proc A)
                                                         (* process.stdin.on('readable', closure) *)
| StdinRead (k : option string -> Proc A)                (* process.stdin.read() *)
| Call (req : Request Ref) (k : Response -> Proc A).     (* adapter.op(args, callback) *)
Arguments Ret {A}.
Arguments Exit {A}.
Arguments Log {A}.
Arguments Alloc {A}.
Arguments ArrayGet {A}.
Arguments ArraySet {A}.
Arguments Listen {A}.
Arguments StdinRead {A}.
Arguments Call {A}.

Fixpoint bind {A B} (p : Proc A) (f : A -> Proc B) : Proc B :=
  match p with
  | Ret a => f a
  | Exit code => Exit code
  | Log o k => Log o (bind k f)
  | Alloc init k => Alloc init (fun r => bind (k r) f)
  | ArrayGet a i k => ArrayGet a i (fun v => bind (k v) f)
  | ArraySet a i v k => ArraySet a i v (bind k f)
  | Listen d a k => Listen d a (bind k f)
  | StdinRead k => StdinRead (fun c => bind (k c) f)
  | Call req k => Call req (fun r => bind (k r) f)
  end.

#[global] Instance Proc_ret : MRet Proc := @Ret.
#[global] Instance Proc_bind : MBind Proc := fun A B f p => bind p f.

(** [console.log(`...`)] as a statement. *)
Definition console_log (text : list Frag) : Proc unit := Log (LogText text) (Ret tt).

(** *** Promises

    [new Promise((resolve, reject) => ...)] settles once; a promise is a
    [Proc] that ends with how it settled.  A rejection carries the pieces of
    the message of the [Error] it was rejected with. *)
Inductive Settled (A : Type) :=
| Resolved (a : A)
| Rejected (reason : list Frag).
Arguments Resolved {A}.
Arguments Rejected {A}.

Abbreviation Promise A := (Proc (Settled A)).

(** [p.then(f)] where [f] returns a promise (or, wrapped in [Resolved], a
    plain value). *)
Definition then_ {A B} (p : Promise A) (f : A -> Promise B) : Promise B :=
  s ← p;
  match s with
  | Resolved a => f a
  | Rejected reason => Ret (Rejected reason)
  end.

(** [p.catch(g)] at the end of a chain whose value is dropped. *)
Definition catch_ {A} (p : Promise A) (g : list Frag -> Proc unit) : Proc unit :=
  s ← p;
  match s with
  | Resolved _ => Ret tt
  | Rejected reason => g reason
  end.

(** JavaScript truthiness of [a[i]] for an array of numbers: [undefined]
    and [0] are falsy. *)
Definition truthy (v : option Z) : bool :=
  match v with
  | Some z => negb (Z.eqb z 0)
  | None => false
  end.

(** [chunk[0] === c] for a string [chunk]: [chunk[0]] is [undefined] on the
    empty string. *)
Definition first_is (chunk : string) (c : ascii) : bool :=
  match chunk with
  | String c0 _ => bool_decide (c0 = c)
  | EmptyString => false
  end.

(** The first attribute with the given uuid, in the iteration order of
    [for (const key in collection)]. *)
Definition first_with_uuid (target : string) (collection : list Attribute) : option Attribute :=
  find (fun attribute => String.eqb (uuid attribute) target) collection.

(** ** The event loop *)

(** What an observer of the process sees, in order. *)
Inductive Effect :=
| Console (o : Output)
| Issued (req : Request (list Z)).

(** The state of the running process.  [heap] holds the JavaScript arrays
    the program created, [stdin_listeners] the closures registered on the
    ['readable'] event of stdin (each captured its descriptor and its
    array), [stdin_buffer] the data [process.stdin.read()] would return,
    [pending] the callbacks of issued adapter operations that the adapter
    has not invoked yet, [exited] the exit code once [process.exit] ran. *)
Record World := mkWorld {
  heap : list (list Z);
  stdin_listeners : list (Attribute * Ref);
  stdin_buffer : option string;
  pending : list (Response -> Proc unit);
  out : list Effect;
  exited : option Z;
}.

Definition set_heap (f : list (list Z) -> list (list Z)) (w : World) : World :=
  mkWorld (f (heap w)) (stdin_listeners w) (stdin_buffer w) (pending w) (out w) (exited w).
Definition set_stdin_listeners (f : list (Attribute * Ref) -> list (Attribute * Ref)) (w : World) : World :=
  mkWorld (heap w) (f (stdin_listeners w)) (stdin_buffer w) (pending w) (out w) (exited w).
Definition set_stdin_buffer (b : option string) (w : World) : World :=
  mkWorld (heap w) (stdin_listeners w) b (pending w) (out w) (exited w).
Definition set_pending (f : list (Response -> Proc unit) -> list (Response -> Proc unit)) (w : World) : World :=
  mkWorld (heap w) (stdin_listeners w) (stdin_buffer w) (f (pending w)) (out w) (exited w).
Definition emit (e : Effect) (w : World) : World :=
  mkWorld (heap w) (stdin_listeners w) (stdin_buffer w) (pending w) (out w ++ [e]) (exited w).
Definition set_exited (code : Z) (w : World) : World :=
  mkWorld (heap w) (stdin_listeners w) (stdin_buffer w) (pending w) (out w) (Some code).

(** The content of the array behind a reference; a program only holds
    references it allocated, so the default is never used. *)
Definition deref (h : list (list Z)) (a : Ref) : list Z := default [] (h !! a).

(** The request as the adapter receives it: the byte array is read when the
    operation is called. *)
Definition snapshot (h : list (list Z)) (req : Request Ref) : Request (list Z) :=
  match req with
  | Adapter_open baudRate logLevel => Adapter_open baudRate logLevel
  | Adapter_close => Adapter_close
  | Adapter_startScan p => Adapter_startScan p
  | Adapter_connect a o => Adapter_connect a o
  | Adapter_getServices i => Adapter_getServices i
  | Adapter_getCharacteristics i => Adapter_getCharacteristics i
  | Adapter_getDescriptors i => Adapter_getDescriptors i
  | Adapter_writeDescriptorValue i bytes ack => Adapter_writeDescriptorValue i (deref h bytes) ack
  | Adapter_updateConnectionParameters i p => Adapter_updateConnectionParameters i p
  end.

(** [a[i] = v].  The programs only assign to index 0 of arrays created by
    two-element literals, so the index is in range; out of range JavaScript
    would extend the array, which [<[i:=v]>] does not model. *)
Definition array_set (a : Ref) (i : nat) (v : Z) (h : list (list Z)) : list (list Z) :=
  <[a := <[i := v]> (deref h a)]> h.

(** One turn of the event loop: the synchronous run of a listener body up
    to its end, to [process.exit], or to the adapter operation it ends
    with, whose callback is parked in [pending]. *)
Fixpoint exec (p : Proc unit) (w : World) : World :=
  match p with
  | Ret _ => w
  | Exit code => set_exited code w
  | Log o k => exec k (emit (Console o) w)
  | Alloc init k => exec (k (length (heap w))) (set_heap (fun h => h ++ [init]) w)
  | ArrayGet a i k => exec (k (deref (heap w) a !! i)) w
  | ArraySet a i v k => exec k (set_heap (array_set a i v) w)
  | Listen d a k => exec k (set_stdin_listeners (fun l => l ++ [(d, a)]) w)
  | StdinRead k => exec (k (stdin_buffer w)) (set_stdin_buffer None w)
  | Call req k => set_pending (fun l => l ++ [k]) (emit (Issued (snapshot (heap w) req)) w)
  end.

(** Events the adapter emits. *)
Inductive AdapterEvent :=
| logMessage (severity : Z) (text : string)
| error (e : JsError)
| deviceConnected (device : Device)
| deviceDisconnected (device : Device)
| deviceDiscovered (device : Device)
| scanTimedOut
| characteristicValueChanged (attribute : Attribute)
| connParamUpdateRequest (device : Device) (connectionParameters : ConnParams)
| connParamUpdate (device : Device) (connectionParameters : ConnParams).

(** What the event loop takes from its queue. *)
Inductive Event :=
| Emit (e : AdapterEvent)            (* the adapter emits an event *)
| Readable (chunk : option string)   (* stdin emits 'readable' *)
| Reply (i : nat) (r : Response).    (* the adapter invokes the i-th pending callback *)

(** A program: what it does when started with [process.argv], and the
    listeners it registers. *)
Record Program := mkProgram {
  globals : list (list Z);                         (* arrays created at load time *)
  script : list string -> Proc unit;               (* the script body *)
  adapter_on : AdapterEvent -> Proc unit;          (* adapter.on(event, listener) *)
  stdin_on_readable : Attribute -> Ref -> Proc unit;  (* the 'readable' closure *)
}.

(** A listener runs only while the process lives. *)
Definition turn (p : Proc unit) (w : World) : World :=
  match exited w with
  | Some _ => w
  | None => exec p w
  end.

Definition step (P : Program) (ev : Event) (w : World) : World :=
  match exited w with
  | Some _ => w
  | None =>
    match ev with
    | Emit e => exec (adapter_on P e) w
    | Readable chunk =>
        foldl (fun w '(d, a) => turn (stdin_on_readable P d a) w)
              (set_stdin_buffer chunk w) (stdin_listeners w)
    | Reply i r =>
        match pending w !! i with
        | Some k => exec (k r) (set_pending (delete i) w)
        | None => w
        end
    end
  end.

Definition steps (P : Program) (evs : list Event) (w : World) : World :=
  foldl (fun w ev => step P ev w) w evs.

(** The process right after the script ran to its first suspension. *)
Definition boot (P : Program) (argv : list string) : World :=
  exec (script P argv) (mkWorld (globals P) [] None [] [] None).

(** An event and the replies of the adapter to the operations its listener
    issues one after the other, with nothing else in between. *)
Definition conversation (P : Program) (e : Event) (replies : list Response) (w : World) : World :=
  steps P (e :: map (Reply (length (pending w))) replies) w.

Definition requests (w : World) : list (Request (list Z)) :=
  omap (fun e => match e with Issued req => Some req | Console _ => None end) (out w).

(** Scan parameters of [startScan], the same object literal in both
    programs. *)
Definition scanParameters : ScanParams :=
  {| active := true; interval := 100; window := 50; timeout := 0 |}.

(** [help()], the same in both programs. *)
Definition help : Proc unit :=
  console_log [Lit "Usage: "; Basename; Lit " <PORT> <SD_API_VERSION>"];;
  console_log [];;
  console_log [Lit "PORT is the UART for the adapter. For example /dev/ttyS0 on Unix based systems or COM1 on Windows based systems."];;
  console_log [Lit "SD_API_VERSION can be v2 or v5. nRF51 series uses v2."];;
  console_log [];;
  console_log [Lit "It is assumed that the nRF device has been programmed with the correct connectivity firmware."].

(** ** The Blinky central, [src/central.js] *)
Module Blinky.

Definition BLE_UUID_BLINKY_SERVICE := "000015231212EFDE1523785FEABCD123".
Definition LBS_UUID_BLINKY_BUTTON_CHAR := "000015241212EFDE1523785FEABCD123".
Definition LBS_UUID_BLINKY_LED_CHAR := "000015251212EFDE1523785FEABCD123".

Definition BLE_UUID_CCCD := "2902".

Definition discoverBlinkyService (device : Device) : Promise Attribute :=
  Call (Adapter_getServices (dev_instanceId device)) (fun r =>
    match err r with
    | Some err => Ret (Rejected [Lit "Error discovering the blinky service: "; Err err; Lit "."])
    | None =>
      match first_with_uuid BLE_UUID_BLINKY_SERVICE (items r) with
      | Some service => Ret (Resolved service)
      | None => Ret (Rejected [Lit "Did not discover the blinky service in peripheral's GATT attribute table."])
      end
    end).

Definition discoverButtonCharacteristic (blinkyService : Attribute) : Promise Attribute :=
  Call (Adapter_getCharacteristics (instanceId blinkyService)) (fun r =>
    match err r with
    | Some err => Ret (Rejected [Lit "Error discovering the blinky service's characteristics: "; Err err; Lit "."])
    | None =>
      match first_with_uuid LBS_UUID_BLINKY_BUTTON_CHAR (items r) with
      | Some characteristic => Ret (Resolved characteristic)
      | None => Ret (Rejected [Lit "Did not discover the blinky button char in peripheral's GATT attribute table."])
      end
    end).

Definition discoverButtonCharCCCD (blinkyButtonCharacteristic : Attribute) : Promise Attribute :=
  Call (Adapter_getDescriptors (instanceId blinkyButtonCharacteristic)) (fun r =>
    match err r with
    | Some err => Ret (Rejected [Lit "Error discovering the blinky characteristic's CCCD: "; Err err; Lit "."])
    | None =>
      match first_with_uuid BLE_UUID_CCCD (items r) with
      | Some descriptor => Ret (Resolved descriptor)
      | None => Ret (Rejected [Lit "Did not discover the blinky chars CCCD in peripheral's GATT attribute table."])
      end
    end).

(** The closure [addUserInputListener] registers on ['readable']; it
    captured [cccdDescriptor] and the array [notificationsEnabled]. *)
Definition on_readable (cccdDescriptor : Attribute) (notificationsEnabled : Ref) : Proc unit :=
  StdinRead (fun chunk =>
    match chunk with
    | None => Ret tt
    | Some chunk =>
      if first_is chunk "q" || first_is chunk "Q" then
        Call Adapter_close (fun r =>
          match err r with
          | Some err => console_log [Lit "Error closing the adapter: "; Err err; Lit "."]
          | None => Ret tt
          end;;
          console_log [Lit "Exiting the application..."];;
          Exit 1)
      else if first_is chunk "l" || first_is chunk "L" then
        Ret tt
      else
        ArrayGet notificationsEnabled 0 (fun v =>
          (if truthy v then
             ArraySet notificationsEnabled 0 0
               (console_log [Lit "Disabling notifications on the blinky button characteristic."])
           else
             ArraySet notificationsEnabled 0 1
               (console_log [Lit "Enabling notifications on the blinky button characteristic."]));;
          Call (Adapter_writeDescriptorValue (instanceId cccdDescriptor) notificationsEnabled false) (fun r =>
            match err r with
            | Some err =>
                console_log [Lit "Error enabling notifications on the blinky button characteristic: "; Err err; Lit "."];;
                Exit 1
            | None => console_log [Lit "Notifications toggled on the blinky button characteristic."]
            end))
    end).

(** [process.stdin.setRawMode] exists only when stdin is a terminal
    ([process.stdin.isTTY]); otherwise the call [setRawMode(true)] throws a
    [TypeError] before the array is created and before the listener is
    registered.  The result tells how the call ended: [Resolved] when it
    returned, [Rejected] with the message of the error when it threw.
    [setEncoding] only configures stdin. *)
Definition addUserInputListener (isTTY : bool) (cccdDescriptor : Attribute) : Promise unit :=
  if isTTY then
    Alloc [0; 0] (fun notificationsEnabled =>
      Listen cccdDescriptor notificationsEnabled (Ret (Resolved tt)))
  else Ret (Rejected [Lit "process.stdin.setRawMode is not a function"]).

(** The [options] object literal of [connect]. *)
Definition options : ConnectOptions :=
  {| scanParams := {| active := false; interval := 100; window := 50; timeout := 0 |};
     connParams := list_to_map [("min_conn_interval", 7.5%Q);
                                ("max_conn_interval", 300%Q);
                                ("slave_latency", 0%Q);
                                ("conn_sup_timeout", 4000%Q)] |}.

Definition connect (connectToAddress : string) : Promise unit :=
  console_log [Lit "Connecting to device "; Str connectToAddress; Lit "..."];;
  Call (Adapter_connect connectToAddress options) (fun r =>
    match err r with
    | Some err => Ret (Rejected [Lit "Error connecting to target device: "; Err err; Lit "."])
    | None => Ret (Resolved tt)
    end).

Definition startScan : Promise unit :=
  console_log [Lit "Started scanning..."];;
  Call (Adapter_startScan scanParameters) (fun r =>
    match err r with
    | Some err => Ret (Rejected [Lit "Error starting scanning: "; Err err; Lit "."])
    | None => Ret (Resolved tt)
    end).

(** The listeners [addAdapterListener] registers, by event.  [isTTY] tells
    whether the process runs with a terminal as stdin.  An exception thrown
    in a [then] callback rejects the promise of the chain. *)
Definition addAdapterListener (isTTY : bool) (e : AdapterEvent) : Proc unit :=
  match e with
  | logMessage severity message =>
      if 3 <? severity then console_log [Lit "LOG "; Num severity; Lit " "; Str message] else Ret tt
  | error e =>
      console_log [Lit "error: "; JsonErrIndented e; Lit "."]
  | deviceConnected device =>
      console_log [Lit "Device "; Str (address device); Lit "/"; Str (addressType device); Lit " connected."];;
      catch_
        (then_ (discoverBlinkyService device) (fun service =>
           console_log [Lit "Discovered the blinky service."];;
           then_
             (then_ (discoverButtonCharacteristic service) (fun characteristic =>
                console_log [Lit "Discovered the blinky button characteristic."];;
                discoverButtonCharCCCD characteristic))
             (fun descriptor =>
                console_log [Lit "Discovered the blinky button characteristic's CCCD."];;
                console_log [Lit "Press any key to toggle notifications on the button characteristic."];;
                console_log [Lit "Press `l` or `L` to toggle LED on and off."];;
                console_log [Lit "Press `q` or `Q` to disconnect from the BLE peripheral and quit application."];;
                addUserInputListener isTTY descriptor)))
        (fun reason => Log (LogErrorObject reason) (Exit 1))
  | deviceDisconnected device =>
      console_log [Lit "Device "; Str (address device); Lit " disconnected."];;
      catch_
        (then_ startScan (fun _ =>
           console_log [Lit "Successfully initiated the scanning procedure."];;
           Ret (Resolved tt)))
        (fun reason => Log (LogErrorObject reason) (Ret tt))
  | deviceDiscovered device =>
      if String.eqb (name device) "Nordic_Blinky" then
        console_log [Lit "Discovered device "; Str (address device); Lit "/"; Str (addressType device); Lit "."];;
        catch_
          (then_ (connect (address device)) (fun _ => Ret (Resolved tt)))
          (fun reason => Log (LogErrorObject reason) (Exit 1))
      else Ret tt
  | scanTimedOut =>
      console_log [Lit "scanTimedOut: Scanning timed-out. Exiting."];;
      Exit 1
  | characteristicValueChanged attribute =>
      if String.eqb (uuid attribute) LBS_UUID_BLINKY_BUTTON_CHAR then
        console_log [Lit "Received blinky button: ";
                     Lit (match value attribute with [1] => "ON" | _ => "OFF" end);
                     Lit "."]
      else Ret tt
  | connParamUpdateRequest _ _ => Ret tt   (* no listener registered *)
  | connParamUpdate _ _ => Ret tt          (* no listener registered *)
  end.

Definition openAdapter : Promise unit :=
  console_log [Lit "Opening adapter with ID: "; AdapterInstanceId; Lit " and baud rate: "; Num 1000000; Lit "..."];;
  Call (Adapter_open 1000000 "error") (fun r =>
    match err r with
    | Some err => Ret (Rejected [Lit "Error opening adapter: "; Err err; Lit "."])
    | None => Ret (Resolved tt)
    end).

(** The script body.  [argv] is [process.argv]; with four entries neither
    [port] nor [apiVersion] is [null]. *)
Definition main (argv : list string) : Proc unit :=
  match argv with
  | [_; _; port; apiVersion] =>
      if negb (bool_decide (apiVersion ∈ ["v2"; "v5"])) then
        Log (ErrorText [Lit "SD_API_VERSION must be v2 or v5, argument provided is "; Str apiVersion])
          (Exit (-1))
      else
        catch_
          (then_
             (then_ openAdapter (fun _ =>
                console_log [Lit "Opened adapter."];;
                startScan))
             (fun _ => console_log [Lit "Scanning."];; Ret (Resolved tt)))
          (fun reason => Log (LogErrorObject reason) (Exit (-1)))
  | _ => help;; Exit (-1)
  end.

Definition program (isTTY : bool) : Program :=
  {| globals := []; script := main; adapter_on := addAdapterListener isTTY;
     stdin_on_readable := on_readable |}.

End Blinky.

(** ** The Nordic UART central, the second program of the repository *)
Module Uart.

Definition BLE_DEVICE_NAME := "Nordic_UART".

Definition BLE_UUID_NUS_SERVICE := "6E400001B5A3F393E0A9E50E24DCCA9E".
Definition LBS_UUID_NUS_TX_CHAR := "6E400003B5A3F393E0A9E50E24DCCA9E".
Definition LBS_UUID_NUS_RX_CHAR := "6E400002B5A3F393E0A9E50E24DCCA9E".

Definition BLE_UUID_CCCD := "2902".

(** [const notificationsEnabled = [1, 0]] at the top of the script: the
    first array of the heap. *)
Definition notificationsEnabled : Ref := 0%nat.

Definition connectionsPararms : ConnParams :=
  list_to_map [("min_conn_interval", 7.5%Q);
               ("minConnectionInterval", 7.5%Q);
               ("max_conn_interval", 300%Q);
               ("maxConnectionInterval", 300%Q);
               ("slave_latency", 0%Q);
               ("slaveLatency", 0%Q);
               ("conn_sup_timeout", 4000%Q);
               ("connectionSupervisionTimeout", 4000%Q)].

Definition discoverNusService (device : Device) : Promise Attribute :=
  Call (Adapter_getServices (dev_instanceId device)) (fun r =>
    match err r with
    | Some err => Ret (Rejected [Lit "Error discovering the NUS service: "; Err err; Lit "."])
    | None =>
      match first_with_uuid BLE_UUID_NUS_SERVICE (items r) with
      | Some service => Ret (Resolved service)
      | None => Ret (Rejected [Lit "Did not discover the NUS service in peripheral's GATT attribute table."])
      end
    end).

Definition discoverTxCharacteristic (NusService : Attribute) : Promise Attribute :=
  Call (Adapter_getCharacteristics (instanceId NusService)) (fun r =>
    match err r with
    | Some err => Ret (Rejected [Lit "Error discovering the NUS service's characteristics: "; JsonErr err; Lit "."])
    | None =>
      match first_with_uuid LBS_UUID_NUS_TX_CHAR (items r) with
      | Some characteristic => Ret (Resolved characteristic)
      | None => Ret (Rejected [Lit "Did not discover the NUS TX char in peripheral's GATT attribute table."])
      end
    end).

Definition discoverTxCharCCCD (NusTxCharacteristic : Attribute) : Promise Attribute :=
  Call (Adapter_getDescriptors (instanceId NusTxCharacteristic)) (fun r =>
    match err r with
    | Some err => Ret (Rejected [Lit "Error discovering the NUS characteristic's CCCD: "; JsonErr err; Lit "."])
    | None =>
      match first_with_uuid BLE_UUID_CCCD (items r) with
      | Some descriptor => Ret (Resolved descriptor)
      | None => Ret (Rejected [Lit "Did not discover the NUS chars CCCD in peripheral's GATT attribute table."])
      end
    end).

(** The closure [addUserInputListener] registers on ['readable']; the
    array is the global one.  ([addUserPrompt], a blocking prompt loop, and
    [addUserInputListener] are defined by the script and called nowhere.) *)
Definition on_readable (cccdDescriptor : Attribute) (notificationsEnabled : Ref) : Proc unit :=
  StdinRead (fun chunk =>
    match chunk with
    | None => Ret tt
    | Some chunk =>
      if first_is chunk "q" || first_is chunk "Q" then
        Call Adapter_close (fun r =>
          match err r with
          | Some err => console_log [Lit "Error closing the adapter: "; Err err; Lit "."]
          | None => Ret tt
          end;;
          console_log [Lit "Exiting the application..."];;
          Exit 1)
      else
        ArrayGet notificationsEnabled 0 (fun v =>
          (if truthy v then
             ArraySet notificationsEnabled 0 0
               (console_log [Lit "Disabling notifications on the NUS TX characteristic."])
           else
             ArraySet notificationsEnabled 0 1
               (console_log [Lit "Enabling notifications on the NUS TX characteristic."]));;
          Call (Adapter_writeDescriptorValue (instanceId cccdDescriptor) notificationsEnabled false) (fun r =>
            match err r with
            | Some err =>
                console_log [Lit "Error enabling notifications on the NUS TX characteristic: "; Err err; Lit "."];;
                Exit 1
            | None => console_log [Lit "Notifications toggled on the NUS TX characteristic."]
            end))
    end).

(** As in the Blinky central, [setRawMode(true)] throws when stdin is not
    a terminal; the two prompt lines are printed before. *)
Definition addUserInputListener (isTTY : bool) (cccdDescriptor : Attribute) : Promise unit :=
  console_log [Lit "Press any key to toggle notifications on the TX characteristic."];;
  console_log [Lit "Press `q` or `Q` to disconnect from the BLE peripheral and quit application."];;
  if isTTY then Listen cccdDescriptor notificationsEnabled (Ret (Resolved tt))
  else Ret (Rejected [Lit "process.stdin.setRawMode is not a function"]).

Definition options : ConnectOptions :=
  {| scanParams := {| active := false; interval := 100; window := 50; timeout := 0 |};
     connParams := connectionsPararms |}.

Definition connect (connectToAddress : string) : Promise unit :=
  console_log [Lit "Connecting to device "; Str connectToAddress; Lit "..."];;
  Call (Adapter_connect connectToAddress options) (fun r =>
    match err r with
    | Some err => Ret (Rejected [Lit "Error connecting to target device: "; Err err; Lit "."])
    | None => Ret (Resolved tt)
    end).

Definition startScan : Promise unit :=
  console_log [Lit "Started scanning..."];;
  Call (Adapter_startScan scanParameters) (fun r =>
    match err r with
    | Some err => Ret (Rejected [Lit "Error starting scanning: "; Err err; Lit "."])
    | None => Ret (Resolved tt)
    end).

Definition handleConnectedDevice (device : Device) : Proc unit :=
  catch_
    (then_ (discoverNusService device) (fun service =>
       console_log [Lit "Discovered the NUS service."];;
       then_
         (then_ (discoverTxCharacteristic service) (fun characteristic =>
            console_log [Lit "Discovered the NUS TX characteristic."];;
            discoverTxCharCCCD characteristic))
         (fun descriptor =>
            console_log [Lit "Discovered the NUS TX characteristic's CCCD."];;
            console_log [Lit "Enabling notifications on the NUS TX characteristic."];;
            Call (Adapter_writeDescriptorValue (instanceId descriptor) notificationsEnabled false) (fun r =>
              match err r with
              | Some err =>
                  console_log [Lit "Error enabling notifications on the NUS TX characteristic: "; Err err; Lit "."];;
                  Exit 1
              | None =>
                  console_log [Lit "Notifications toggled on the NUS TX characteristic."];;
                  Ret (Resolved tt)
              end))))
    (fun reason => Log (LogErrorObject reason) (Exit 1)).

Definition addAdapterListener (e : AdapterEvent) : Proc unit :=
  match e with
  | logMessage severity message =>
      if 3 <? severity then console_log [Lit "LOG "; Num severity; Lit " "; Str message] else Ret tt
  | error e =>
      console_log [Lit "error: "; JsonErrIndented e; Lit "."]
  | deviceConnected device =>
      console_log [Lit "Device "; Str (address device); Lit "/"; Str (addressType device); Lit " connected."]
  | deviceDisconnected device =>
      console_log [Lit "Device "; Str (address device); Lit " disconnected."];;
      catch_
        (then_ startScan (fun _ =>
           console_log [Lit "Successfully initiated the scanning procedure."];;
           Ret (Resolved tt)))
        (fun reason => Log (LogErrorObject reason) (Ret tt))
  | deviceDiscovered device =>
      if String.eqb (name device) BLE_DEVICE_NAME then
        console_log [Lit "Discovered device "; Str (address device); Lit "/"; Str (addressType device); Lit "."];;
        catch_
          (then_ (connect (address device)) (fun _ => Ret (Resolved tt)))
          (fun reason => Log (LogErrorObject reason) (Exit 1))
      else Ret tt
  | scanTimedOut =>
      console_log [Lit "scanTimedOut: Scanning timed-out. Exiting."];;
      Exit 1
  | characteristicValueChanged attribute =>
      console_log [Lit "Received Data: "; Str (uuid attribute); Lit " "; Bytes (value attribute)]
  | connParamUpdateRequest device connectionParameters =>
      console_log [Lit "connParamUpdateRequest: "; JsonParams connectionParameters; Lit "."];;
      Call (Adapter_updateConnectionParameters (dev_instanceId device) connectionParameters) (fun r =>
        match err r with
        | Some err => console_log [Lit "updateConnectionParameters Failed: "; Str (message err); Lit "."]
        | None => handleConnectedDevice device
        end)
  | connParamUpdate device connectionParameters =>
      console_log [Lit "connParamUpdate: "; JsonParams connectionParameters; Lit "."]
  end.

Definition openAdapter : Promise unit :=
  console_log [Lit "Opening adapter with ID: "; AdapterInstanceId; Lit " and baud rate: "; Num 1000000; Lit "..."];;
  Call (Adapter_open 1000000 "debug") (fun r =>
    match err r with
    | Some err => Ret (Rejected [Lit "Error opening adapter: "; Err err; Lit "."])
    | None => Ret (Resolved tt)
    end).

Definition main (argv : list string) : Proc unit :=
  match argv with
  | [_; _; port; apiVersion] =>
      if negb (bool_decide (apiVersion ∈ ["v2"; "v5"])) then
        Log (ErrorText [Lit "SD_API_VERSION must be v2 or v5, argument provided is "; Str apiVersion])
          (Exit (-1))
      else
        catch_
          (then_
             (then_ openAdapter (fun _ =>
                console_log [Lit "Opened adapter."];;
                startScan))
             (fun _ => console_log [Lit "Scanning."];; Ret (Resolved tt)))
          (fun reason => Log (LogErrorObject reason) (Exit (-1)))
  | _ => help;; Exit (-1)
  end.

Definition program : Program :=
  {| globals := [[1; 0]]; script := main; adapter_on := addAdapterListener;
     stdin_on_readable := on_readable |}.

End Uart.

(** ** Both programs *)
Inductive Variant := BlinkyVariant | UartVariant.

(** The program that runs, given whether stdin is a terminal; the UART
    central never touches stdin. *)
Definition program_of (isTTY : bool) (v : Variant) : Program :=
  match v with
  | BlinkyVariant => Blinky.program isTTY
  | UartVariant => Uart.program
  end.

(** The [options] a program passes to [adapter.connect]. *)
Definition options_of (v : Variant) : ConnectOptions :=
  match v with
  | BlinkyVariant => Blinky.options
  | UartVariant => Uart.options
  end.

(** ** Notions used by the statements *)

Definition running (w : World) : Prop := exited w = None.

(** A listener body run against the replies of the adapter, one per
    operation it issues; with no reply left the callback stays pending.
    [conversation_feed] below shows that this is what the event loop does
    when the replies arrive with nothing in between. *)
Fixpoint feed (p : Proc unit) (replies : list Response) (w : World) : World :=
  match p with
  | Ret _ => w
  | Exit code => set_exited code w
  | Log o k => feed k replies (emit (Console o) w)
  | Alloc init k => feed (k (length (heap w))) replies (set_heap (fun h => h ++ [init]) w)
  | ArrayGet a i k => feed (k (deref (heap w) a !! i)) replies w
  | ArraySet a i v k => feed k replies (set_heap (array_set a i v) w)
  | Listen d a k => feed k replies (set_stdin_listeners (fun l => l ++ [(d, a)]) w)
  | StdinRead k => feed (k (stdin_buffer w)) replies (set_stdin_buffer None w)
  | Call req k =>
      match replies with
      | [] => set_pending (fun l => l ++ [k]) (emit (Issued (snapshot (heap w) req)) w)
      | r :: replies => feed (k r) replies (emit (Issued (snapshot (heap w) req)) w)
      end
  end.

(** The adapter reported an error, or no attribute of the collection has
    the uuid. *)
Definition absent (target : string) (r : Response) : Prop :=
  is_Some (err r) \/ Forall (fun a => uuid a <> target) (items r).

(** The adapter reported no error and [a] is the first attribute of the
    collection with the uuid. *)
Definition first_match (target : string) (r : Response) (a : Attribute) : Prop :=
  err r = None /\
  exists before after,
    items r = before ++ a :: after /\ uuid a = target /\
    Forall (fun x => uuid x <> target) before.

(** A reply without error (for callbacks that take only [err]). *)
Definition accepted (r : Response) : Prop := err r = None.

(** The effects a program can have on the world besides ending. *)
Inductive Node :=
| NLog (o : Output)
| NAlloc (init : list Z)
| NArraySet (a : Ref) (i : nat) (v : Z)
| NListen (d : Attribute) (a : Ref)
| NCall (req : Request Ref).

(** Every effect on every path of [p] satisfies [phi]. *)
Fixpoint always (phi : Node -> Prop) {A} (p : Proc A) : Prop :=
  match p with
  | Ret _ => True
  | Exit _ => True
  | Log o k => phi (NLog o) /\ always phi k
  | Alloc init k => phi (NAlloc init) /\ forall r, always phi (k r)
  | ArrayGet a i k => forall v, always phi (k v)
  | ArraySet a i v k => phi (NArraySet a i v) /\ always phi k
  | Listen d a k => phi (NListen d a) /\ always phi k
  | StdinRead k => forall c, always phi (k c)
  | Call req k => phi (NCall req) /\ forall r, always phi (k r)
  end.

Definition act (n : Node) (w : World) : World :=
  match n with
  | NLog o => emit (Console o) w
  | NAlloc init => set_heap (fun h => h ++ [init]) w
  | NArraySet a i v => set_heap (array_set a i v) w
  | NListen d a => set_stdin_listeners (fun l => l ++ [(d, a)]) w
  | NCall req => emit (Issued (snapshot (heap w) req)) w
  end.

(** The kinds of adapter operations, without their arguments. *)
Inductive Kind :=
| K_open | K_close | K_startScan | K_connect | K_getServices | K_getCharacteristics
| K_getDescriptors | K_writeDescriptorValue | K_updateConnectionParameters.

Definition kind {V} (req : Request V) : Kind :=
  match req with
  | Adapter_open _ _ => K_open
  | Adapter_close => K_close
  | Adapter_startScan _ => K_startScan
  | Adapter_connect _ _ => K_connect
  | Adapter_getServices _ => K_getServices
  | Adapter_getCharacteristics _ => K_getCharacteristics
  | Adapter_getDescriptors _ => K_getDescriptors
  | Adapter_writeDescriptorValue _ _ _ => K_writeDescriptorValue
  | Adapter_updateConnectionParameters _ _ => K_updateConnectionParameters
  end.

(** The uuids a program looks for. *)
Definition target_service (v : Variant) : string :=
  match v with
  | BlinkyVariant => Blinky.BLE_UUID_BLINKY_SERVICE
  | UartVariant => Uart.BLE_UUID_NUS_SERVICE
  end.

Definition target_characteristic (v : Variant) : string :=
  match v with
  | BlinkyVariant => Blinky.LBS_UUID_BLINKY_BUTTON_CHAR
  | UartVariant => Uart.LBS_UUID_NUS_TX_CHAR
  end.

Definition target_descriptor (v : Variant) : string :=
  match v with
  | BlinkyVariant => Blinky.BLE_UUID_CCCD
  | UartVariant => Uart.BLE_UUID_CCCD
  end.

(** The conversation in which a program runs its discovery pipeline on
    [device]: the Blinky central when the device connected, the UART
    central when the adapter accepted ([r0]) the connection parameters the
    device asked for. *)
Definition discovery (isTTY : bool) (v : Variant) (device : Device) (params : ConnParams)
    (r0 : Response) (replies : list Response) (w : World) : World :=
  match v with
  | BlinkyVariant =>
      conversation (Blinky.program isTTY) (Emit (deviceConnected device)) replies w
  | UartVariant =>
      conversation Uart.program (Emit (connParamUpdateRequest device params)) (r0 :: replies) w
  end.

(** The requests of that conversation that come before the pipeline. *)
Definition before_discovery (v : Variant) (device : Device) (params : ConnParams)
    : list (Request (list Z)) :=
  match v with
  | BlinkyVariant => []
  | UartVariant => [Adapter_updateConnectionParameters (dev_instanceId device) params]
  end.

(** The process printed an [Error] object last and exited with status 1;
    it takes no further event. *)
Definition fatal (P : Program) (w : World) : Prop :=
  exited w = Some 1 /\
  (exists reason, last (out w) = Some (Console (LogErrorObject reason))) /\
  forall evs, steps P evs w = w.

(** The rejection of the service step: the adapter failed to list the
    services, or none has the uuid (the spec's ServiceNotFound). *)
Definition ServiceNotFound (v : Variant) (reason : list Frag) : Prop :=
  match v with
  | BlinkyVariant =>
      (exists e, reason = [Lit "Error discovering the blinky service: "; Err e; Lit "."]) \/
      reason = [Lit "Did not discover the blinky service in peripheral's GATT attribute table."]
  | UartVariant =>
      (exists e, reason = [Lit "Error discovering the NUS service: "; Err e; Lit "."]) \/
      reason = [Lit "Did not discover the NUS service in peripheral's GATT attribute table."]
  end.

(** The data stdin delivered is a key that toggles: not a quit key and, in
    the Blinky central, not an LED key.  (An empty chunk has no first
    character and toggles as well.) *)
Definition toggle_key (v : Variant) (chunk : string) : Prop :=
  forall c rest, chunk = String c rest ->
    c <> "q"%char /\ c <> "Q"%char /\
    (v = BlinkyVariant -> c <> "l"%char /\ c <> "L"%char).

(** A world in which [psi] holds and every pending callback, whatever the
    adapter replies, only has effects that satisfy [phi]. *)
Definition safe (phi : Node -> Prop) (psi : World -> Prop) (w : World) : Prop :=
  psi w /\ Forall (fun k => forall r, always phi (k r)) (pending w).

(** What the requests of a program look like: every [startScan] carries
    [scanParameters], every [connect] the [options] of the program. *)
Definition request_ok {V} (v : Variant) (req : Request V) : Prop :=
  match req with
  | Adapter_startScan p => p = scanParameters
  | Adapter_connect _ o => o = options_of v
  | _ => True
  end.

Definition requests_ok (v : Variant) (w : World) : Prop :=
  Forall (request_ok v) (requests w).

Definition calls_ok (v : Variant) (n : Node) : Prop :=
  match n with
  | NCall req => request_ok v req
  | _ => True
  end.

(** In the UART central: the only array is the global one with its initial
    content, no stdin listener is registered, and every descriptor write
    carried [1, 0]. *)
Definition write_ok (req : Request (list Z)) : Prop :=
  match req with
  | Adapter_writeDescriptorValue _ bytes _ => bytes = [1; 0]
  | _ => True
  end.

Definition uart_frozen (w : World) : Prop :=
  heap w = [[1; 0]] /\ stdin_listeners w = [] /\ Forall write_ok (requests w).

Definition uart_effect (n : Node) : Prop :=
  match n with
  | NLog _ => True
  | NCall (Adapter_writeDescriptorValue _ a _) => a = Uart.notificationsEnabled
  | NCall _ => True
  | _ => False
  end.

(** The two spellings of the connection parameters, in the same order. *)
Definition legacy_names : list string :=
  ["min_conn_interval"; "max_conn_interval"; "slave_latency"; "conn_sup_timeout"].
Definition current_names : list string :=
  ["minConnectionInterval"; "maxConnectionInterval"; "slaveLatency";
   "connectionSupervisionTimeout"].

(** The values a [connParams] object has under a list of names. *)
Definition values_at (names : list string) (p : ConnParams) : list (option Q) :=
  map (fun n => p !! n) names.

(** Both spellings are present and carry the same numbers. *)
Definition both_representations (p : ConnParams) : Prop :=
  Forall is_Some (values_at legacy_names p) /\
  values_at legacy_names p = values_at current_names p.

(** Only the legacy spelling is present. *)
Definition legacy_only (p : ConnParams) : Prop :=
  Forall is_Some (values_at legacy_names p) /\
  Forall (fun x => x = None) (values_at current_names p).

(** The advertised name a program connects to, and the log level it opens
    the adapter with. *)
Definition peer_name (v : Variant) : string :=
  match v with
  | BlinkyVariant => "Nordic_Blinky"
  | UartVariant => Uart.BLE_DEVICE_NAME
  end.

Definition log_level (v : Variant) : string :=
  match v with
  | BlinkyVariant => "error"
  | UartVariant => "debug"
  end.

(** The lines [help()] prints. *)
Definition help_lines : list Effect :=
  [Console (LogText [Lit "Usage: "; Basename; Lit " <PORT> <SD_API_VERSION>"]);
   Console (LogText []);
   Console (LogText [Lit "PORT is the UART for the adapter. For example /dev/ttyS0 on Unix based systems or COM1 on Windows based systems."]);
   Console (LogText [Lit "SD_API_VERSION can be v2 or v5. nRF51 series uses v2."]);
   Console (LogText []);
   Console (LogText [Lit "It is assumed that the nRF device has been programmed with the correct connectivity firmware."])].

(** The adapter events whose listeners only report. *)
Definition informational (e : AdapterEvent) : bool :=
  match e with
  | logMessage _ _ | error _ | characteristicValueChanged _ | connParamUpdate _ _ => true
  | _ => false
  end.

(** The lines the callback of the toggle write prints. *)
Definition toggle_error_text (v : Variant) (e : JsError) : list Frag :=
  match v with
  | BlinkyVariant =>
      [Lit "Error enabling notifications on the blinky button characteristic: "; Err e; Lit "."]
  | UartVariant =>
      [Lit "Error enabling notifications on the NUS TX characteristic: "; Err e; Lit "."]
  end.

Definition toggled_text (v : Variant) : list Frag :=
  match v with
  | BlinkyVariant => [Lit "Notifications toggled on the blinky button characteristic."]
  | UartVariant => [Lit "Notifications toggled on the NUS TX characteristic."]
  end.

(** [psi] holds when [p], started in [w], ends or suspends, and every
    callback [p] hands to the adapter, run on any reply in any world where
    [psi] holds, keeps it in the same sense. *)
Fixpoint keeps (psi : World -> Prop) (p : Proc unit) (w : World) : Prop :=
  match p with
  | Ret _ => psi w
  | Exit code => psi (set_exited code w)
  | Log o k => keeps psi k (emit (Console o) w)
  | Alloc init k => keeps psi (k (length (heap w))) (set_heap (fun h => h ++ [init]) w)
  | ArrayGet a i k => keeps psi (k (deref (heap w) a !! i)) w
  | ArraySet a i v k => keeps psi k (set_heap (array_set a i v) w)
  | Listen d a k => keeps psi k (set_stdin_listeners (fun l => l ++ [(d, a)]) w)
  | StdinRead k => keeps psi (k (stdin_buffer w)) (set_stdin_buffer None w)
  | Call req k =>
      psi (set_pending (fun l => l ++ [k]) (emit (Issued (snapshot (heap w) req)) w)) /\
      forall r w', psi w' -> keeps psi (k r) w'
  end.

Definition callbacks_keep (psi : World -> Prop) (w : World) : Prop :=
  Forall (fun k => forall r w', psi w' -> keeps psi (k r) w') (pending w).

(** A value a CCCD write may carry: notifications off or on, never
    acknowledged. *)
Definition cccd_write_ok (req : Request (list Z)) : Prop :=
  match req with
  | Adapter_writeDescriptorValue _ bytes ack => (bytes = [0; 0] \/ bytes = [1; 0]) /\ ack = false
  | _ => True
  end.

(** In the Blinky central: every array is [0, 0] or [1, 0]; the i-th
    registered key listener holds the i-th array, so no two listeners share
    one; every descriptor write carried one of the two values. *)
Definition blinky_inv (w : World) : Prop :=
  Forall (fun bytes => bytes = [0; 0] \/ bytes = [1; 0]) (heap w) /\
  map snd (stdin_listeners w) = seq 0 (length (heap w)) /\
  Forall cccd_write_ok (requests w).

(** The UART central never asks the adapter to close and never listens to
    stdin. *)
Definition uart_open_ended (n : Node) : Prop :=
  match n with
  | NCall Adapter_close => False
  | NListen _ _ => False
  | _ => True
  end.

Definition never_closed (w : World) : Prop :=
  stdin_listeners w = [] /\ Forall (fun req => kind req <> K_close) (requests w).

(** No descriptor write. *)
Definition issues_no_write (n : Node) : Prop :=
  match n with
  | NCall req => kind req <> K_writeDescriptorValue
  | _ => True
  end.

(** Every effect of every callback that [p] hands to the adapter satisfies
    [phi]; what [p] does before it suspends is left open. *)
Fixpoint callbacks_always (phi : Node -> Prop) {A} (p : Proc A) : Prop :=
  match p with
  | Ret _ => True
  | Exit _ => True
  | Log o k => callbacks_always phi k
  | Alloc init k => forall r, callbacks_always phi (k r)
  | ArrayGet a i k => forall v, callbacks_always phi (k v)
  | ArraySet a i v k => callbacks_always phi k
  | Listen d a k => callbacks_always phi k
  | StdinRead k => forall c, callbacks_always phi (k c)
  | Call req k => forall r, always phi (k r)
  end.

(** No pending callback ever writes to a descriptor. *)
Definition quiet_callbacks (w : World) : Prop :=
  Forall (fun k => forall r, always issues_no_write (k r)) (pending w).

(** An event other than a toggling key read by the Blinky central. *)
Definition no_toggle (ev : Event) : Prop :=
  match ev with
  | Readable (Some chunk) => ~ toggle_key BlinkyVariant chunk
  | _ => True
  end.

#[global] Instance Kind_eq_dec : EqDecision Kind.
Proof. solve_decision. Defined.

(** How many requests of a kind a trace holds. *)
Definition count_of (k : Kind) (reqs : list (Request (list Z))) : nat :=
  length (List.filter (fun req => bool_decide (kind req = k)) reqs).

(** The position of a request in a rediscovery: update, services,
    characteristics, descriptors, descriptor write. *)
Definition stage (k : Kind) : option nat :=
  match k with
  | K_updateConnectionParameters => Some 0%nat
  | K_getServices => Some 1%nat
  | K_getCharacteristics => Some 2%nat
  | K_getDescriptors => Some 3%nat
  | K_writeDescriptorValue => Some 4%nat
  | _ => None
  end.

Definition issued (m : nat) (reqs : list (Request (list Z))) : nat :=
  length (List.filter (fun req => bool_decide (stage (kind req) = Some m)) reqs).

(** [p] registers no stdin listener, and the requests of a rediscovery
    that [p] and its callbacks issue come one per callback, in the order of
    the stages, starting at stage [n]; after a request of another kind no
    request of a rediscovery follows. *)
Fixpoint staged (n : nat) (p : Proc unit) : Prop :=
  match p with
  | Ret _ => True
  | Exit _ => True
  | Log o k => staged n k
  | Alloc init k => forall r, staged n (k r)
  | ArrayGet a i k => forall v, staged n (k v)
  | ArraySet a i v k => staged n k
  | Listen d a k => False
  | StdinRead k => forall c, staged n (k c)
  | Call req k =>
      match stage (kind req) with
      | Some m => m = n /\ forall r, staged (S n) (k r)
      | None => forall r, staged 5 (k r)
      end
  end.

(** No stdin listener is registered; every pending callback waits at a
    stage; and the requests issued at a stage, plus the callbacks waiting
    to issue one, are no more than the requests issued at the stage
    before. *)
Definition uart_ordered (w : World) : Prop :=
  stdin_listeners w = [] /\
  exists stages : list nat,
    Forall2 (fun k n => forall r, staged n (k r)) (pending w) stages /\
    forall m, (m < 4)%nat ->
      (issued (S m) (requests w) + count_occ Nat.eq_dec stages (S m) <= issued m (requests w))%nat.

(** ** Concrete inputs used by the examples *)

Definition argv_example : list string := ["node"; "central.js"; "COM1"; "v5"].

Definition success : Response := {| err := None; items := [] |}.
Definition failure : Response := {| err := Some {| message := "NRF_ERROR_TIMEOUT" |}; items := [] |}.
Definition listing (l : list Attribute) : Response := {| err := None; items := l |}.

Definition blinky_peer : Device :=
  {| dev_instanceId := "C0FFEE000001.0"; address := "C0:FF:EE:00:00:01";
     addressType := "BLE_GAP_ADDR_TYPE_RANDOM_STATIC"; name := "Nordic_Blinky" |}.
Definition uart_peer : Device :=
  {| dev_instanceId := "C0FFEE000002.0"; address := "C0:FF:EE:00:00:02";
     addressType := "BLE_GAP_ADDR_TYPE_RANDOM_STATIC"; name := "Nordic_UART" |}.
Definition peer_of (v : Variant) : Device :=
  match v with BlinkyVariant => blinky_peer | UartVariant => uart_peer end.

Definition generic_access : Attribute := {| instanceId := "svc.1"; uuid := "1800"; value := [] |}.
Definition service_of (v : Variant) : Attribute :=
  {| instanceId := "svc.2"; uuid := target_service v; value := [] |}.
Definition second_service_of (v : Variant) : Attribute :=
  {| instanceId := "svc.3"; uuid := target_service v; value := [] |}.
Definition characteristic_of (v : Variant) : Attribute :=
  {| instanceId := "chr.5"; uuid := target_characteristic v; value := [] |}.
Definition cccd : Attribute := {| instanceId := "dsc.9"; uuid := "2902"; value := [0; 0] |}.

Definition requested_params : ConnParams :=
  list_to_map [("minConnectionInterval", 15%Q); ("maxConnectionInterval", 30%Q);
               ("slaveLatency", 0%Q); ("connectionSupervisionTimeout", 4000%Q)].

(** The process, started from a terminal, once the adapter is open and the
    first scan started. *)
Definition scanning (v : Variant) : World :=
  steps (program_of true v) [Reply 0 success; Reply 0 success]
    (boot (program_of true v) argv_example).

(** A session up to the subscription: the peer is discovered, connects
    and, for the UART central, asks for new connection parameters; the
    discovery finds the CCCD. *)
Definition session (v : Variant) : list Event :=
  [Emit (deviceDiscovered (peer_of v)); Reply 0 success; Emit (deviceConnected (peer_of v))] ++
  match v with
  | BlinkyVariant => []
  | UartVariant => [Emit (connParamUpdateRequest uart_peer requested_params); Reply 0 success]
  end ++
  [Reply 0 (listing [generic_access; service_of v]);
   Reply 0 (listing [characteristic_of v]);
   Reply 0 (listing [cccd])].

Definition subscribed (v : Variant) : World :=
  steps (program_of true v) (session v) (scanning v).

(** The peer was discovered and connected. *)
Definition connected (v : Variant) : World :=
  steps (program_of true v)
    [Emit (deviceDiscovered (peer_of v)); Reply 0 success; Emit (deviceConnected (peer_of v))]
    (scanning v).

(** Two parameter update requests of the peer of the UART central, the
    second one arriving, and being accepted, while the discovery started
    by the first one waits for the descriptors. *)
Definition overlapping_updates : list Event :=
  [Emit (connParamUpdateRequest uart_peer requested_params);
   Reply 0 success;
   Reply 0 (listing [service_of UartVariant]);
   Reply 0 (listing [characteristic_of UartVariant]);
   Emit (connParamUpdateRequest uart_peer requested_params);
   Reply 1 success;
   Reply 0 (listing [cccd])].

(** The Blinky central once the key listener is registered and a first
    key enabled the notifications. *)
Definition notifying : World :=
  step (Blinky.program true) (Readable (Some "n")) (subscribed BlinkyVariant).

(** * Properties *)

(** ** The event loop and conversations *)

Lemma steps_nil P w : steps P [] w = w.
Proof. reflexivity. Qed.

Lemma steps_cons P ev evs w : steps P (ev :: evs) w = steps P evs (step P ev w).
Proof. reflexivity. Qed.

Lemma steps_app P evs1 evs2 w :
  steps P (evs1 ++ evs2) w = steps P evs2 (steps P evs1 w).
Proof. unfold steps. apply foldl_app. Qed.

Lemma step_exited P ev w code : exited w = Some code -> step P ev w = w.
Proof. intros H. unfold step. now rewrite H. Qed.

Lemma steps_exited P evs w code : exited w = Some code -> steps P evs w = w.
Proof.
  revert w. induction evs as [|ev evs IH]; intros w H; [reflexivity|].
  rewrite steps_cons, (step_exited _ _ _ _ H). now apply IH.
Qed.

(** A reply for a callback that is not pending is dropped. *)
Lemma steps_replies_idle P n rs w :
  (length (pending w) <= n)%nat -> steps P (map (Reply n) rs) w = w.
Proof.
  intros Hn. induction rs as [|r rs IH]; [reflexivity|].
  cbn [map]. rewrite steps_cons.
  replace (step P (Reply n r) w) with w; [exact IH|].
  unfold step. destruct (exited w); [reflexivity|].
  now rewrite (lookup_ge_None_2 _ _ Hn).
Qed.

Lemma reply_last P (w : World) k r :
  exited w = None ->
  step P (Reply (length (pending w)) r) (set_pending (fun l => l ++ [k]) w) = exec (k r) w.
Proof.
  intros Hw. destruct w as [h l b ps o x]; cbn in *; subst x.
  unfold step; cbn.
  rewrite list_lookup_middle by reflexivity.
  unfold set_pending; cbn.
  rewrite (delete_middle ps [] k); cbn. now rewrite app_nil_r.
Qed.

Lemma steps_replies_exec P p : forall rs w,
  exited w = None ->
  steps P (map (Reply (length (pending w))) rs) (exec p w) = feed p rs w.
Proof.
  induction p as [a|code|o k IH|init k IH|a i k IH|a i v k IH|d a k IH|k IH|req k IH];
    intros rs w Hw; cbn [exec feed].
  - now apply steps_replies_idle.
  - now apply (steps_exited _ _ _ code).
  - apply (IH rs (emit (Console o) w) Hw).
  - apply (IH _ rs (set_heap _ w) Hw).
  - apply (IH _ rs w Hw).
  - apply (IH rs (set_heap _ w) Hw).
  - apply (IH rs (set_stdin_listeners _ w) Hw).
  - apply (IH _ rs (set_stdin_buffer None w) Hw).
  - destruct rs as [|r rs]; [reflexivity|].
    cbn [map]. rewrite steps_cons.
    change (length (pending w)) with (length (pending (emit (Issued (snapshot (heap w) req)) w))).
    rewrite reply_last by exact Hw.
    apply (IH r rs (emit _ w) Hw).
Qed.

(** An adapter event followed by the replies to the operations of its
    listener is the listener fed with the replies. *)
Lemma conversation_feed P e rs w :
  running w -> conversation P (Emit e) rs w = feed (adapter_on P e) rs w.
Proof.
  intros Hw. unfold conversation. rewrite steps_cons.
  unfold step at 1. rewrite Hw.
  now apply steps_replies_exec.
Qed.

(** ** Finding an attribute by uuid *)

Lemma first_with_uuid_absent target l :
  Forall (fun a => uuid a <> target) l -> first_with_uuid target l = None.
Proof.
  induction 1 as [|a l Ha _ IH]; [reflexivity|].
  unfold first_with_uuid in *. cbn.
  destruct (String.eqb_spec (uuid a) target); [contradiction|exact IH].
Qed.

Lemma first_with_uuid_first target before a after :
  uuid a = target -> Forall (fun x => uuid x <> target) before ->
  first_with_uuid target (before ++ a :: after) = Some a.
Proof.
  intros Ha. induction 1 as [|x l Hx _ IH]; unfold first_with_uuid in *; cbn.
  - now rewrite Ha, String.eqb_refl.
  - destruct (String.eqb_spec (uuid x) target); [contradiction|exact IH].
Qed.

Lemma first_match_find target r a :
  first_match target r a ->
  err r = None /\ first_with_uuid target (items r) = Some a.
Proof.
  intros [He (before & after & Hl & Ha & Hb)]. split; [exact He|].
  rewrite Hl. now apply first_with_uuid_first.
Qed.

Lemma absent_find target r :
  absent target r ->
  is_Some (err r) \/ (err r = None /\ first_with_uuid target (items r) = None).
Proof.
  intros [H|H]; [now left|].
  destruct (err r) as [e|] eqn:He; [left; now exists e|right].
  split; [reflexivity|now apply first_with_uuid_absent].
Qed.

Lemma requests_emit_console o w : requests (emit (Console o) w) = requests w.
Proof. unfold requests; cbn. rewrite omap_app; cbn. apply app_nil_r. Qed.

Lemma requests_emit_issued req w : requests (emit (Issued req) w) = requests w ++ [req].
Proof. unfold requests; cbn. now rewrite omap_app. Qed.

(** ** Proof steps shared by the conversation lemmas *)

Ltac reply_facts :=
  repeat match goal with
  | H : first_match _ _ _ |- _ => apply first_match_find in H; cbn in H; destruct H
  | H : accepted _ |- _ => unfold accepted in H
  end.

Ltac feed_step :=
  match goal with
  | H : err _ = _ |- _ => rewrite H
  | H : first_with_uuid _ _ = _ |- _ => rewrite H
  end.

Ltac converse := reply_facts; repeat (cbn; repeat feed_step).

Ltac absent_cases H :=
  apply absent_find in H; cbn in H; destruct H as [[? ?]|[? ?]].

Ltac list_eq :=
  unfold requests; cbn; rewrite ?omap_app; cbn; rewrite <- ?app_assoc; cbn;
  reflexivity.

Ltac is_fatal :=
  split; [reflexivity|split; [eexists; cbn; apply last_snoc|
    intros ?; eapply steps_exited; reflexivity]].


(** ** The discovery pipeline *)

Lemma service_step_fails (tty : bool) v w device params r0 r1 :
  running w -> accepted r0 -> absent (target_service v) r1 ->
  fatal (program_of tty v) (discovery tty v device params r0 [r1] w) /\
  (exists reason, ServiceNotFound v reason /\
     last (out (discovery tty v device params r0 [r1] w)) = Some (Console (LogErrorObject reason))) /\
  requests (discovery tty v device params r0 [r1] w) =
    requests w ++ before_discovery v device params ++
    [Adapter_getServices (dev_instanceId device)].
Proof.
  intros Hw H0 H1.
  destruct v; unfold discovery; rewrite conversation_feed by exact Hw;
    absent_cases H1; converse;
    (split; [is_fatal|split; [|list_eq]]);
    refine (ex_intro _ _ (conj _ (last_snoc _ _)));
    first [left; eexists; reflexivity|right; reflexivity].
Qed.

Lemma service_step_finds (tty : bool) v w device params r0 r1 service :
  running w -> accepted r0 -> first_match (target_service v) r1 service ->
  running (discovery tty v device params r0 [r1] w) /\
  requests (discovery tty v device params r0 [r1] w) =
    requests w ++ before_discovery v device params ++
    [Adapter_getServices (dev_instanceId device);
     Adapter_getCharacteristics (instanceId service)].
Proof.
  intros Hw H0 H1.
  destruct v; unfold discovery; rewrite conversation_feed by exact Hw;
    converse; (split; [exact Hw|list_eq]).
Qed.

Lemma characteristic_step_fails (tty : bool) v w device params r0 r1 service r2 :
  running w -> accepted r0 -> first_match (target_service v) r1 service ->
  absent (target_characteristic v) r2 ->
  fatal (program_of tty v) (discovery tty v device params r0 [r1; r2] w) /\
  requests (discovery tty v device params r0 [r1; r2] w) =
    requests w ++ before_discovery v device params ++
    [Adapter_getServices (dev_instanceId device);
     Adapter_getCharacteristics (instanceId service)].
Proof.
  intros Hw H0 H1 H2.
  destruct v; unfold discovery; rewrite conversation_feed by exact Hw;
    absent_cases H2; converse; (split; [is_fatal|list_eq]).
Qed.

Lemma descriptor_step_fails (tty : bool) v w device params r0 r1 service r2 characteristic r3 :
  running w -> accepted r0 -> first_match (target_service v) r1 service ->
  first_match (target_characteristic v) r2 characteristic ->
  absent (target_descriptor v) r3 ->
  fatal (program_of tty v) (discovery tty v device params r0 [r1; r2; r3] w) /\
  requests (discovery tty v device params r0 [r1; r2; r3] w) =
    requests w ++ before_discovery v device params ++
    [Adapter_getServices (dev_instanceId device);
     Adapter_getCharacteristics (instanceId service);
     Adapter_getDescriptors (instanceId characteristic)].
Proof.
  intros Hw H0 H1 H2 H3.
  destruct v; unfold discovery; rewrite conversation_feed by exact Hw;
    absent_cases H3; converse; (split; [is_fatal|list_eq]).
Qed.

(** C5. When the adapter fails to list the services or lists none with the
    target uuid, the pipeline rejects with ServiceNotFound and
    [getCharacteristics] is not called; when a service matches, the first
    one in iteration order is the one passed on (its characteristics are
    listed next); a failure at the service, characteristic or descriptor
    step is not retried: the process prints the error and exits with
    status 1.  Both programs; the UART central runs the pipeline after the
    accepted parameter update [r0]. *)
Theorem discovery_stops_at_first_failure (tty : bool)
    (v : Variant) (w : World) (device : Device) (params : ConnParams) (r0 : Response) :
  running w -> accepted r0 ->
  (forall r1, absent (target_service v) r1 ->
     fatal (program_of tty v) (discovery tty v device params r0 [r1] w) /\
     (exists reason, ServiceNotFound v reason /\
        last (out (discovery tty v device params r0 [r1] w)) = Some (Console (LogErrorObject reason))) /\
     requests (discovery tty v device params r0 [r1] w) =
       requests w ++ before_discovery v device params ++
       [Adapter_getServices (dev_instanceId device)]) /\
  (forall r1 service, first_match (target_service v) r1 service ->
     running (discovery tty v device params r0 [r1] w) /\
     requests (discovery tty v device params r0 [r1] w) =
       requests w ++ before_discovery v device params ++
       [Adapter_getServices (dev_instanceId device);
        Adapter_getCharacteristics (instanceId service)]) /\
  (forall r1 service r2,
     first_match (target_service v) r1 service ->
     absent (target_characteristic v) r2 ->
     fatal (program_of tty v) (discovery tty v device params r0 [r1; r2] w) /\
     requests (discovery tty v device params r0 [r1; r2] w) =
       requests w ++ before_discovery v device params ++
       [Adapter_getServices (dev_instanceId device);
        Adapter_getCharacteristics (instanceId service)]) /\
  (forall r1 service r2 characteristic r3,
     first_match (target_service v) r1 service ->
     first_match (target_characteristic v) r2 characteristic ->
     absent (target_descriptor v) r3 ->
     fatal (program_of tty v) (discovery tty v device params r0 [r1; r2; r3] w) /\
     requests (discovery tty v device params r0 [r1; r2; r3] w) =
       requests w ++ before_discovery v device params ++
       [Adapter_getServices (dev_instanceId device);
        Adapter_getCharacteristics (instanceId service);
        Adapter_getDescriptors (instanceId characteristic)]).
Proof.
  intros Hw H0. split; [|split; [|split]]; intros.
  - now apply service_step_fails.
  - now apply service_step_finds.
  - now apply characteristic_step_fails.
  - now apply descriptor_step_fails.
Qed.

Lemma discovery_stops_at_first_failure_witness :
  running (scanning UartVariant) /\ accepted success /\
  exited (discovery true UartVariant uart_peer requested_params success
            [listing [generic_access]] (scanning UartVariant)) = Some 1 /\
  requests (discovery true UartVariant uart_peer requested_params success
              [listing [generic_access; service_of UartVariant; second_service_of UartVariant]]
              (scanning UartVariant)) =
    requests (scanning UartVariant) ++
    [Adapter_updateConnectionParameters "C0FFEE000002.0" requested_params;
     Adapter_getServices "C0FFEE000002.0"; Adapter_getCharacteristics "svc.2"].
Proof.
  destruct (discovery_stops_at_first_failure true UartVariant (scanning UartVariant) uart_peer
              requested_params success eq_refl eq_refl) as (Hfail & Hfind & _).
  split; [reflexivity|split; [reflexivity|split]].
  - apply (Hfail (listing [generic_access])).
    right. repeat constructor. discriminate.
  - apply (Hfind (listing [generic_access; service_of UartVariant; second_service_of UartVariant])
                 (service_of UartVariant)).
    split; [reflexivity|]. exists [generic_access], [second_service_of UartVariant].
    split; [reflexivity|split; [reflexivity|]]. repeat constructor. discriminate.
Defined.

(** ** Disconnection *)

(** C6.  On [deviceDisconnected] both programs issue exactly one
    [startScan], with [scanParameters], which are also the parameters of
    the scan the script starts once the adapter is open.  If the adapter
    fails the rescan, the error is printed and nothing else happens: no
    request, no pending callback, no exit. *)
Theorem deviceDisconnected_rescans_once (tty : bool) (v : Variant) (w : World) (device : Device) :
  running w ->
  requests (step (program_of tty v) (Emit (deviceDisconnected device)) w) =
    requests w ++ [Adapter_startScan scanParameters] /\
  (forall r e, err r = Some e ->
     conversation (program_of tty v) (Emit (deviceDisconnected device)) [r] w =
       emit (Console (LogErrorObject [Lit "Error starting scanning: "; Err e; Lit "."]))
         (emit (Issued (Adapter_startScan scanParameters))
            (emit (Console (LogText [Lit "Started scanning..."]))
               (emit (Console (LogText [Lit "Device "; Str (address device); Lit " disconnected."])) w)))) /\
  (forall r, accepted r ->
     conversation (program_of tty v) (Emit (deviceDisconnected device)) [r] w =
       emit (Console (LogText [Lit "Successfully initiated the scanning procedure."]))
         (emit (Issued (Adapter_startScan scanParameters))
            (emit (Console (LogText [Lit "Started scanning..."]))
               (emit (Console (LogText [Lit "Device "; Str (address device); Lit " disconnected."])) w)))) /\
  (forall node file port apiVersion r,
     apiVersion = "v2" \/ apiVersion = "v5" -> accepted r ->
     last (requests (steps (program_of tty v) [Reply 0 r]
                       (boot (program_of tty v) [node; file; port; apiVersion]))) =
       Some (Adapter_startScan scanParameters)).
Proof.
  intros Hw. split; [|split; [|split]].
  - unfold step. rewrite Hw. destruct v; cbn; list_eq.
  - intros r e Hr. rewrite conversation_feed by exact Hw.
    destruct v; cbn; rewrite Hr; destruct w; reflexivity.
  - intros r Hr. rewrite conversation_feed by exact Hw. unfold accepted in Hr.
    destruct v; cbn; rewrite Hr; destruct w; reflexivity.
  - intros node file port apiVersion r Hv Hr. unfold accepted in Hr.
    assert (Hmem : bool_decide (apiVersion ∈ ["v2"; "v5"]) = true).
    { apply bool_decide_eq_true_2. destruct Hv as [-> | ->]; repeat constructor. }
    destruct v; cbn; rewrite Hmem; cbn; rewrite Hr; reflexivity.
Qed.

Lemma deviceDisconnected_rescans_once_witness :
  running (subscribed BlinkyVariant) /\
  requests (conversation (Blinky.program true) (Emit (deviceDisconnected blinky_peer)) [failure]
              (subscribed BlinkyVariant)) =
    requests (subscribed BlinkyVariant) ++ [Adapter_startScan scanParameters] /\
  exited (conversation (Blinky.program true) (Emit (deviceDisconnected blinky_peer)) [failure]
            (subscribed BlinkyVariant)) = None.
Proof.
  destruct (deviceDisconnected_rescans_once true BlinkyVariant (subscribed BlinkyVariant) blinky_peer
              eq_refl) as (_ & Hfail & _).
  split; [reflexivity|].
  cbn [program_of] in Hfail. rewrite (Hfail failure _ eq_refl).
  vm_compute. split; reflexivity.
Defined.

(** ** Keystrokes *)

Lemma first_is_true chunk c : first_is chunk c = true <-> exists rest, chunk = String c rest.
Proof.
  destruct chunk as [|c0 rest]; cbn.
  - split; [discriminate|]. intros [? ?]; discriminate.
  - rewrite bool_decide_eq_true. split.
    + intros ->. now exists rest.
    + intros [? H]. now inversion H.
Qed.

Lemma first_is_false chunk c :
  (forall rest, chunk <> String c rest) -> first_is chunk c = false.
Proof.
  intros H. destruct (first_is chunk c) eqn:E; [|reflexivity].
  apply first_is_true in E as [rest ->]. now destruct (H rest).
Qed.

Lemma toggle_key_quit v chunk :
  toggle_key v chunk -> first_is chunk "q" || first_is chunk "Q" = false.
Proof.
  intros H. rewrite !first_is_false; [reflexivity| |];
    intros rest ->; destruct (H _ _ eq_refl) as (? & ? & _); congruence.
Qed.

Lemma toggle_key_led chunk :
  toggle_key BlinkyVariant chunk -> first_is chunk "l" || first_is chunk "L" = false.
Proof.
  intros H. rewrite !first_is_false; [reflexivity| |];
    intros rest ->; destruct (H _ _ eq_refl) as (_ & _ & Hl);
    destruct (Hl eq_refl); congruence.
Qed.

(** Once the data is read, the remaining listeners read [null] and
    return. *)
Lemma listeners_idle (tty : bool) v (l : list (Attribute * Ref)) w :
  stdin_buffer w = None ->
  foldl (fun w '(d, a) => turn (stdin_on_readable (program_of tty v) d a) w) w l = w.
Proof.
  intros Hb. induction l as [|[d a] l IH]; [reflexivity|].
  cbn [foldl].
  replace (turn (stdin_on_readable (program_of tty v) d a) w) with w; [exact IH|].
  unfold turn. destruct (exited w); [reflexivity|].
  destruct v; cbn; rewrite Hb; destruct w; cbn in *; now subst.
Qed.

Lemma blinky_listeners_idle (l : list (Attribute * Ref)) w :
  stdin_buffer w = None ->
  foldl (fun w '(d, a) => turn (Blinky.on_readable d a) w) w l = w.
Proof. exact (listeners_idle true BlinkyVariant l w). Qed.

Lemma array_set_pair h a e v :
  h !! a = Some [e; 0] -> array_set a 0 v h = <[a := [v; 0]]> h.
Proof. intros H. unfold array_set, deref. now rewrite H. Qed.

Lemma deref_insert (h : list (list Z)) a x :
  (a < length h)%nat -> deref (<[a := x]> h) a = x.
Proof. intros H. unfold deref. now rewrite list_lookup_insert_eq. Qed.

(** What the first listener does with a toggling key. *)
Lemma toggle_turn (tty : bool) v w chunk d a e :
  running w -> heap w !! a = Some [e; 0] -> toggle_key v chunk ->
  exists k text,
    turn (stdin_on_readable (program_of tty v) d a) (set_stdin_buffer (Some chunk) w) =
    mkWorld (<[a := [if Z.eqb e 0 then 1 else 0; 0]]> (heap w)) (stdin_listeners w) None
      (pending w ++ [k])
      (out w ++ [Console (LogText text);
                 Issued (Adapter_writeDescriptorValue (instanceId d)
                           [if Z.eqb e 0 then 1 else 0; 0] false)])
      None.
Proof.
  intros Hw Ha Hk.
  pose proof (lookup_lt_Some _ _ _ Ha) as Hlen.
  pose proof (toggle_key_quit _ _ Hk) as Hq.
  unfold turn. cbn [exited set_stdin_buffer]. rewrite Hw.
  destruct v; cbn; rewrite Hq; [rewrite (toggle_key_led _ Hk)|]; cbn;
    unfold deref; rewrite Ha; cbn;
    destruct (Z.eqb e 0); cbn;
    unfold set_pending, emit, set_heap, set_stdin_buffer; cbn;
    rewrite (array_set_pair _ _ _ _ Ha), (deref_insert _ _ _ Hlen), Hw, <- app_assoc;
    cbn; do 2 eexists; reflexivity.
Qed.

Lemma keystroke_toggles (tty : bool) v w chunk d a others e :
  running w -> stdin_listeners w = (d, a) :: others -> heap w !! a = Some [e; 0] ->
  toggle_key v chunk ->
  let w' := step (program_of tty v) (Readable (Some chunk)) w in
  running w' /\ stdin_listeners w' = stdin_listeners w /\
  heap w' = <[a := [if Z.eqb e 0 then 1 else 0; 0]]> (heap w) /\
  requests w' = requests w ++
    [Adapter_writeDescriptorValue (instanceId d) [if Z.eqb e 0 then 1 else 0; 0] false].
Proof.
  intros Hw Hl Ha Hk w'. subst w'.
  destruct (toggle_turn tty v w chunk d a e Hw Ha Hk) as (k & text & Hturn).
  unfold step. rewrite Hw, Hl. cbn [foldl]. rewrite Hturn.
  rewrite listeners_idle by reflexivity. cbn.
  split; [reflexivity|split; [exact Hl|split; [reflexivity|list_eq]]].
Qed.

(** C4.  Two toggling keys in a row, handled by the registered listener of
    either program, leave the array [notificationsEnabled] as it was and
    issue exactly two [writeDescriptorValue] requests, both with
    [ack = false]; the adapter is given the array when its enable byte is
    flipped, then when it is back: [1, 0] then [0, 0], or [0, 0] then
    [1, 0].  The state is [[e; 0]] with [e] 0 or 1, as the spec defines
    NotificationState. *)
Theorem toggle_twice_restores (tty : bool)
    (v : Variant) (w : World) (chunk1 chunk2 : string)
    (d : Attribute) (a : Ref) (others : list (Attribute * Ref)) (e : Z) :
  running w -> stdin_listeners w = (d, a) :: others ->
  heap w !! a = Some [e; 0] -> e = 0 \/ e = 1 ->
  toggle_key v chunk1 -> toggle_key v chunk2 ->
  let w2 := steps (program_of tty v) [Readable (Some chunk1); Readable (Some chunk2)] w in
  heap w2 = heap w /\
  requests w2 = requests w ++
    [Adapter_writeDescriptorValue (instanceId d) [1 - e; 0] false;
     Adapter_writeDescriptorValue (instanceId d) [e; 0] false].
Proof.
  intros Hw Hl Ha He Hk1 Hk2 w2. subst w2.
  pose proof (lookup_lt_Some _ _ _ Ha) as Hlen.
  rewrite steps_cons, steps_cons, steps_nil.
  destruct (keystroke_toggles tty v w chunk1 d a others e Hw Hl Ha Hk1) as (Hw1 & Hl1 & Hh1 & Hr1).
  set (w1 := step (program_of tty v) (Readable (Some chunk1)) w) in *.
  assert (Ha1 : heap w1 !! a = Some [if Z.eqb e 0 then 1 else 0; 0]).
  { rewrite Hh1. now apply list_lookup_insert_eq. }
  rewrite Hl in Hl1.
  destruct (keystroke_toggles tty v w1 chunk2 d a others _ Hw1 Hl1 Ha1 Hk2) as (_ & _ & Hh2 & Hr2).
  rewrite Hh2, Hr2, Hh1, Hr1, list_insert_insert_eq, <- app_assoc.
  destruct He as [-> | ->]; cbn; (split; [now apply list_insert_id|reflexivity]).
Qed.

Lemma toggle_twice_restores_witness :
  running notifying /\
  stdin_listeners notifying = [(cccd, 0%nat)] /\
  heap notifying !! 0%nat = Some [1; 0] /\
  toggle_key BlinkyVariant "x" /\ toggle_key BlinkyVariant "y" /\
  heap (steps (Blinky.program true) [Readable (Some "x"); Readable (Some "y")] notifying) = [[1; 0]] /\
  drop 7 (requests (steps (Blinky.program true) [Readable (Some "x"); Readable (Some "y")] notifying)) =
    [Adapter_writeDescriptorValue "dsc.9" [0; 0] false;
     Adapter_writeDescriptorValue "dsc.9" [1; 0] false].
Proof.
  assert (Hx : toggle_key BlinkyVariant "x").
  { intros c rest [= <- <-]. repeat split; discriminate. }
  assert (Hy : toggle_key BlinkyVariant "y").
  { intros c rest [= <- <-]. repeat split; discriminate. }
  destruct (toggle_twice_restores true BlinkyVariant notifying "x" "y" cccd 0%nat [] 1
              eq_refl eq_refl eq_refl (or_intror eq_refl) Hx Hy) as (Hheap & Hreq).
  cbn [program_of] in Hheap, Hreq.
  do 3 (split; [reflexivity|]).
  split; [exact Hx|]. split; [exact Hy|]. split.
  - rewrite Hheap. reflexivity.
  - rewrite Hreq. vm_compute. reflexivity.
Defined.

(** C10.  In the Blinky central a chunk that starts with [l] or [L]
    changes nothing but the stdin buffer: no adapter operation, no change
    of [notificationsEnabled], no output; and this although the prompt
    printed after discovery offers the key for the LED.  With a listener
    registered, [q] or [Q] asks the adapter to close and leaves the array
    alone, and any other first character flips the enable byte and writes
    the array to the CCCD. *)
Theorem blinky_led_key_is_ignored (tty : bool) (w : World) (c : ascii) (rest : string) :
  running w ->
  ((c = "l"%char \/ c = "L"%char) ->
     exists b, step (Blinky.program tty) (Readable (Some (String c rest))) w = set_stdin_buffer b w) /\
  (forall d a others,
     stdin_listeners w = (d, a) :: others -> c = "q"%char \/ c = "Q"%char ->
     heap (step (Blinky.program tty) (Readable (Some (String c rest))) w) = heap w /\
     requests (step (Blinky.program tty) (Readable (Some (String c rest))) w) =
       requests w ++ [Adapter_close]) /\
  (forall d a others e,
     stdin_listeners w = (d, a) :: others -> heap w !! a = Some [e; 0] ->
     c <> "q"%char -> c <> "Q"%char -> c <> "l"%char -> c <> "L"%char ->
     heap (step (Blinky.program tty) (Readable (Some (String c rest))) w) =
       <[a := [if Z.eqb e 0 then 1 else 0; 0]]> (heap w) /\
     requests (step (Blinky.program tty) (Readable (Some (String c rest))) w) =
       requests w ++
       [Adapter_writeDescriptorValue (instanceId d) [if Z.eqb e 0 then 1 else 0; 0] false]) /\
  (forall device r1 r2 r3 service characteristic descriptor,
     first_match Blinky.BLE_UUID_BLINKY_SERVICE r1 service ->
     first_match Blinky.LBS_UUID_BLINKY_BUTTON_CHAR r2 characteristic ->
     first_match Blinky.BLE_UUID_CCCD r3 descriptor ->
     In (Console (LogText [Lit "Press `l` or `L` to toggle LED on and off."]))
        (out (conversation (Blinky.program tty) (Emit (deviceConnected device)) [r1; r2; r3] w))).
Proof.
  intros Hw. split; [|split; [|split]].
  - intros Hc. unfold step. rewrite Hw.
    destruct (stdin_listeners w) as [|[d a] others]; [eexists; reflexivity|].
    exists None. cbn [foldl]. unfold turn at 2. cbn [exited set_stdin_buffer]. rewrite Hw.
    destruct Hc as [-> | ->]; cbn; (rewrite blinky_listeners_idle by reflexivity); reflexivity.
  - intros d a others Hl Hc.
    assert (exists k, step (Blinky.program tty) (Readable (Some (String c rest))) w =
                      set_pending (fun l => l ++ [k])
                        (emit (Issued Adapter_close) (set_stdin_buffer None w))) as [k ->].
    { unfold step. rewrite Hw, Hl.
      cbn [foldl]. unfold turn at 2. cbn [exited set_stdin_buffer]. rewrite Hw.
      destruct Hc as [-> | ->]; cbn; (rewrite blinky_listeners_idle by reflexivity);
        eexists; reflexivity. }
    split; [reflexivity|list_eq].
  - intros d a others e Hl Ha Hq HQ Hlow HL.
    assert (Hk : toggle_key BlinkyVariant (String c rest)).
    { intros c' rest' [= <- <-]. repeat split; assumption. }
    destruct (keystroke_toggles tty BlinkyVariant w _ d a others e Hw Hl Ha Hk) as (_ & _ & Hh & Hr).
    split; [exact Hh|exact Hr].
  - intros device r1 r2 r3 service characteristic descriptor H1 H2 H3.
    destruct tty; rewrite conversation_feed by exact Hw; converse;
      rewrite !in_app_iff; cbn; tauto.
Qed.

Lemma blinky_led_key_is_ignored_witness :
  running notifying /\
  step (Blinky.program true) (Readable (Some "l")) notifying = notifying.
Proof.
  destruct (blinky_led_key_is_ignored true notifying "l" "" eq_refl) as (Hled & _).
  split; [reflexivity|].
  destruct (Hled (or_introl eq_refl)) as [b Hb]. rewrite Hb.
  assert (Hbuf : stdin_buffer (set_stdin_buffer b notifying) = None).
  { rewrite <- Hb. vm_compute. reflexivity. }
  cbn [stdin_buffer set_stdin_buffer] in Hbuf. subst b. vm_compute. reflexivity.
Defined.

(** ** Invariants of all runs *)

Section Safety.
Variable P : Program.
Variable phi : Node -> Prop.
Variable psi : World -> Prop.

(** [psi] only looks at the arrays, the stdin listeners and the trace. *)
Hypothesis psi_frame : forall w w',
  heap w = heap w' -> stdin_listeners w = stdin_listeners w' -> out w = out w' ->
  psi w -> psi w'.
Hypothesis psi_act : forall n w, phi n -> psi w -> psi (act n w).
Hypothesis psi_init : psi (mkWorld (globals P) [] None [] [] None).
Hypothesis script_ok : forall argv, always phi (script P argv).
Hypothesis adapter_on_ok : forall e, always phi (adapter_on P e).
Hypothesis readable_ok : forall w,
  psi w -> Forall (fun l => always phi (stdin_on_readable P l.1 l.2)) (stdin_listeners w).

Lemma exec_safe p : forall w, always phi p -> safe phi psi w -> safe phi psi (exec p w).
Proof.
  induction p as [a|code|o k IH|init k IH|a i k IH|a i v k IH|d a k IH|k IH|req k IH];
    intros w Hp [Hpsi Hpend]; cbn [exec].
  - now split.
  - split; [|exact Hpend]. now apply (psi_frame w).
  - destruct Hp as [Ho Hk]. apply IH; [exact Hk|].
    split; [|exact Hpend]. now apply (psi_act (NLog o)).
  - destruct Hp as [Ho Hk]. apply IH; [apply Hk|].
    split; [|exact Hpend]. now apply (psi_act (NAlloc init)).
  - apply IH; [apply Hp|now split].
  - destruct Hp as [Ho Hk]. apply IH; [exact Hk|].
    split; [|exact Hpend]. now apply (psi_act (NArraySet a i v)).
  - destruct Hp as [Ho Hk]. apply IH; [exact Hk|].
    split; [|exact Hpend]. now apply (psi_act (NListen d a)).
  - apply IH; [apply Hp|]. split; [|exact Hpend]. now apply (psi_frame w).
  - destruct Hp as [Ho Hk]. split.
    + apply (psi_frame (act (NCall req) w)); [reflexivity..|]. now apply psi_act.
    + cbn. apply Forall_app. split; [exact Hpend|]. now constructor.
Qed.

Lemma turn_safe p w : always phi p -> safe phi psi w -> safe phi psi (turn p w).
Proof.
  intros Hp Hw. unfold turn. destruct (exited w); [exact Hw|now apply exec_safe].
Qed.

Lemma step_safe ev w : safe phi psi w -> safe phi psi (step P ev w).
Proof.
  intros Hw. unfold step. destruct (exited w) as [code|] eqn:Hx; [exact Hw|].
  destruct ev as [e|chunk|i r].
  - apply exec_safe; [apply adapter_on_ok|exact Hw].
  - pose proof (readable_ok w (proj1 Hw)) as Hl.
    assert (Hw' : safe phi psi (set_stdin_buffer chunk w)).
    { destruct Hw as [Hpsi Hpend]. split; [|exact Hpend]. now apply (psi_frame w). }
    revert Hl Hw'. generalize (set_stdin_buffer chunk w).
    induction (stdin_listeners w) as [|[d a] l IH]; intros w0 Hl Hw0; [exact Hw0|].
    cbn [foldl]. inversion Hl as [|? ? Hda Hl']; subst.
    apply IH; [exact Hl'|]. apply turn_safe; [exact Hda|exact Hw0].
  - destruct (pending w !! i) as [k|] eqn:Hk; [|exact Hw].
    destruct Hw as [Hpsi Hpend].
    apply exec_safe.
    + apply (Forall_lookup_1 _ _ _ _ Hpend Hk).
    + split; [now apply (psi_frame w)|]. cbn. now apply Forall_delete.
Qed.

Lemma steps_safe evs : forall w, safe phi psi w -> safe phi psi (steps P evs w).
Proof.
  induction evs as [|ev evs IH]; intros w Hw; [exact Hw|].
  rewrite steps_cons. apply IH. now apply step_safe.
Qed.

Lemma boot_safe argv : safe phi psi (boot P argv).
Proof.
  unfold boot. apply exec_safe; [apply script_ok|]. split; [exact psi_init|constructor].
Qed.

(** [psi] holds after every run of the program. *)
Lemma reachable_safe argv evs : psi (steps P evs (boot P argv)).
Proof. apply steps_safe, boot_safe. Qed.
End Safety.

Ltac always_tac :=
  repeat (cbn;
    match goal with
    | |- True => exact I
    | |- _ = _ => reflexivity
    | |- _ /\ _ => split
    | |- forall _, _ => intro
    | |- context [match ?x with _ => _ end] => destruct x
    end).

Lemma requests_set_heap f w : requests (set_heap f w) = requests w.
Proof. reflexivity. Qed.

Lemma requests_set_stdin_listeners f w : requests (set_stdin_listeners f w) = requests w.
Proof. reflexivity. Qed.

Lemma request_ok_snapshot v h req : request_ok v req -> request_ok v (snapshot h req).
Proof. now destruct req. Qed.

(** Every [startScan] and every [connect] of every run carries the
    parameters written in the program. *)
Lemma all_requests_ok (tty : bool) v argv evs :
  requests_ok v (steps (program_of tty v) evs (boot (program_of tty v) argv)).
Proof.
  apply (reachable_safe (program_of tty v) (calls_ok v) (requests_ok v)).
  - intros w w' _ _ Ho. unfold requests_ok, requests. now rewrite Ho.
  - intros n w Hn Hw. unfold requests_ok in *.
    destruct n; cbn [act];
      rewrite ?requests_emit_console, ?requests_set_heap, ?requests_set_stdin_listeners;
      try exact Hw.
    rewrite requests_emit_issued. apply Forall_app. split; [exact Hw|].
    constructor; [|constructor]. now apply request_ok_snapshot.
  - constructor.
  - intros argv'. destruct v; cbn;
      destruct argv' as [|? [|? [|? [|? [|? ?]]]]]; always_tac.
  - intros e. destruct tty, v, e; always_tac.
  - intros w _. apply Forall_forall. intros [d a] _. destruct v; always_tac.
Qed.

(** The UART central never changes its array, never listens to stdin, and
    only ever wrote [1, 0]. *)
Lemma uart_invariant argv evs :
  uart_frozen (steps Uart.program evs (boot Uart.program argv)).
Proof.
  apply (reachable_safe Uart.program uart_effect uart_frozen).
  - intros w w' Hh Hl Ho. unfold uart_frozen, requests. now rewrite Hh, Hl, Ho.
  - intros n w Hn (Hh & Hl & Hr). unfold uart_frozen.
    destruct n as [o| | | |req]; try contradiction; cbn [act].
    + rewrite requests_emit_console. now split.
    + rewrite requests_emit_issued. split; [exact Hh|split; [exact Hl|]].
      apply Forall_app. split; [exact Hr|]. constructor; [|constructor].
      destruct req; try exact I. cbn in Hn. subst. cbn. now rewrite Hh.
  - now split.
  - intros argv'. cbn. destruct argv' as [|? [|? [|? [|? [|? ?]]]]]; always_tac.
  - intros e. destruct e; always_tac.
  - intros w (_ & Hl & _). rewrite Hl. constructor.
Qed.

(** ** Scan and connect parameters *)

Lemma subscribed_run v :
  subscribed v =
  steps (program_of true v) ([Reply 0 success; Reply 0 success] ++ session v)
    (boot (program_of true v) argv_example).
Proof. unfold subscribed, scanning. now rewrite steps_app. Qed.

(** C8.  Both programs issue their scan and connect requests with the
    parameters of the claim.  Once the adapter is open the script issues
    [startScan] with [active: true, interval: 100, window: 50, timeout: 0];
    every [deviceDisconnected] issues the same request again; every
    [deviceDiscovered] of a device with the name of the profile issues
    [connect] to its address with [scanParams] [active: false,
    interval: 100, window: 50, timeout: 0] and the connection parameters
    of the program (7.5, 300, 0 and 4000, in the Blinky central under the
    legacy names, in the UART central under both spellings).  And in every
    run no [startScan] and no [connect] request carries anything else. *)
Theorem scan_and_connect_parameters (tty : bool) (v : Variant) :
  (forall node file port apiVersion r,
     apiVersion = "v2" \/ apiVersion = "v5" -> accepted r ->
     requests (steps (program_of tty v) [Reply 0 r]
                 (boot (program_of tty v) [node; file; port; apiVersion])) =
       [Adapter_open 1000000 (log_level v);
        Adapter_startScan {| active := true; interval := 100; window := 50; timeout := 0 |}]) /\
  (forall w device,
     running w ->
     requests (step (program_of tty v) (Emit (deviceDisconnected device)) w) =
       requests w ++
       [Adapter_startScan {| active := true; interval := 100; window := 50; timeout := 0 |}]) /\
  (forall w device,
     running w -> name device = peer_name v ->
     requests (step (program_of tty v) (Emit (deviceDiscovered device)) w) =
       requests w ++
       [Adapter_connect (address device)
          {| scanParams := {| active := false; interval := 100; window := 50; timeout := 0 |};
             connParams :=
               match v with
               | BlinkyVariant =>
                   list_to_map [("min_conn_interval", 7.5%Q); ("max_conn_interval", 300%Q);
                                ("slave_latency", 0%Q); ("conn_sup_timeout", 4000%Q)]
               | UartVariant =>
                   list_to_map [("min_conn_interval", 7.5%Q); ("minConnectionInterval", 7.5%Q);
                                ("max_conn_interval", 300%Q); ("maxConnectionInterval", 300%Q);
                                ("slave_latency", 0%Q); ("slaveLatency", 0%Q);
                                ("conn_sup_timeout", 4000%Q);
                                ("connectionSupervisionTimeout", 4000%Q)]
               end |}]) /\
  (forall argv evs req,
     In req (requests (steps (program_of tty v) evs (boot (program_of tty v) argv))) ->
     match req with
     | Adapter_startScan p =>
         p = {| active := true; interval := 100; window := 50; timeout := 0 |}
     | Adapter_connect _ o =>
         o = {| scanParams := {| active := false; interval := 100; window := 50; timeout := 0 |};
                connParams :=
                  match v with
                  | BlinkyVariant =>
                      list_to_map [("min_conn_interval", 7.5%Q); ("max_conn_interval", 300%Q);
                                   ("slave_latency", 0%Q); ("conn_sup_timeout", 4000%Q)]
                  | UartVariant =>
                      list_to_map [("min_conn_interval", 7.5%Q); ("minConnectionInterval", 7.5%Q);
                                   ("max_conn_interval", 300%Q); ("maxConnectionInterval", 300%Q);
                                   ("slave_latency", 0%Q); ("slaveLatency", 0%Q);
                                   ("conn_sup_timeout", 4000%Q);
                                   ("connectionSupervisionTimeout", 4000%Q)]
                  end |}
     | _ => True
     end).
Proof.
  split; [|split; [|split]].
  - intros node file port apiVersion r Hv Hr. unfold accepted in Hr.
    assert (Hmem : bool_decide (apiVersion ∈ ["v2"; "v5"]) = true).
    { apply bool_decide_eq_true_2. destruct Hv as [-> | ->]; repeat constructor. }
    destruct v; cbn; rewrite Hmem; cbn; rewrite Hr; reflexivity.
  - intros w device Hw. unfold step. rewrite Hw. destruct v; cbn; list_eq.
  - intros w device Hw Hn. apply String.eqb_eq in Hn. unfold step. rewrite Hw.
    destruct v; cbn in *; rewrite Hn; cbn; list_eq.
  - intros argv evs req Hin.
    pose proof (all_requests_ok tty v argv evs) as Hok.
    unfold requests_ok in Hok. rewrite Forall_forall in Hok.
    apply list_elem_of_In, Hok in Hin.
    destruct req; try exact I; cbn in Hin; subst.
    + reflexivity.
    + destruct v; reflexivity.
Qed.

Lemma scan_and_connect_parameters_witness :
  ("v5" = "v2" \/ "v5" = "v5") /\ accepted success /\
  running (scanning BlinkyVariant) /\ name blinky_peer = peer_name BlinkyVariant /\
  running (subscribed UartVariant) /\ name uart_peer = peer_name UartVariant /\
  requests (steps (program_of true BlinkyVariant) [Reply 0 success]
              (boot (program_of true BlinkyVariant) ["node"; "central.js"; "COM1"; "v5"])) =
    [Adapter_open 1000000 "error";
     Adapter_startScan {| active := true; interval := 100; window := 50; timeout := 0 |}] /\
  requests (step (program_of true BlinkyVariant) (Emit (deviceDiscovered blinky_peer))
              (scanning BlinkyVariant)) =
    requests (scanning BlinkyVariant) ++
    [Adapter_connect "C0:FF:EE:00:00:01"
       {| scanParams := {| active := false; interval := 100; window := 50; timeout := 0 |};
          connParams :=
            list_to_map [("min_conn_interval", 7.5%Q); ("max_conn_interval", 300%Q);
                         ("slave_latency", 0%Q); ("conn_sup_timeout", 4000%Q)] |}] /\
  requests (step (program_of true UartVariant) (Emit (deviceDisconnected uart_peer))
              (subscribed UartVariant)) =
    requests (subscribed UartVariant) ++
    [Adapter_startScan {| active := true; interval := 100; window := 50; timeout := 0 |}] /\
  requests (step (program_of true UartVariant) (Emit (deviceDiscovered uart_peer))
              (subscribed UartVariant)) =
    requests (subscribed UartVariant) ++
    [Adapter_connect "C0:FF:EE:00:00:02"
       {| scanParams := {| active := false; interval := 100; window := 50; timeout := 0 |};
          connParams :=
            list_to_map [("min_conn_interval", 7.5%Q); ("minConnectionInterval", 7.5%Q);
                         ("max_conn_interval", 300%Q); ("maxConnectionInterval", 300%Q);
                         ("slave_latency", 0%Q); ("slaveLatency", 0%Q);
                         ("conn_sup_timeout", 4000%Q);
                         ("connectionSupervisionTimeout", 4000%Q)] |}].
Proof.
  assert (Hv : "v5" = "v2" \/ "v5" = "v5") by (right; reflexivity).
  destruct (scan_and_connect_parameters true BlinkyVariant) as (Hfirst & _ & Hconnect & _).
  destruct (scan_and_connect_parameters true UartVariant) as (_ & Hrescan & Hconnect' & _).
  split; [exact Hv|]. do 5 (split; [reflexivity|]).
  split; [exact (Hfirst "node" "central.js" "COM1" "v5" success Hv eq_refl)|].
  split; [exact (Hconnect (scanning BlinkyVariant) blinky_peer eq_refl eq_refl)|].
  split; [exact (Hrescan (subscribed UartVariant) uart_peer eq_refl)|].
  exact (Hconnect' (subscribed UartVariant) uart_peer eq_refl eq_refl).
Defined.

(** C3, as the programs have it.  Every [connect] request of the UART
    central carries the connection parameters under the legacy and under
    the current names, with the same numbers; every [connect] request of
    the Blinky central carries them under the legacy names only. *)
Theorem connect_parameters_by_program (tty : bool)
    (v : Variant) (argv : list string) (evs : list Event)
    (connectToAddress : string) (o : ConnectOptions) :
  In (Adapter_connect connectToAddress o)
     (requests (steps (program_of tty v) evs (boot (program_of tty v) argv))) ->
  values_at legacy_names (connParams o) = [Some 7.5%Q; Some 300%Q; Some 0%Q; Some 4000%Q] /\
  match v with
  | UartVariant => both_representations (connParams o)
  | BlinkyVariant => legacy_only (connParams o)
  end.
Proof.
  intros Hin.
  pose proof (all_requests_ok tty v argv evs) as Hok.
  unfold requests_ok in Hok. rewrite Forall_forall in Hok.
  apply list_elem_of_In, Hok in Hin. cbn in Hin. subst o.
  destruct v; (split; [vm_compute; reflexivity|]); split; vm_compute;
    repeat constructor; eexists; reflexivity.
Qed.

Lemma connect_parameters_by_program_witness :
  In (Adapter_connect "C0:FF:EE:00:00:02" Uart.options) (requests (subscribed UartVariant)) /\
  both_representations (connParams Uart.options).
Proof.
  assert (Hin : In (Adapter_connect "C0:FF:EE:00:00:02" Uart.options)
                   (requests (subscribed UartVariant))).
  { replace (requests (subscribed UartVariant)) with
      [Adapter_open 1000000 "debug"; Adapter_startScan scanParameters;
       Adapter_connect "C0:FF:EE:00:00:02" Uart.options;
       Adapter_updateConnectionParameters "C0FFEE000002.0" requested_params;
       Adapter_getServices "C0FFEE000002.0"; Adapter_getCharacteristics "svc.2";
       Adapter_getDescriptors "chr.5";
       Adapter_writeDescriptorValue "dsc.9" [1; 0] false]
      by (vm_compute; reflexivity).
    cbn. tauto. }
  split; [exact Hin|].
  rewrite subscribed_run in Hin.
  apply (connect_parameters_by_program true UartVariant) in Hin. exact (proj2 Hin).
Defined.

(** C3 as stated fails in the Blinky central: the [connect] request it
    issues for a discovered peer has no value under the current names. *)
Lemma connect_parameters_counterexample :
  In (Adapter_connect "C0:FF:EE:00:00:01" Blinky.options)
     (requests (step (Blinky.program true) (Emit (deviceDiscovered blinky_peer))
                  (scanning BlinkyVariant))) /\
  values_at legacy_names (connParams Blinky.options) =
    [Some 7.5%Q; Some 300%Q; Some 0%Q; Some 4000%Q] /\
  values_at current_names (connParams Blinky.options) = [None; None; None; None] /\
  ~ both_representations (connParams Blinky.options).
Proof.
  split; [vm_compute; right; right; left; reflexivity|].
  split; [vm_compute; reflexivity|].
  split; [vm_compute; reflexivity|].
  intros [_ H]. vm_compute in H. discriminate H.
Qed.

(** ** The notification state of the UART central *)

Lemma uart_rediscovery w device params r0 r1 r2 r3 service characteristic descriptor :
  running w -> accepted r0 ->
  first_match Uart.BLE_UUID_NUS_SERVICE r1 service ->
  first_match Uart.LBS_UUID_NUS_TX_CHAR r2 characteristic ->
  first_match Uart.BLE_UUID_CCCD r3 descriptor ->
  let w' := conversation Uart.program (Emit (connParamUpdateRequest device params))
              [r0; r1; r2; r3] w in
  running w' /\ heap w' = heap w /\
  requests w' = requests w ++
    [Adapter_updateConnectionParameters (dev_instanceId device) params;
     Adapter_getServices (dev_instanceId device);
     Adapter_getCharacteristics (instanceId service);
     Adapter_getDescriptors (instanceId characteristic);
     Adapter_writeDescriptorValue (instanceId descriptor)
       (deref (heap w) Uart.notificationsEnabled) false].
Proof.
  intros Hw H0 H1 H2 H3 w'. subst w'.
  rewrite conversation_feed by exact Hw. converse.
  split; [exact Hw|split; [reflexivity|list_eq]].
Qed.

(** ** Connection established *)

Lemma always_callbacks phi {A} (p : Proc A) : always phi p -> callbacks_always phi p.
Proof.
  induction p as [a|code|o k IH|init k IH|a i k IH|a i v k IH|d a k IH|k IH|req k IH];
    cbn; intros Hp; try exact I.
  - now apply IH.
  - intros r. now apply IH, Hp.
  - intros v. now apply IH, Hp.
  - now apply IH.
  - now apply IH.
  - intros c. now apply IH, Hp.
  - apply Hp.
Qed.

(** The callbacks a listener parks are those it hands to the adapter. *)
Lemma exec_callbacks phi p : forall w,
  callbacks_always phi p ->
  Forall (fun k => forall r, always phi (k r)) (pending w) ->
  Forall (fun k => forall r, always phi (k r)) (pending (exec p w)).
Proof.
  induction p as [a|code|o k IH|init k IH|a i k IH|a i v k IH|d a k IH|k IH|req k IH];
    intros w Hp Hw; cbn [exec callbacks_always] in *; try exact Hw.
  - now apply IH.
  - apply IH; [apply Hp|exact Hw].
  - apply IH; [apply Hp|exact Hw].
  - now apply IH.
  - now apply IH.
  - apply IH; [apply Hp|exact Hw].
  - cbn. apply Forall_app. split; [exact Hw|]. now constructor.
Qed.

Lemma kind_snapshot h req : kind (snapshot h req) = kind req.
Proof. now destruct req. Qed.

(** A listener body without a descriptor write issues none. *)
Lemma exec_no_write p : forall w,
  always issues_no_write p ->
  exists new,
    requests (exec p w) = requests w ++ new /\
    Forall (fun req => kind req <> K_writeDescriptorValue) new.
Proof.
  induction p as [a|code|o k IH|init k IH|a i k IH|a i v k IH|d a k IH|k IH|req k IH];
    intros w Hp; cbn [exec always] in *.
  - exists []. now rewrite app_nil_r.
  - exists []. now rewrite app_nil_r.
  - destruct (IH (emit (Console o) w) (proj2 Hp)) as (new & Heq & Hnew).
    exists new. now rewrite Heq, requests_emit_console.
  - destruct (IH (length (heap w)) (set_heap (fun h => h ++ [init]) w) (proj2 Hp _))
      as (new & Heq & Hnew).
    exists new. now rewrite Heq.
  - destruct (IH (deref (heap w) a !! i) w (Hp _)) as (new & Heq & Hnew). now exists new.
  - destruct (IH (set_heap (array_set a i v) w) (proj2 Hp)) as (new & Heq & Hnew).
    exists new. now rewrite Heq.
  - destruct (IH (set_stdin_listeners (fun l => l ++ [(d, a)]) w) (proj2 Hp))
      as (new & Heq & Hnew).
    exists new. now rewrite Heq.
  - destruct (IH (stdin_buffer w) (set_stdin_buffer None w) (Hp _)) as (new & Heq & Hnew).
    exists new. now rewrite Heq.
  - exists [snapshot (heap w) req]. split.
    + change (requests (emit (Issued (snapshot (heap w) req)) w) =
              requests w ++ [snapshot (heap w) req]).
      apply requests_emit_issued.
    + constructor; [|constructor]. rewrite kind_snapshot. exact (proj1 Hp).
Qed.

Ltac quiet_tac :=
  repeat (cbn;
    match goal with
    | |- True => exact I
    | |- _ <> _ => discriminate
    | |- _ /\ _ => split
    | |- forall _, _ => intro
    | |- context [match ?x with _ => _ end] => destruct x
    end).

Lemma blinky_script_quiet argv : always issues_no_write (Blinky.main argv).
Proof. destruct argv as [|? [|? [|? [|? [|? ?]]]]]; quiet_tac. Qed.

Lemma blinky_on_quiet tty e : always issues_no_write (Blinky.addAdapterListener tty e).
Proof. destruct tty, e; quiet_tac. Qed.

(** The key listener writes to the descriptor itself; the callbacks it
    parks do not. *)
Lemma blinky_readable_quiet d a : callbacks_always issues_no_write (Blinky.on_readable d a).
Proof. quiet_tac. Qed.

Lemma blinky_step_quiet tty ev w :
  quiet_callbacks w -> quiet_callbacks (step (Blinky.program tty) ev w).
Proof.
  intros Hw. unfold step. destruct (exited w) as [code|]; [exact Hw|].
  destruct ev as [e|chunk|i r].
  - apply exec_callbacks; [apply always_callbacks, blinky_on_quiet|exact Hw].
  - assert (Hw0 : quiet_callbacks (set_stdin_buffer chunk w)) by exact Hw.
    revert Hw0. generalize (set_stdin_buffer chunk w).
    induction (stdin_listeners w) as [|[d a] l IH]; intros w0 Hw0; [exact Hw0|].
    cbn [foldl]. apply IH. unfold turn. destruct (exited w0); [exact Hw0|].
    apply exec_callbacks; [apply blinky_readable_quiet|exact Hw0].
  - destruct (pending w !! i) as [k|] eqn:Hk; [|exact Hw].
    apply exec_callbacks.
    + apply always_callbacks. apply (Forall_lookup_1 _ _ _ _ Hw Hk).
    + cbn. now apply Forall_delete.
Qed.

(** In every run of the Blinky central no pending callback writes to a
    descriptor. *)
Lemma blinky_quiet_callbacks tty argv evs :
  quiet_callbacks (steps (Blinky.program tty) evs (boot (Blinky.program tty) argv)).
Proof.
  assert (Hboot : quiet_callbacks (boot (Blinky.program tty) argv)).
  { unfold boot. apply exec_callbacks; [|constructor].
    apply always_callbacks, blinky_script_quiet. }
  revert Hboot. generalize (boot (Blinky.program tty) argv).
  induction evs as [|ev evs IH]; intros w Hw; [exact Hw|].
  rewrite steps_cons. apply IH. now apply blinky_step_quiet.
Qed.

(** A key that does not toggle is a quit key or an LED key. *)
Lemma no_toggle_key chunk :
  ~ toggle_key BlinkyVariant chunk ->
  first_is chunk "q" || first_is chunk "Q" = true \/
  (first_is chunk "q" || first_is chunk "Q" = false /\
   first_is chunk "l" || first_is chunk "L" = true).
Proof.
  intros H. destruct (first_is chunk "q" || first_is chunk "Q") eqn:Hq; [now left|right].
  split; [reflexivity|].
  destruct (first_is chunk "l" || first_is chunk "L") eqn:Hl; [reflexivity|].
  destruct H. intros c rest ->. cbn in Hq, Hl.
  apply orb_false_elim in Hq as [H1 H2]. apply orb_false_elim in Hl as [H3 H4].
  apply bool_decide_eq_false in H1, H2, H3, H4. now repeat split.
Qed.

(** An event other than a toggling key issues no descriptor write. *)
Lemma blinky_idle_step tty ev w :
  quiet_callbacks w -> no_toggle ev ->
  exists new,
    requests (step (Blinky.program tty) ev w) = requests w ++ new /\
    Forall (fun req => kind req <> K_writeDescriptorValue) new.
Proof.
  intros Hw Hev. unfold step. destruct (exited w) as [code|] eqn:Hx;
    [exists []; now rewrite app_nil_r|].
  destruct ev as [e|chunk|i r].
  - apply exec_no_write, blinky_on_quiet.
  - destruct (stdin_listeners w) as [|[d a] l]; [exists []; now rewrite app_nil_r|].
    cbn [foldl]. unfold turn at 2. cbn [exited set_stdin_buffer]. rewrite Hx.
    destruct chunk as [chunk|]; cbn.
    + destruct (no_toggle_key chunk Hev) as [Hq|[Hq Hl]]; rewrite Hq; [|rewrite Hl]; cbn;
        (rewrite blinky_listeners_idle by reflexivity).
      * exists [Adapter_close]. split; [list_eq|]. repeat constructor. discriminate.
      * exists []. now rewrite app_nil_r.
    + rewrite blinky_listeners_idle by reflexivity. exists []. now rewrite app_nil_r.
  - destruct (pending w !! i) as [k|] eqn:Hk; [|exists []; now rewrite app_nil_r].
    apply (exec_no_write (k r) (set_pending (delete i) w)).
    apply (Forall_lookup_1 _ _ _ _ Hw Hk).
Qed.

(** The discovery of the Blinky central found the CCCD. *)
Lemma blinky_discovery_found tty w device r1 r2 r3 service characteristic descriptor :
  running w ->
  first_match Blinky.BLE_UUID_BLINKY_SERVICE r1 service ->
  first_match Blinky.LBS_UUID_BLINKY_BUTTON_CHAR r2 characteristic ->
  first_match Blinky.BLE_UUID_CCCD r3 descriptor ->
  let w' := conversation (Blinky.program tty) (Emit (deviceConnected device)) [r1; r2; r3] w in
  pending w' = pending w /\
  requests w' = requests w ++
    [Adapter_getServices (dev_instanceId device);
     Adapter_getCharacteristics (instanceId service);
     Adapter_getDescriptors (instanceId characteristic)] /\
  if tty then
    running w' /\ heap w' = heap w ++ [[0; 0]] /\
    stdin_listeners w' = stdin_listeners w ++ [(descriptor, length (heap w))]
  else
    fatal (Blinky.program tty) w' /\
    last (out w') =
      Some (Console (LogErrorObject [Lit "process.stdin.setRawMode is not a function"])) /\
    heap w' = heap w /\ stdin_listeners w' = stdin_listeners w.
Proof.
  intros Hw H1 H2 H3 w'. subst w'.
  destruct tty; rewrite conversation_feed by exact Hw; converse.
  - split; [reflexivity|split; [list_eq|]].
    split; [exact Hw|split; reflexivity].
  - split; [reflexivity|split; [list_eq|]].
    split; [is_fatal|split; [apply last_snoc|split; reflexivity]].
Qed.

(** C1, as the programs have it.  On [deviceConnected] the Blinky central
    starts the discovery pipeline at once.  When the pipeline finds the
    CCCD, the central writes nothing to it: started from a terminal it
    registers the key listener with a fresh state [0, 0]; otherwise
    [setRawMode] throws, the error is printed and the process exits with
    status 1, nothing registered.  In every run of the Blinky central an
    event other than a toggling key issues no descriptor write.  The UART
    central only prints a line on [deviceConnected]; it runs the pipeline
    after an accepted [connParamUpdateRequest] and then writes the content
    of [notificationsEnabled] to the CCCD it found, with [ack = false];
    in every run what it writes is [1, 0]. *)
Theorem deviceConnected_blinky_discovers_uart_waits
    (tty : bool) (w : World) (device : Device) :
  running w ->
  requests (step (Blinky.program tty) (Emit (deviceConnected device)) w) =
    requests w ++ [Adapter_getServices (dev_instanceId device)] /\
  (forall r1 r2 r3 service characteristic descriptor,
     first_match Blinky.BLE_UUID_BLINKY_SERVICE r1 service ->
     first_match Blinky.LBS_UUID_BLINKY_BUTTON_CHAR r2 characteristic ->
     first_match Blinky.BLE_UUID_CCCD r3 descriptor ->
     let w' := conversation (Blinky.program tty) (Emit (deviceConnected device)) [r1; r2; r3] w in
     pending w' = pending w /\
     requests w' = requests w ++
       [Adapter_getServices (dev_instanceId device);
        Adapter_getCharacteristics (instanceId service);
        Adapter_getDescriptors (instanceId characteristic)] /\
     if tty then
       running w' /\ heap w' = heap w ++ [[0; 0]] /\
       stdin_listeners w' = stdin_listeners w ++ [(descriptor, length (heap w))]
     else
       fatal (Blinky.program tty) w' /\
       last (out w') =
         Some (Console (LogErrorObject [Lit "process.stdin.setRawMode is not a function"])) /\
       heap w' = heap w /\ stdin_listeners w' = stdin_listeners w) /\
  (forall argv evs ev,
     no_toggle ev ->
     exists new,
       requests (step (Blinky.program tty) ev
                   (steps (Blinky.program tty) evs (boot (Blinky.program tty) argv))) =
         requests (steps (Blinky.program tty) evs (boot (Blinky.program tty) argv)) ++ new /\
       Forall (fun req => kind req <> K_writeDescriptorValue) new) /\
  step Uart.program (Emit (deviceConnected device)) w =
    emit (Console (LogText [Lit "Device "; Str (address device); Lit "/";
                          Str (addressType device); Lit " connected."])) w /\
  (forall params r0 r1 r2 r3 service characteristic descriptor,
     accepted r0 ->
     first_match Uart.BLE_UUID_NUS_SERVICE r1 service ->
     first_match Uart.LBS_UUID_NUS_TX_CHAR r2 characteristic ->
     first_match Uart.BLE_UUID_CCCD r3 descriptor ->
     let w' := conversation Uart.program (Emit (connParamUpdateRequest device params))
                 [r0; r1; r2; r3] w in
     running w' /\ heap w' = heap w /\
     requests w' = requests w ++
       [Adapter_updateConnectionParameters (dev_instanceId device) params;
        Adapter_getServices (dev_instanceId device);
        Adapter_getCharacteristics (instanceId service);
        Adapter_getDescriptors (instanceId characteristic);
        Adapter_writeDescriptorValue (instanceId descriptor)
          (deref (heap w) Uart.notificationsEnabled) false]) /\
  (forall argv evs params r0 r1 r2 r3 service characteristic descriptor,
     running (steps Uart.program evs (boot Uart.program argv)) ->
     accepted r0 ->
     first_match Uart.BLE_UUID_NUS_SERVICE r1 service ->
     first_match Uart.LBS_UUID_NUS_TX_CHAR r2 characteristic ->
     first_match Uart.BLE_UUID_CCCD r3 descriptor ->
     requests (conversation Uart.program (Emit (connParamUpdateRequest device params))
                 [r0; r1; r2; r3] (steps Uart.program evs (boot Uart.program argv))) =
       requests (steps Uart.program evs (boot Uart.program argv)) ++
       [Adapter_updateConnectionParameters (dev_instanceId device) params;
        Adapter_getServices (dev_instanceId device);
        Adapter_getCharacteristics (instanceId service);
        Adapter_getDescriptors (instanceId characteristic);
        Adapter_writeDescriptorValue (instanceId descriptor) [1; 0] false]).
Proof.
  intros Hw. split; [|split; [|split; [|split; [|split]]]].
  - unfold step. rewrite Hw. cbn. list_eq.
  - intros r1 r2 r3 service characteristic descriptor H1 H2 H3.
    now apply blinky_discovery_found.
  - intros argv evs ev Hev. apply blinky_idle_step; [apply blinky_quiet_callbacks|exact Hev].
  - unfold step. rewrite Hw. reflexivity.
  - intros params r0 r1 r2 r3 service characteristic descriptor H0 H1 H2 H3.
    now apply uart_rediscovery.
  - intros argv evs params r0 r1 r2 r3 service characteristic descriptor Hrun H0 H1 H2 H3.
    destruct (uart_rediscovery _ device params r0 r1 r2 r3 _ _ _ Hrun H0 H1 H2 H3)
      as (_ & _ & Hreq).
    destruct (uart_invariant argv evs) as (Hh & _).
    rewrite Hreq, Hh. reflexivity.
Qed.

Lemma deviceConnected_blinky_discovers_uart_waits_witness :
  running (scanning BlinkyVariant) /\
  requests (step (Blinky.program true) (Emit (deviceConnected blinky_peer))
              (scanning BlinkyVariant)) =
    [Adapter_open 1000000 "error"; Adapter_startScan scanParameters;
     Adapter_getServices "C0FFEE000001.0"] /\
  stdin_listeners
    (conversation (Blinky.program true) (Emit (deviceConnected blinky_peer))
       [listing [service_of BlinkyVariant]; listing [characteristic_of BlinkyVariant];
        listing [cccd]] (scanning BlinkyVariant)) = [(cccd, 0%nat)] /\
  exited
    (conversation (Blinky.program false) (Emit (deviceConnected blinky_peer))
       [listing [service_of BlinkyVariant]; listing [characteristic_of BlinkyVariant];
        listing [cccd]] (scanning BlinkyVariant)) = Some 1 /\
  no_toggle (Readable (Some "l")) /\
  (exists new,
     requests (step (Blinky.program true) (Readable (Some "l"))
                 (steps (Blinky.program true)
                    ([Reply 0 success; Reply 0 success] ++ session BlinkyVariant)
                    (boot (Blinky.program true) argv_example))) =
       requests (steps (Blinky.program true)
                   ([Reply 0 success; Reply 0 success] ++ session BlinkyVariant)
                   (boot (Blinky.program true) argv_example)) ++ new /\
     Forall (fun req => kind req <> K_writeDescriptorValue) new).
Proof.
  assert (H1 : first_match Blinky.BLE_UUID_BLINKY_SERVICE
                 (listing [service_of BlinkyVariant]) (service_of BlinkyVariant)).
  { split; [reflexivity|]. exists [], []. repeat split. constructor. }
  assert (H2 : first_match Blinky.LBS_UUID_BLINKY_BUTTON_CHAR
                 (listing [characteristic_of BlinkyVariant]) (characteristic_of BlinkyVariant)).
  { split; [reflexivity|]. exists [], []. repeat split. constructor. }
  assert (H3 : first_match Blinky.BLE_UUID_CCCD (listing [cccd]) cccd).
  { split; [reflexivity|]. exists [], []. repeat split. constructor. }
  assert (Hl : no_toggle (Readable (Some "l"))).
  { intros H. destruct (H "l"%char "" eq_refl) as (_ & _ & Hled).
    destruct (Hled eq_refl) as [Hc _]. now apply Hc. }
  destruct (deviceConnected_blinky_discovers_uart_waits true (scanning BlinkyVariant) blinky_peer
              eq_refl) as (Hstart & Hfound & Hquiet & _).
  destruct (deviceConnected_blinky_discovers_uart_waits false (scanning BlinkyVariant) blinky_peer
              eq_refl) as (_ & Hthrown & _).
  destruct (Hfound _ _ _ _ _ _ H1 H2 H3) as (_ & _ & _ & _ & Hlisten).
  destruct (Hthrown _ _ _ _ _ _ H1 H2 H3) as (_ & _ & (Hx & _) & _).
  split; [reflexivity|]. split; [rewrite Hstart; vm_compute; reflexivity|].
  split; [rewrite Hlisten; reflexivity|]. split; [exact Hx|]. split; [exact Hl|].
  exact (Hquiet argv_example _ (Readable (Some "l")) Hl).
Defined.

(** C1 as stated fails in both programs: after [deviceConnected] the UART
    central has issued no discovery request, and the Blinky central, whose
    discovery succeeded, has written nothing to the CCCD and holds the
    state [0, 0]. *)
Lemma deviceConnected_counterexample :
  requests (step Uart.program (Emit (deviceConnected uart_peer)) (scanning UartVariant)) =
    [Adapter_open 1000000 "debug"; Adapter_startScan scanParameters] /\
  (let w' := conversation (Blinky.program true) (Emit (deviceConnected blinky_peer))
               [listing [service_of BlinkyVariant];
                listing [characteristic_of BlinkyVariant];
                listing [cccd]] (scanning BlinkyVariant) in
   requests w' =
     [Adapter_open 1000000 "error"; Adapter_startScan scanParameters;
      Adapter_getServices "C0FFEE000001.0"; Adapter_getCharacteristics "svc.2";
      Adapter_getDescriptors "chr.5"] /\
   pending w' = [] /\ heap w' = [[0; 0]]).
Proof. vm_compute. repeat split. Qed.

(** ** Connection parameter update requests *)

Ltac explore :=
  repeat (cbn;
    match goal with
    | |- context [match err ?r with _ => _ end] => destruct (err r)
    | |- context [match first_with_uuid ?t ?l with _ => _ end] => destruct (first_with_uuid t l)
    | |- context [match ?rs with [] => _ | _ :: _ => _ end] => is_var rs; destruct rs as [|? rs]
    end).

(** *** Order of the requests under every schedule *)

Lemma issued_snoc m reqs req :
  issued m (reqs ++ [req]) =
    (issued m reqs + if decide (stage (kind req) = Some m) then 1 else 0)%nat.
Proof.
  unfold issued. rewrite List.filter_app, length_app. cbn.
  destruct (decide (stage (kind req) = Some m)) as [H|H].
  - now rewrite (bool_decide_eq_true_2 _ H).
  - now rewrite (bool_decide_eq_false_2 _ H).
Qed.

Lemma count_of_stage k m reqs : stage k = Some m -> count_of k reqs = issued m reqs.
Proof.
  intros Hk. unfold count_of, issued. f_equal. apply List.filter_ext. intros req.
  apply bool_decide_ext. split; [now intros ->|].
  intros H. rewrite <- Hk in H. now destruct (kind req), k.
Qed.

Lemma count_occ_snoc (l : list nat) n m :
  count_occ Nat.eq_dec (l ++ [n]) m =
    (count_occ Nat.eq_dec l m + if decide (n = m) then 1 else 0)%nat.
Proof.
  rewrite count_occ_app. cbn. unfold decide, decide_rel.
  destruct (Nat.eq_dec n m); reflexivity.
Qed.

Lemma count_occ_delete (l : list nat) i n m :
  l !! i = Some n ->
  count_occ Nat.eq_dec l m =
    (count_occ Nat.eq_dec (delete i l) m + if decide (n = m) then 1 else 0)%nat.
Proof.
  unfold decide, decide_rel.
  revert i. induction l as [|x l IH]; intros [|i] H; try discriminate; cbn in *.
  - injection H as ->. destruct (Nat.eq_dec n m); lia.
  - rewrite (IH i H). destruct (Nat.eq_dec x m); reflexivity.
Qed.

(** A body that starts at stage [n], run where one more request of stage
    [n] may be issued, keeps the order. *)
Lemma exec_ordered p : forall n w stages,
  staged n p ->
  stdin_listeners w = [] ->
  Forall2 (fun k n => forall r, staged n (k r)) (pending w) stages ->
  (forall m, (m < 4)%nat ->
     (issued (S m) (requests w) + count_occ Nat.eq_dec stages (S m) +
      (if decide (n = S m) then 1 else 0) <= issued m (requests w))%nat) ->
  uart_ordered (exec p w).
Proof.
  induction p as [a|code|o k IH|init k IH|a i k IH|a i v k IH|d a k IH|k IH|req k IH];
    intros n w stages Hp Hl Hst Hle; cbn [exec staged] in *.
  - split; [exact Hl|]. exists stages. split; [exact Hst|].
    intros m Hm. specialize (Hle m Hm). lia.
  - split; [exact Hl|]. exists stages. split; [exact Hst|].
    intros m Hm. specialize (Hle m Hm).
    change (requests (set_exited code w)) with (requests w). lia.
  - apply (IH n (emit (Console o) w) stages Hp Hl Hst).
    intros m Hm. rewrite !requests_emit_console. now apply Hle.
  - apply (IH (length (heap w)) n (set_heap (fun h => h ++ [init]) w) stages (Hp _) Hl Hst Hle).
  - apply (IH (deref (heap w) a !! i) n w stages (Hp _) Hl Hst Hle).
  - apply (IH n (set_heap (array_set a i v) w) stages Hp Hl Hst Hle).
  - contradiction.
  - apply (IH (stdin_buffer w) n (set_stdin_buffer None w) stages (Hp _) Hl Hst Hle).
  - split; [exact Hl|].
    change (requests (set_pending (fun l => l ++ [k]) (emit (Issued (snapshot (heap w) req)) w)))
      with (requests (emit (Issued (snapshot (heap w) req)) w)).
    rewrite requests_emit_issued.
    destruct (stage (kind req)) as [m0|] eqn:Hs.
    + destruct Hp as [-> Hk]. exists (stages ++ [S n]). split.
      * cbn. apply Forall2_app; [exact Hst|]. now constructor.
      * intros m Hm. specialize (Hle m Hm).
        rewrite !issued_snoc, count_occ_snoc, kind_snapshot, Hs.
        repeat match goal with
        | |- context [decide ?P] => destruct (decide P)
        | H : context [decide ?P] |- _ => destruct (decide P)
        end; try congruence; try lia.
    + exists (stages ++ [5%nat]). split.
      * cbn. apply Forall2_app; [exact Hst|]. now constructor.
      * intros m Hm. specialize (Hle m Hm).
        rewrite !issued_snoc, count_occ_snoc, kind_snapshot, Hs.
        repeat match goal with
        | |- context [decide ?P] => destruct (decide P)
        | H : context [decide ?P] |- _ => destruct (decide P)
        end; try congruence; try lia.
Qed.

Lemma uart_script_staged argv : staged 0 (Uart.main argv).
Proof. destruct argv as [|? [|? [|? [|? [|? ?]]]]]; always_tac. Qed.

Lemma uart_on_staged e : staged 0 (Uart.addAdapterListener e).
Proof. destruct e; always_tac. Qed.

Lemma uart_step_ordered ev w : uart_ordered w -> uart_ordered (step Uart.program ev w).
Proof.
  intros Hw. unfold step. destruct (exited w) as [code|]; [exact Hw|].
  destruct Hw as (Hl & stages & Hst & Hle).
  destruct ev as [e|chunk|i r].
  - apply (exec_ordered _ 0%nat w stages); [apply uart_on_staged|exact Hl|exact Hst|].
    intros m Hm. specialize (Hle m Hm). destruct (decide (0%nat = S m)); [discriminate|lia].
  - rewrite Hl. cbn. split; [exact Hl|]. now exists stages.
  - destruct (pending w !! i) as [k|] eqn:Hk; [|split; [exact Hl|now exists stages]].
    destruct (Forall2_lookup_l _ _ _ _ _ Hst Hk) as (n & Hn & Hkn).
    apply (exec_ordered _ n (set_pending (delete i) w) (delete i stages));
      [apply Hkn|exact Hl|cbn; now apply Forall2_delete|].
    intros m Hm. specialize (Hle m Hm).
    rewrite (count_occ_delete _ _ _ (S m) Hn) in Hle.
    change (requests (set_pending (delete i) w)) with (requests w).
    destruct (decide (n = S m)); lia.
Qed.

(** The order holds in every run of the UART central. *)
Lemma uart_requests_ordered argv evs :
  uart_ordered (steps Uart.program evs (boot Uart.program argv)).
Proof.
  assert (Hboot : uart_ordered (boot Uart.program argv)).
  { unfold boot. apply (exec_ordered _ 0%nat _ []);
      [apply uart_script_staged|reflexivity|constructor|].
    intros m Hm. cbn. destruct (decide (0%nat = S m)); [discriminate|lia]. }
  revert Hboot. generalize (boot Uart.program argv).
  induction evs as [|ev evs IH]; intros w Hw; [exact Hw|].
  rewrite steps_cons. apply IH. now apply uart_step_ordered.
Qed.

(** C2, as the programs have it.  The UART central answers every
    [connParamUpdateRequest] by asking the adapter to accept the
    parameters.  If the adapter fails, one line is printed and nothing
    else changes.  If it accepts, then whatever the adapter replies
    afterwards the requests of the conversation are an initial part of
    update, services, characteristics, descriptors, descriptor write, in
    this order: the write comes after the whole pipeline; all five are
    issued when each step finds its attribute.  Under every schedule of
    events and replies, at every point of every run, the descriptor writes
    issued so far are no more than the descriptor listings, these no more
    than the characteristic listings, these no more than the service
    listings, and these no more than the updates: every write has a
    discovery of its own before it.  The Blinky central has no listener
    for the event. *)
Theorem connParamUpdateRequest_uart_rediscovers (tty : bool)
    (w : World) (device : Device) (params : ConnParams) :
  running w ->
  requests (step Uart.program (Emit (connParamUpdateRequest device params)) w) =
    requests w ++ [Adapter_updateConnectionParameters (dev_instanceId device) params] /\
  (forall r0 e, err r0 = Some e ->
     conversation Uart.program (Emit (connParamUpdateRequest device params)) [r0] w =
       emit (Console (LogText [Lit "updateConnectionParameters Failed: "; Str (message e); Lit "."]))
         (emit (Issued (Adapter_updateConnectionParameters (dev_instanceId device) params))
            (emit (Console (LogText [Lit "connParamUpdateRequest: "; JsonParams params; Lit "."])) w))) /\
  (forall r0 replies, accepted r0 ->
     exists new,
       requests (conversation Uart.program (Emit (connParamUpdateRequest device params))
                   (r0 :: replies) w) = requests w ++ new /\
       map kind new `prefix_of`
         [K_updateConnectionParameters; K_getServices; K_getCharacteristics;
          K_getDescriptors; K_writeDescriptorValue]) /\
  (forall r0 r1 r2 r3 service characteristic descriptor,
     accepted r0 ->
     first_match Uart.BLE_UUID_NUS_SERVICE r1 service ->
     first_match Uart.LBS_UUID_NUS_TX_CHAR r2 characteristic ->
     first_match Uart.BLE_UUID_CCCD r3 descriptor ->
     map kind (drop (length (requests w))
                 (requests (conversation Uart.program (Emit (connParamUpdateRequest device params))
                              [r0; r1; r2; r3] w))) =
       [K_updateConnectionParameters; K_getServices; K_getCharacteristics;
        K_getDescriptors; K_writeDescriptorValue]) /\
  (forall argv evs,
     let reqs := requests (steps Uart.program evs (boot Uart.program argv)) in
     (count_of K_writeDescriptorValue reqs <= count_of K_getDescriptors reqs)%nat /\
     (count_of K_getDescriptors reqs <= count_of K_getCharacteristics reqs)%nat /\
     (count_of K_getCharacteristics reqs <= count_of K_getServices reqs)%nat /\
     (count_of K_getServices reqs <= count_of K_updateConnectionParameters reqs)%nat) /\
  step (Blinky.program tty) (Emit (connParamUpdateRequest device params)) w = w.
Proof.
  intros Hw. split; [|split; [|split; [|split; [|split]]]].
  - unfold step. rewrite Hw. cbn. list_eq.
  - intros r0 e H0. rewrite conversation_feed by exact Hw. cbn. rewrite H0.
    destruct w; reflexivity.
  - intros r0 replies H0. rewrite conversation_feed by exact Hw.
    unfold accepted in H0. cbn. rewrite H0.
    explore; (eexists; split; [list_eq|cbn; eexists; reflexivity]).
  - intros r0 r1 r2 r3 service characteristic descriptor H0 H1 H2 H3.
    rewrite conversation_feed by exact Hw. converse.
    unfold requests; cbn. rewrite !omap_app, <- !app_assoc. cbn.
    now rewrite drop_app_length.
  - intros argv evs reqs. subst reqs.
    destruct (uart_requests_ordered argv evs) as (_ & stages & _ & Hle).
    rewrite (count_of_stage K_writeDescriptorValue 4), (count_of_stage K_getDescriptors 3),
      (count_of_stage K_getCharacteristics 2), (count_of_stage K_getServices 1),
      (count_of_stage K_updateConnectionParameters 0) by reflexivity.
    pose proof (Hle 0%nat ltac:(lia)). pose proof (Hle 1%nat ltac:(lia)).
    pose proof (Hle 2%nat ltac:(lia)). pose proof (Hle 3%nat ltac:(lia)).
    repeat split; lia.
  - unfold step. rewrite Hw. reflexivity.
Qed.

Lemma connParamUpdateRequest_uart_rediscovers_witness :
  running (scanning UartVariant) /\ accepted success /\
  requests (step Uart.program (Emit (connParamUpdateRequest uart_peer requested_params))
              (scanning UartVariant)) =
    [Adapter_open 1000000 "debug"; Adapter_startScan scanParameters;
     Adapter_updateConnectionParameters "C0FFEE000002.0" requested_params] /\
  (exists new,
     requests (conversation Uart.program
                 (Emit (connParamUpdateRequest uart_peer requested_params))
                 [success; listing [generic_access]] (scanning UartVariant)) =
       requests (scanning UartVariant) ++ new /\
     map kind new `prefix_of`
       [K_updateConnectionParameters; K_getServices; K_getCharacteristics;
        K_getDescriptors; K_writeDescriptorValue]) /\
  (let reqs := requests (steps Uart.program
                           ([Reply 0 success; Reply 0 success] ++ overlapping_updates)
                           (boot Uart.program argv_example)) in
   (count_of K_writeDescriptorValue reqs <= count_of K_getDescriptors reqs)%nat /\
   (count_of K_getDescriptors reqs <= count_of K_getCharacteristics reqs)%nat /\
   (count_of K_getCharacteristics reqs <= count_of K_getServices reqs)%nat /\
   (count_of K_getServices reqs <= count_of K_updateConnectionParameters reqs)%nat).
Proof.
  destruct (connParamUpdateRequest_uart_rediscovers true (scanning UartVariant) uart_peer
              requested_params eq_refl) as (Hstart & _ & Hprefix & _ & Hcount & _).
  split; [reflexivity|]. split; [reflexivity|].
  split; [rewrite Hstart; vm_compute; reflexivity|].
  split; [exact (Hprefix success [listing [generic_access]] eq_refl)|].
  exact (Hcount argv_example ([Reply 0 success; Reply 0 success] ++ overlapping_updates)).
Defined.

(** C2 as stated fails in both programs.  In the Blinky central a
    [connParamUpdateRequest] received after the peer connected and was
    discovered leads to no adapter operation.  In the UART central a
    second request that is accepted while the discovery of the first one
    waits for the descriptors is followed by the descriptor write of the
    first discovery, before the second discovery has listed any
    characteristic or descriptor. *)
Lemma connParamUpdateRequest_counterexample :
  (running (subscribed BlinkyVariant) /\
   requests (step (Blinky.program true) (Emit (connParamUpdateRequest blinky_peer requested_params))
               (subscribed BlinkyVariant)) =
     [Adapter_open 1000000 "error"; Adapter_startScan scanParameters;
      Adapter_connect "C0:FF:EE:00:00:01" Blinky.options;
      Adapter_getServices "C0FFEE000001.0"; Adapter_getCharacteristics "svc.2";
      Adapter_getDescriptors "chr.5"]) /\
  (running (steps Uart.program overlapping_updates (connected UartVariant)) /\
   requests (steps Uart.program overlapping_updates (connected UartVariant)) =
     [Adapter_open 1000000 "debug"; Adapter_startScan scanParameters;
      Adapter_connect "C0:FF:EE:00:00:02" Uart.options;
      Adapter_updateConnectionParameters "C0FFEE000002.0" requested_params;
      Adapter_getServices "C0FFEE000002.0"; Adapter_getCharacteristics "svc.2";
      Adapter_getDescriptors "chr.5";
      Adapter_updateConnectionParameters "C0FFEE000002.0" requested_params;
      Adapter_getServices "C0FFEE000002.0";
      Adapter_writeDescriptorValue "dsc.9" [1; 0] false]).
Proof. vm_compute. repeat split. Qed.

(** ** The array of the UART central *)


Lemma subscribed_uart_requests :
  requests (conversation Uart.program (Emit (connParamUpdateRequest uart_peer requested_params))
              [success; listing [service_of UartVariant];
               listing [characteristic_of UartVariant]; listing [cccd]]
              (subscribed UartVariant)) =
  [Adapter_open 1000000 "debug"; Adapter_startScan scanParameters;
   Adapter_connect "C0:FF:EE:00:00:02" Uart.options;
   Adapter_updateConnectionParameters "C0FFEE000002.0" requested_params;
   Adapter_getServices "C0FFEE000002.0"; Adapter_getCharacteristics "svc.2";
   Adapter_getDescriptors "chr.5"; Adapter_writeDescriptorValue "dsc.9" [1; 0] false;
   Adapter_updateConnectionParameters "C0FFEE000002.0" requested_params;
   Adapter_getServices "C0FFEE000002.0"; Adapter_getCharacteristics "svc.2";
   Adapter_getDescriptors "chr.5"; Adapter_writeDescriptorValue "dsc.9" [1; 0] false].
Proof. vm_compute. reflexivity. Qed.


(** C7.  The default write of the UART central, run twice in a row (two
    accepted parameter updates, each followed by a discovery that finds the
    same CCCD), leaves [notificationsEnabled] unchanged and equal to
    [1, 0], and its second [writeDescriptorValue] request is the same as
    the first. *)
Theorem default_write_twice_is_idempotent
    (argv : list string) (evs : list Event) (device : Device) (params : ConnParams)
    (r0 r1 r2 r3 : Response) (service characteristic descriptor : Attribute) :
  running (steps Uart.program evs (boot Uart.program argv)) ->
  accepted r0 ->
  first_match Uart.BLE_UUID_NUS_SERVICE r1 service ->
  first_match Uart.LBS_UUID_NUS_TX_CHAR r2 characteristic ->
  first_match Uart.BLE_UUID_CCCD r3 descriptor ->
  let w := steps Uart.program evs (boot Uart.program argv) in
  let once := conversation Uart.program (Emit (connParamUpdateRequest device params))
                [r0; r1; r2; r3] in
  heap (once (once w)) = heap w /\
  deref (heap (once (once w))) Uart.notificationsEnabled = [1; 0] /\
  requests (once (once w)) = requests w ++
    [Adapter_updateConnectionParameters (dev_instanceId device) params;
     Adapter_getServices (dev_instanceId device);
     Adapter_getCharacteristics (instanceId service);
     Adapter_getDescriptors (instanceId characteristic);
     Adapter_writeDescriptorValue (instanceId descriptor) [1; 0] false;
     Adapter_updateConnectionParameters (dev_instanceId device) params;
     Adapter_getServices (dev_instanceId device);
     Adapter_getCharacteristics (instanceId service);
     Adapter_getDescriptors (instanceId characteristic);
     Adapter_writeDescriptorValue (instanceId descriptor) [1; 0] false].
Proof.
  intros Hw H0 H1 H2 H3 w once.
  destruct (uart_invariant argv evs) as (Hh & _). fold w in Hh.
  destruct (uart_rediscovery w device params r0 r1 r2 r3 _ _ _ Hw H0 H1 H2 H3)
    as (Hw1 & Hh1 & Hr1).
  fold (once w) in Hw1, Hh1, Hr1.
  destruct (uart_rediscovery (once w) device params r0 r1 r2 r3 _ _ _ Hw1 H0 H1 H2 H3)
    as (_ & Hh2 & Hr2).
  fold (once (once w)) in Hh2, Hr2.
  rewrite Hh2, Hr2, Hh1, Hr1, Hh, <- app_assoc. now repeat split.
Qed.

Lemma default_write_twice_is_idempotent_witness :
  let w := steps Uart.program ([Reply 0 success; Reply 0 success] ++ session UartVariant)
             (boot Uart.program argv_example) in
  let once := conversation Uart.program
                (Emit (connParamUpdateRequest uart_peer requested_params))
                [success; listing [generic_access; service_of UartVariant];
                 listing [characteristic_of UartVariant]; listing [cccd]] in
  running w /\ accepted success /\
  first_match Uart.BLE_UUID_NUS_SERVICE
    (listing [generic_access; service_of UartVariant]) (service_of UartVariant) /\
  first_match Uart.LBS_UUID_NUS_TX_CHAR
    (listing [characteristic_of UartVariant]) (characteristic_of UartVariant) /\
  first_match Uart.BLE_UUID_CCCD (listing [cccd]) cccd /\
  heap (once (once w)) = heap w /\
  deref (heap (once (once w))) Uart.notificationsEnabled = [1; 0].
Proof.
  intros w once.
  assert (Hw : running w) by (vm_compute; reflexivity).
  assert (H1 : first_match Uart.BLE_UUID_NUS_SERVICE
                 (listing [generic_access; service_of UartVariant]) (service_of UartVariant)).
  { split; [reflexivity|]. exists [generic_access], [].
    split; [reflexivity|split; [reflexivity|]]. repeat constructor. discriminate. }
  assert (H2 : first_match Uart.LBS_UUID_NUS_TX_CHAR
                 (listing [characteristic_of UartVariant]) (characteristic_of UartVariant)).
  { split; [reflexivity|]. exists [], []. repeat split. constructor. }
  assert (H3 : first_match Uart.BLE_UUID_CCCD (listing [cccd]) cccd).
  { split; [reflexivity|]. exists [], []. repeat split. constructor. }
  destruct (default_write_twice_is_idempotent argv_example _ uart_peer requested_params
              success _ _ _ _ _ _ Hw eq_refl H1 H2 H3) as (Hheap & Hstate & _).
  repeat (split; [first [assumption|reflexivity]|]). exact Hstate.
Defined.

(** * Further properties of the two programs *)

(** ** Start of the script *)

(** With any number of arguments other than two ([process.argv] of length
    other than four) both scripts print the usage text and exit with
    status -1; the adapter is never opened. *)
Theorem script_rejects_wrong_arity (tty : bool) (v : Variant) (argv : list string) :
  length argv <> 4%nat ->
  exited (boot (program_of tty v) argv) = Some (-1) /\
  out (boot (program_of tty v) argv) = help_lines /\
  pending (boot (program_of tty v) argv) = [].
Proof.
  intros Hlen.
  destruct argv as [|a0 [|a1 [|a2 [|a3 [|a4 rest]]]]]; cbn in Hlen; try lia;
    destruct v; repeat split.
Qed.

Lemma script_rejects_wrong_arity_witness :
  length ["node"; "central.js"; "COM1"] <> 4%nat /\
  exited (boot (Blinky.program true) ["node"; "central.js"; "COM1"]) = Some (-1) /\
  requests (boot (Blinky.program true) ["node"; "central.js"; "COM1"]) = [].
Proof.
  assert (Hlen : length ["node"; "central.js"; "COM1"] <> 4%nat) by (cbn; lia).
  destruct (script_rejects_wrong_arity true BlinkyVariant _ Hlen) as (Hx & Ho & _).
  split; [exact Hlen|]. split; [exact Hx|].
  unfold requests. cbn [program_of] in Ho. rewrite Ho. reflexivity.
Defined.

Lemma api_version_check (apiVersion : string) :
  bool_decide (apiVersion ∈ ["v2"; "v5"]) = true <-> apiVersion = "v2" \/ apiVersion = "v5".
Proof.
  rewrite bool_decide_eq_true, !elem_of_cons, elem_of_nil. tauto.
Qed.

(** With two arguments of which the second is neither [v2] nor [v5]
    (the comparison is exact), both scripts print one line on stderr and
    exit with status -1; the adapter is never opened. *)
Theorem script_rejects_unknown_api_version (tty : bool)
    (v : Variant) (node file port apiVersion : string) :
  apiVersion <> "v2" -> apiVersion <> "v5" ->
  boot (program_of tty v) [node; file; port; apiVersion] =
    mkWorld (globals (program_of tty v)) [] None []
      [Console (ErrorText [Lit "SD_API_VERSION must be v2 or v5, argument provided is ";
                           Str apiVersion])]
      (Some (-1)).
Proof.
  intros H2 H5.
  assert (Hmem : bool_decide (apiVersion ∈ ["v2"; "v5"]) = false).
  { apply not_true_is_false. rewrite api_version_check. tauto. }
  destruct v; unfold boot; cbn; rewrite Hmem; reflexivity.
Qed.

Lemma script_rejects_unknown_api_version_witness :
  "V5" <> "v2" /\ "V5" <> "v5" /\
  exited (boot Uart.program ["node"; "uart.js"; "/dev/ttyACM0"; "V5"]) = Some (-1) /\
  requests (boot Uart.program ["node"; "uart.js"; "/dev/ttyACM0"; "V5"]) = [].
Proof.
  assert (H2 : "V5" <> "v2") by discriminate.
  assert (H5 : "V5" <> "v5") by discriminate.
  pose proof (script_rejects_unknown_api_version true UartVariant "node" "uart.js"
                "/dev/ttyACM0" "V5" H2 H5) as Hboot.
  cbn [program_of] in Hboot. rewrite Hboot.
  repeat split; assumption.
Defined.

(** With valid arguments the script opens the adapter (baud rate 1000000,
    the log level of the program) and waits.  If the adapter fails to
    open, the error is printed and the process exits with status -1
    without starting a scan; if it opens and the scan fails to start, the
    error is printed and the process exits with status -1. *)
Theorem startup_failures_are_fatal (tty : bool)
    (v : Variant) (node file port apiVersion : string) (r1 r2 : Response) (e : JsError) :
  apiVersion = "v2" \/ apiVersion = "v5" ->
  let w0 := boot (program_of tty v) [node; file; port; apiVersion] in
  (running w0 /\ requests w0 = [Adapter_open 1000000 (log_level v)]) /\
  (err r1 = Some e ->
     exited (step (program_of tty v) (Reply 0 r1) w0) = Some (-1) /\
     requests (step (program_of tty v) (Reply 0 r1) w0) = [Adapter_open 1000000 (log_level v)] /\
     last (out (step (program_of tty v) (Reply 0 r1) w0)) =
       Some (Console (LogErrorObject [Lit "Error opening adapter: "; Err e; Lit "."]))) /\
  (accepted r1 -> err r2 = Some e ->
     exited (steps (program_of tty v) [Reply 0 r1; Reply 0 r2] w0) = Some (-1) /\
     requests (steps (program_of tty v) [Reply 0 r1; Reply 0 r2] w0) =
       [Adapter_open 1000000 (log_level v); Adapter_startScan scanParameters] /\
     last (out (steps (program_of tty v) [Reply 0 r1; Reply 0 r2] w0)) =
       Some (Console (LogErrorObject [Lit "Error starting scanning: "; Err e; Lit "."]))).
Proof.
  intros Hv w0. subst w0. apply api_version_check in Hv.
  split; [|split].
  - destruct v; unfold boot; cbn; rewrite Hv; repeat split.
  - intros H1. destruct v; unfold boot; cbn; rewrite Hv; cbn; rewrite H1; repeat split.
  - intros H1 H2. unfold accepted in H1.
    destruct v; unfold boot; cbn; rewrite Hv; cbn; rewrite H1; cbn; rewrite H2; repeat split.
Qed.

Lemma startup_failures_are_fatal_witness :
  ("v5" = "v2" \/ "v5" = "v5") /\
  exited (step (Blinky.program true) (Reply 0 failure) (boot (Blinky.program true) argv_example)) = Some (-1) /\
  requests (step (Blinky.program true) (Reply 0 failure) (boot (Blinky.program true) argv_example)) =
    [Adapter_open 1000000 "error"].
Proof.
  assert (Hv : "v5" = "v2" \/ "v5" = "v5") by (right; reflexivity).
  destruct (startup_failures_are_fatal true BlinkyVariant "node" "central.js" "COM1" "v5"
              failure failure {| message := "NRF_ERROR_TIMEOUT" |} Hv) as (_ & Hopen & _).
  destruct (Hopen eq_refl) as (Hx & Hr & _).
  split; [exact Hv|]. split; [exact Hx|exact Hr].
Defined.

(** With valid arguments, an adapter that opens and a scan that starts,
    the process is scanning: it printed [Scanning.] last, issued the two
    requests, waits for no callback and has registered no stdin listener. *)
Theorem startup_reaches_scanning (tty : bool)
    (v : Variant) (node file port apiVersion : string) (r1 r2 : Response) :
  apiVersion = "v2" \/ apiVersion = "v5" -> accepted r1 -> accepted r2 ->
  let w := steps (program_of tty v) [Reply 0 r1; Reply 0 r2]
             (boot (program_of tty v) [node; file; port; apiVersion]) in
  running w /\ pending w = [] /\ stdin_listeners w = [] /\
  heap w = globals (program_of tty v) /\
  requests w = [Adapter_open 1000000 (log_level v); Adapter_startScan scanParameters] /\
  last (out w) = Some (Console (LogText [Lit "Scanning."])).
Proof.
  intros Hv H1 H2 w. subst w. apply api_version_check in Hv. unfold accepted in *.
  destruct v; unfold boot; cbn; rewrite Hv; cbn; rewrite H1; cbn; rewrite H2; repeat split.
Qed.

Lemma startup_reaches_scanning_witness :
  ("v5" = "v2" \/ "v5" = "v5") /\ accepted success /\
  running (scanning UartVariant) /\ pending (scanning UartVariant) = [] /\
  heap (scanning UartVariant) = [[1; 0]].
Proof.
  assert (Hv : "v5" = "v2" \/ "v5" = "v5") by (right; reflexivity).
  destruct (startup_reaches_scanning true UartVariant "node" "central.js" "COM1" "v5"
              success success Hv eq_refl eq_refl) as (Hw & Hp & _ & Hh & _).
  split; [exact Hv|]. split; [reflexivity|]. split; [exact Hw|]. split; [exact Hp|exact Hh].
Defined.

(** ** Scan results and connection requests *)

(** A discovered device whose advertised name is not exactly the name the
    program looks for is ignored: no output, no request.  A device with
    that name leads to exactly one [connect] request, to the address of
    the device. *)
Theorem deviceDiscovered_filters_by_name (tty : bool) (v : Variant) (w : World) (device : Device) :
  running w ->
  (name device <> peer_name v ->
     step (program_of tty v) (Emit (deviceDiscovered device)) w = w) /\
  (name device = peer_name v ->
     requests (step (program_of tty v) (Emit (deviceDiscovered device)) w) =
       requests w ++ [Adapter_connect (address device) (options_of v)] /\
     length (pending (step (program_of tty v) (Emit (deviceDiscovered device)) w)) =
       S (length (pending w))).
Proof.
  intros Hw. unfold step. rewrite Hw. split; intros Hn.
  - apply String.eqb_neq in Hn. destruct v; cbn in *; now rewrite Hn.
  - apply String.eqb_eq in Hn.
    destruct v; cbn in *; rewrite Hn; cbn;
      (split; [list_eq|now rewrite length_app, Nat.add_comm]).
Qed.

Lemma deviceDiscovered_filters_by_name_witness :
  running (scanning BlinkyVariant) /\
  name uart_peer <> peer_name BlinkyVariant /\
  step (Blinky.program true) (Emit (deviceDiscovered uart_peer)) (scanning BlinkyVariant) =
    scanning BlinkyVariant.
Proof.
  assert (Hn : name uart_peer <> peer_name BlinkyVariant) by discriminate.
  destruct (deviceDiscovered_filters_by_name true BlinkyVariant (scanning BlinkyVariant) uart_peer
              eq_refl) as (Hother & _).
  split; [reflexivity|]. split; [exact Hn|]. exact (Hother Hn).
Defined.

(** The outcome of the [connect] request.  If the adapter fails it, the
    error is printed and the process exits with status 1.  If the adapter
    accepts it, nothing is printed and nothing else is requested: the
    program waits for [deviceConnected]. *)
Theorem connect_outcome (tty : bool) (v : Variant) (w : World) (device : Device) (r : Response) :
  running w -> name device = peer_name v ->
  (forall e, err r = Some e ->
     fatal (program_of tty v) (conversation (program_of tty v) (Emit (deviceDiscovered device)) [r] w) /\
     last (out (conversation (program_of tty v) (Emit (deviceDiscovered device)) [r] w)) =
       Some (Console (LogErrorObject [Lit "Error connecting to target device: "; Err e; Lit "."])) /\
     requests (conversation (program_of tty v) (Emit (deviceDiscovered device)) [r] w) =
       requests w ++ [Adapter_connect (address device) (options_of v)]) /\
  (accepted r ->
     conversation (program_of tty v) (Emit (deviceDiscovered device)) [r] w =
       emit (Issued (Adapter_connect (address device) (options_of v)))
         (emit (Console (LogText [Lit "Connecting to device "; Str (address device); Lit "..."]))
            (emit (Console (LogText [Lit "Discovered device "; Str (address device); Lit "/";
                                      Str (addressType device); Lit "."])) w))).
Proof.
  intros Hw Hn. apply String.eqb_eq in Hn.
  rewrite conversation_feed by exact Hw. split.
  - intros e He.
    destruct v; cbn in *; rewrite Hn; cbn; rewrite He; cbn;
      (split; [is_fatal|split; [apply last_snoc|list_eq]]).
  - intros Hr. unfold accepted in Hr.
    destruct v; cbn in *; rewrite Hn; cbn; rewrite Hr; destruct w; reflexivity.
Qed.

Lemma connect_outcome_witness :
  running (scanning UartVariant) /\ name uart_peer = peer_name UartVariant /\
  exited (conversation Uart.program (Emit (deviceDiscovered uart_peer)) [failure]
            (scanning UartVariant)) = Some 1.
Proof.
  destruct (connect_outcome true UartVariant (scanning UartVariant) uart_peer failure
              eq_refl eq_refl) as (Hfail & _).
  split; [reflexivity|]. split; [reflexivity|].
  exact (proj1 (proj1 (Hfail _ eq_refl))).
Defined.

(** [scanTimedOut] ends both programs: one line is printed and the process
    exits with status 1, whatever it was doing. *)
Theorem scanTimedOut_is_fatal (tty : bool) (v : Variant) (w : World) :
  running w ->
  step (program_of tty v) (Emit scanTimedOut) w =
    set_exited 1 (emit (Console (LogText [Lit "scanTimedOut: Scanning timed-out. Exiting."])) w) /\
  forall evs,
    requests (steps (program_of tty v) (Emit scanTimedOut :: evs) w) = requests w.
Proof.
  intros Hw.
  assert (Hstep : step (program_of tty v) (Emit scanTimedOut) w =
                  set_exited 1 (emit (Console (LogText [Lit "scanTimedOut: Scanning timed-out. Exiting."])) w)).
  { unfold step. rewrite Hw. destruct v; reflexivity. }
  split; [exact Hstep|].
  intros evs. rewrite steps_cons, Hstep.
  rewrite (steps_exited _ _ _ 1) by reflexivity.
  unfold set_exited. cbn. apply requests_emit_console.
Qed.

Lemma scanTimedOut_is_fatal_witness :
  running (subscribed BlinkyVariant) /\
  exited (step (Blinky.program true) (Emit scanTimedOut) (subscribed BlinkyVariant)) = Some 1.
Proof.
  destruct (scanTimedOut_is_fatal true BlinkyVariant (subscribed BlinkyVariant) eq_refl) as (Hs & _).
  split; [reflexivity|]. cbn [program_of] in Hs. rewrite Hs. reflexivity.
Defined.

(** ** Events that are only reported *)

(** [logMessage], [error], [characteristicValueChanged] and
    [connParamUpdate] never touch the session: their listeners issue no
    request, register nothing, change no array and do not exit; they print
    at most one line.  A [logMessage] of severity 3 or less prints
    nothing. *)
Theorem informational_events_only_log (tty : bool) (v : Variant) (w : World) (e : AdapterEvent) :
  running w -> informational e = true ->
  (exists lines,
     (length lines <= 1)%nat /\
     step (program_of tty v) (Emit e) w =
       foldl (fun w text => emit (Console (LogText text)) w) w lines) /\
  (forall severity text, e = logMessage severity text -> severity <= 3 ->
     step (program_of tty v) (Emit e) w = w).
Proof.
  intros Hw He. unfold step. rewrite Hw. split.
  - destruct v, e; try discriminate He; cbn;
      repeat match goal with
      | |- context [if ?b then _ else _] => destruct b
      end;
      first [ exists []; split; [cbn; lia|reflexivity]
            | eexists [_]; split; [cbn; lia|reflexivity] ].
  - intros severity text -> Hs.
    assert (Hlt : (3 <? severity) = false) by (apply Z.ltb_ge; exact Hs).
    destruct v; cbn; now rewrite Hlt.
Qed.

Lemma informational_events_only_log_witness :
  running (subscribed UartVariant) /\
  informational (characteristicValueChanged cccd) = true /\
  requests (step Uart.program (Emit (characteristicValueChanged cccd)) (subscribed UartVariant)) =
    requests (subscribed UartVariant) /\
  step Uart.program (Emit (logMessage 3 "serial port opened")) (subscribed UartVariant) =
    subscribed UartVariant.
Proof.
  destruct (informational_events_only_log true UartVariant (subscribed UartVariant)
              (characteristicValueChanged cccd) eq_refl eq_refl) as ((lines & Hlen & Hstep) & _).
  destruct (informational_events_only_log true UartVariant (subscribed UartVariant)
              (logMessage 3 "serial port opened") eq_refl eq_refl) as (_ & Hquiet).
  split; [reflexivity|]. split; [reflexivity|]. split.
  - cbn [program_of] in Hstep. rewrite Hstep.
    destruct lines as [|l [|l' lines]]; cbn in *; [reflexivity| |lia].
    apply requests_emit_console.
  - apply (Hquiet 3 "serial port opened" eq_refl). lia.
Defined.

(** ** The replies to the requests of the key listener *)

Lemma uart_listeners_idle (l : list (Attribute * Ref)) w :
  stdin_buffer w = None ->
  foldl (fun w '(d, a) => turn (Uart.on_readable d a) w) w l = w.
Proof. exact (listeners_idle true UartVariant l w). Qed.

Lemma quit_step (tty : bool) v w c rest d a others :
  running w -> stdin_listeners w = (d, a) :: others ->
  c = "q"%char \/ c = "Q"%char ->
  exists k,
    step (program_of tty v) (Readable (Some (String c rest))) w =
      set_pending (fun l => l ++ [k]) (emit (Issued Adapter_close) (set_stdin_buffer None w)) /\
    forall r w',
      exec (k r) w' =
        set_exited 1
          (emit (Console (LogText [Lit "Exiting the application..."]))
             match err r with
             | Some e => emit (Console (LogText [Lit "Error closing the adapter: "; Err e; Lit "."])) w'
             | None => w'
             end).
Proof.
  intros Hw Hl Hc. unfold step. rewrite Hw, Hl.
  cbn [foldl]. unfold turn at 2. cbn [exited set_stdin_buffer]. rewrite Hw.
  destruct v, Hc as [-> | ->]; cbn;
    first [rewrite blinky_listeners_idle by reflexivity
          |rewrite uart_listeners_idle by reflexivity];
    (eexists; split; [reflexivity|]); intros r w'; cbn; destruct (err r); reflexivity.
Qed.

(** The quit key.  With a key listener registered, a chunk that starts
    with [q] or [Q] asks the adapter to close; whatever the adapter
    replies, the process then prints [Exiting the application...] and exits
    with status 1 (a close error is printed first and does not change the
    status).  No array is changed and nothing else is requested. *)
Theorem quit_key_closes_and_exits (tty : bool)
    (v : Variant) (w : World) (c : ascii) (rest : string)
    (d : Attribute) (a : Ref) (others : list (Attribute * Ref)) (r : Response) :
  running w -> stdin_listeners w = (d, a) :: others ->
  c = "q"%char \/ c = "Q"%char ->
  let w' := steps (program_of tty v)
              [Readable (Some (String c rest)); Reply (length (pending w)) r] w in
  exited w' = Some 1 /\ heap w' = heap w /\
  requests w' = requests w ++ [Adapter_close] /\
  out w' = out w ++ [Issued Adapter_close] ++
    match err r with
    | Some e => [Console (LogText [Lit "Error closing the adapter: "; Err e; Lit "."])]
    | None => []
    end ++ [Console (LogText [Lit "Exiting the application..."])].
Proof.
  intros Hw Hl Hc w'. subst w'.
  destruct (quit_step tty v w c rest d a others Hw Hl Hc) as (k & Hstep & Hk).
  rewrite steps_cons, steps_cons, steps_nil, Hstep.
  change (length (pending w))
    with (length (pending (emit (Issued Adapter_close) (set_stdin_buffer None w)))).
  rewrite reply_last by exact Hw. rewrite Hk.
  destruct (err r); cbn; rewrite <- ?app_assoc; cbn; (repeat split); list_eq.
Qed.

Lemma quit_key_closes_and_exits_witness :
  running notifying /\ stdin_listeners notifying = [(cccd, 0%nat)] /\
  exited (steps (Blinky.program true)
            [Readable (Some "Quit"); Reply (length (pending notifying)) failure] notifying) =
    Some 1 /\
  heap (steps (Blinky.program true)
          [Readable (Some "Quit"); Reply (length (pending notifying)) failure] notifying) =
    [[1; 0]].
Proof.
  destruct (quit_key_closes_and_exits true BlinkyVariant notifying "Q" "uit" cccd 0%nat [] failure
              eq_refl eq_refl (or_intror eq_refl)) as (Hx & Hh & _).
  cbn [program_of] in Hx, Hh.
  split; [reflexivity|]. split; [reflexivity|].
  split; [exact Hx|]. rewrite Hh. reflexivity.
Defined.

Lemma toggle_step_callback (tty : bool) v w chunk d a others e :
  running w -> stdin_listeners w = (d, a) :: others -> heap w !! a = Some [e; 0] ->
  toggle_key v chunk ->
  exists k text,
    step (program_of tty v) (Readable (Some chunk)) w =
      set_pending (fun l => l ++ [k])
        (mkWorld (<[a := [if Z.eqb e 0 then 1 else 0; 0]]> (heap w)) (stdin_listeners w) None
           (pending w)
           (out w ++ [Console (LogText text);
                      Issued (Adapter_writeDescriptorValue (instanceId d)
                                [if Z.eqb e 0 then 1 else 0; 0] false)])
           None) /\
    forall r w',
      exec (k r) w' =
        match err r with
        | Some x => set_exited 1 (emit (Console (LogText (toggle_error_text v x))) w')
        | None => emit (Console (LogText (toggled_text v))) w'
        end.
Proof.
  intros Hw Hl Ha Hk.
  pose proof (lookup_lt_Some _ _ _ Ha) as Hlen.
  pose proof (toggle_key_quit _ _ Hk) as Hq.
  unfold step. rewrite Hw, Hl. cbn [foldl]. unfold turn at 2.
  cbn [exited set_stdin_buffer]. rewrite Hw.
  destruct v; cbn; rewrite Hq; [rewrite (toggle_key_led _ Hk)|]; cbn;
    unfold deref; rewrite Ha; cbn;
    destruct (Z.eqb e 0); cbn;
    first [rewrite blinky_listeners_idle by reflexivity
          |rewrite uart_listeners_idle by reflexivity];
    unfold set_pending, emit, set_heap, set_stdin_buffer; cbn;
    rewrite (array_set_pair _ _ _ _ Ha), (deref_insert _ _ _ Hlen), Hw, <- app_assoc, ?Hl;
    cbn; (eexists _, _; split; [reflexivity|]);
    intros r w'; cbn; destruct (err r); reflexivity.
Qed.

(** The reply to the toggle write.  After a toggling key the array holds
    the flipped enable byte whatever the adapter replies.  If the adapter
    fails the write, the error is printed and the process exits with
    status 1 (the array keeps the value that was not written); if it
    accepts, one line is printed and the process goes on with no callback
    left from the key. *)
Theorem toggle_write_outcome (tty : bool)
    (v : Variant) (w : World) (chunk : string)
    (d : Attribute) (a : Ref) (others : list (Attribute * Ref)) (e : Z) (r : Response) :
  running w -> stdin_listeners w = (d, a) :: others ->
  heap w !! a = Some [e; 0] -> toggle_key v chunk ->
  let w' := steps (program_of tty v) [Readable (Some chunk); Reply (length (pending w)) r] w in
  heap w' = <[a := [if Z.eqb e 0 then 1 else 0; 0]]> (heap w) /\
  pending w' = pending w /\
  match err r with
  | Some x =>
      exited w' = Some 1 /\
      last (out w') = Some (Console (LogText (toggle_error_text v x)))
  | None =>
      running w' /\ last (out w') = Some (Console (LogText (toggled_text v)))
  end.
Proof.
  intros Hw Hl Ha Hk w'. subst w'.
  destruct (toggle_step_callback tty v w chunk d a others e Hw Hl Ha Hk) as (k & text & Hstep & Hcb).
  rewrite steps_cons, steps_cons, steps_nil, Hstep.
  match goal with
  | |- context [set_pending _ ?w0] =>
      change (length (pending w)) with (length (pending w0));
      rewrite (reply_last _ w0) by reflexivity
  end.
  rewrite Hcb. destruct (err r); cbn; (repeat split); apply last_snoc.
Qed.

Lemma toggle_write_outcome_witness :
  running notifying /\ stdin_listeners notifying = [(cccd, 0%nat)] /\
  heap notifying !! 0%nat = Some [1; 0] /\ toggle_key BlinkyVariant "x" /\
  exited (steps (Blinky.program true)
            [Readable (Some "x"); Reply (length (pending notifying)) failure] notifying) =
    Some 1 /\
  heap (steps (Blinky.program true)
          [Readable (Some "x"); Reply (length (pending notifying)) failure] notifying) =
    [[0; 0]].
Proof.
  assert (Hx : toggle_key BlinkyVariant "x").
  { intros c rest [= <- <-]. repeat split; discriminate. }
  destruct (toggle_write_outcome true BlinkyVariant notifying "x" cccd 0%nat [] 1 failure
              eq_refl eq_refl eq_refl Hx) as (Hh & _ & Hexit & _).
  cbn [program_of] in Hh, Hexit.
  do 3 (split; [reflexivity|]). split; [exact Hx|].
  split; [exact Hexit|]. rewrite Hh. reflexivity.
Defined.

(** ** Outcomes of the discovery pipeline *)

Lemma first_with_uuid_some target l a :
  first_with_uuid target l = Some a -> In a l /\ uuid a = target.
Proof.
  unfold first_with_uuid. intros H. apply find_some in H as [Hin Heq].
  split; [exact Hin|]. now apply String.eqb_eq.
Qed.

(** The reply to the default write of the UART central.  After a discovery
    that found the CCCD, a failed write is printed and ends the process
    with status 1; an accepted write prints one line and leaves the process
    running with no callback left.  The array is untouched in both
    cases. *)
Theorem uart_default_write_outcome
    (w : World) (device : Device) (params : ConnParams) (r0 r1 r2 r3 rw : Response)
    (service characteristic descriptor : Attribute) :
  running w -> accepted r0 ->
  first_match Uart.BLE_UUID_NUS_SERVICE r1 service ->
  first_match Uart.LBS_UUID_NUS_TX_CHAR r2 characteristic ->
  first_match Uart.BLE_UUID_CCCD r3 descriptor ->
  let w' := conversation Uart.program (Emit (connParamUpdateRequest device params))
              [r0; r1; r2; r3; rw] w in
  heap w' = heap w /\ pending w' = pending w /\
  match err rw with
  | Some x =>
      exited w' = Some 1 /\
      last (out w') = Some (Console (LogText (toggle_error_text UartVariant x)))
  | None =>
      running w' /\ last (out w') = Some (Console (LogText (toggled_text UartVariant)))
  end.
Proof.
  intros Hw H0 H1 H2 H3 w'. subst w'.
  rewrite conversation_feed by exact Hw. converse.
  destruct (err rw); cbn; (repeat split); first [exact Hw|apply last_snoc].
Qed.

Lemma uart_default_write_outcome_witness :
  running (scanning UartVariant) /\ accepted success /\
  exited (conversation Uart.program (Emit (connParamUpdateRequest uart_peer requested_params))
            [success; listing [service_of UartVariant];
             listing [characteristic_of UartVariant]; listing [cccd]; failure]
            (scanning UartVariant)) = Some 1.
Proof.
  assert (H1 : first_match Uart.BLE_UUID_NUS_SERVICE
                 (listing [service_of UartVariant]) (service_of UartVariant)).
  { split; [reflexivity|]. exists [], []. repeat split. constructor. }
  assert (H2 : first_match Uart.LBS_UUID_NUS_TX_CHAR
                 (listing [characteristic_of UartVariant]) (characteristic_of UartVariant)).
  { split; [reflexivity|]. exists [], []. repeat split. constructor. }
  assert (H3 : first_match Uart.BLE_UUID_CCCD (listing [cccd]) cccd).
  { split; [reflexivity|]. exists [], []. repeat split. constructor. }
  destruct (uart_default_write_outcome (scanning UartVariant) uart_peer requested_params
              success _ _ _ failure _ _ _ eq_refl eq_refl H1 H2 H3) as (_ & _ & Hx & _).
  split; [reflexivity|]. split; [reflexivity|exact Hx].
Defined.

(** Whatever the adapter replies to the three discovery requests of the
    Blinky central, the conversation ends in one of two ways: the process
    printed an error (of the discovery, or the one [setRawMode] throws
    without a terminal) and exited with status 1, having registered
    nothing; or it registered exactly one more key listener, for a
    descriptor that the adapter listed and whose uuid is [2902], with a
    fresh array [0, 0], and waits for no callback. *)
Theorem blinky_discovery_outcome (tty : bool) (w : World) (device : Device) (r1 r2 r3 : Response) :
  running w ->
  let w' := conversation (Blinky.program tty) (Emit (deviceConnected device)) [r1; r2; r3] w in
  (fatal (Blinky.program tty) w' /\ stdin_listeners w' = stdin_listeners w /\ heap w' = heap w) \/
  (running w' /\ pending w' = pending w /\
   exists descriptor,
     In descriptor (items r3) /\ uuid descriptor = Blinky.BLE_UUID_CCCD /\
     stdin_listeners w' = stdin_listeners w ++ [(descriptor, length (heap w))] /\
     heap w' = heap w ++ [[0; 0]]).
Proof.
  intros Hw w'. subst w'.
  destruct tty; rewrite conversation_feed by exact Hw; cbn.
  all: destruct (err r1); cbn; [left; split; [is_fatal|now split]|].
  all: destruct (first_with_uuid _ (items r1)); cbn; [|left; split; [is_fatal|now split]].
  all: destruct (err r2); cbn; [left; split; [is_fatal|now split]|].
  all: destruct (first_with_uuid _ (items r2)); cbn; [|left; split; [is_fatal|now split]].
  all: destruct (err r3); cbn; [left; split; [is_fatal|now split]|].
  all: destruct (first_with_uuid _ (items r3)) as [descriptor|] eqn:Hd; cbn;
    [|left; split; [is_fatal|now split]].
  - right. split; [exact Hw|]. split; [reflexivity|].
    exists descriptor. apply first_with_uuid_some in Hd as [Hin Hu]. now repeat split.
  - left; split; [is_fatal|now split].
Qed.

Lemma blinky_discovery_outcome_witness :
  running (scanning BlinkyVariant) /\
  exited (conversation (Blinky.program true) (Emit (deviceConnected blinky_peer))
            [listing [service_of BlinkyVariant]; failure; success] (scanning BlinkyVariant)) =
    Some 1.
Proof.
  split; [reflexivity|].
  destruct (blinky_discovery_outcome true (scanning BlinkyVariant) blinky_peer
              (listing [service_of BlinkyVariant]) failure success eq_refl)
    as [((Hx & _) & _)|(Hrun & _)].
  - exact Hx.
  - exfalso. revert Hrun. vm_compute. discriminate.
Defined.

(** Whatever the adapter replies after it accepted a parameter update, the
    UART central ends the conversation in one of two ways: it printed an
    error and exited with status 1 without writing to any descriptor; or
    its last request is the write of its array, with [ack = false], to a
    descriptor that the adapter listed and whose uuid is [2902].  The
    array and the (empty) set of stdin listeners are untouched. *)
Theorem uart_rediscovery_outcome
    (w : World) (device : Device) (params : ConnParams) (r0 r1 r2 r3 : Response) :
  running w -> accepted r0 ->
  let w' := conversation Uart.program (Emit (connParamUpdateRequest device params))
              [r0; r1; r2; r3] w in
  heap w' = heap w /\ stdin_listeners w' = stdin_listeners w /\
  ((fatal Uart.program w' /\
    exists new, requests w' = requests w ++ new /\
                ~ In K_writeDescriptorValue (map kind new)) \/
   (running w' /\
    exists descriptor,
      In descriptor (items r3) /\ uuid descriptor = Uart.BLE_UUID_CCCD /\
      last (requests w') =
        Some (Adapter_writeDescriptorValue (instanceId descriptor)
                (deref (heap w) Uart.notificationsEnabled) false))).
Proof.
  intros Hw H0 w'. subst w'. unfold accepted in H0.
  rewrite conversation_feed by exact Hw. cbn. rewrite H0. cbn.
  assert (Hno : forall l : list Kind,
             Forall (fun k => k <> K_writeDescriptorValue) l ->
             ~ In K_writeDescriptorValue l).
  { intros l Hl Hin. rewrite Forall_forall in Hl.
    apply list_elem_of_In in Hin. now apply (Hl _ Hin). }
  destruct (err r1); cbn;
    [split; [reflexivity|split; [reflexivity|left; split; [is_fatal|]]];
     eexists; split; [list_eq|apply Hno; repeat constructor; discriminate]|].
  destruct (first_with_uuid _ (items r1)); cbn;
    [|split; [reflexivity|split; [reflexivity|left; split; [is_fatal|]]];
      eexists; split; [list_eq|apply Hno; repeat constructor; discriminate]].
  destruct (err r2); cbn;
    [split; [reflexivity|split; [reflexivity|left; split; [is_fatal|]]];
     eexists; split; [list_eq|apply Hno; repeat constructor; discriminate]|].
  destruct (first_with_uuid _ (items r2)); cbn;
    [|split; [reflexivity|split; [reflexivity|left; split; [is_fatal|]]];
      eexists; split; [list_eq|apply Hno; repeat constructor; discriminate]].
  destruct (err r3); cbn;
    [split; [reflexivity|split; [reflexivity|left; split; [is_fatal|]]];
     eexists; split; [list_eq|apply Hno; repeat constructor; discriminate]|].
  destruct (first_with_uuid _ (items r3)) as [descriptor|] eqn:Hd; cbn;
    [|split; [reflexivity|split; [reflexivity|left; split; [is_fatal|]]];
      eexists; split; [list_eq|apply Hno; repeat constructor; discriminate]].
  split; [reflexivity|split; [reflexivity|right]]. split; [exact Hw|].
  exists descriptor. apply first_with_uuid_some in Hd as [Hin Hu].
  split; [exact Hin|split; [exact Hu|]].
  unfold requests; cbn. rewrite !omap_app. cbn. apply last_snoc.
Qed.

Lemma uart_rediscovery_outcome_witness :
  running (scanning UartVariant) /\ accepted success /\
  heap (conversation Uart.program (Emit (connParamUpdateRequest uart_peer requested_params))
          [success; listing [generic_access]; success; success] (scanning UartVariant)) =
    heap (scanning UartVariant).
Proof.
  destruct (uart_rediscovery_outcome (scanning UartVariant) uart_peer requested_params
              success (listing [generic_access]) success success eq_refl eq_refl) as (Hh & _).
  split; [reflexivity|]. split; [reflexivity|exact Hh].
Defined.

(** ** The notification state of the Blinky central *)

Section Keeps.
Variable psi : World -> Prop.

Lemma exec_keeps p : forall w,
  keeps psi p w -> callbacks_keep psi w ->
  psi (exec p w) /\ callbacks_keep psi (exec p w).
Proof.
  induction p as [a|code|o k IH|init k IH|a i k IH|a i v k IH|d a k IH|k IH|req k IH];
    intros w Hk Hp; cbn [exec keeps] in *.
  - now split.
  - now split.
  - now apply IH.
  - now apply IH.
  - now apply IH.
  - now apply IH.
  - now apply IH.
  - now apply IH.
  - destruct Hk as [Hpsi Hk]. split; [exact Hpsi|].
    unfold callbacks_keep. cbn. apply Forall_app. split; [exact Hp|]. now constructor.
Qed.
End Keeps.

Lemma exec_keeps_listeners p : forall w l,
  In l (stdin_listeners w) -> In l (stdin_listeners (exec p w)).
Proof.
  induction p as [a|code|o k IH|init k IH|a i k IH|a i v k IH|d a k IH|k IH|req k IH];
    intros w l Hl; cbn [exec]; try (now apply IH); try exact Hl.
  apply IH. cbn. apply in_or_app. now left.
Qed.

Lemma blinky_inv_frame w w' :
  heap w = heap w' -> stdin_listeners w = stdin_listeners w' -> out w = out w' ->
  blinky_inv w -> blinky_inv w'.
Proof. intros Hh Hl Ho. unfold blinky_inv, requests. now rewrite Hh, Hl, Ho. Qed.

Lemma blinky_inv_console o w : blinky_inv w -> blinky_inv (emit (Console o) w).
Proof.
  intros (Hh & Hl & Hr). unfold blinky_inv. rewrite requests_emit_console. now repeat split.
Qed.

Lemma blinky_inv_issued req w :
  cccd_write_ok req -> blinky_inv w -> blinky_inv (emit (Issued req) w).
Proof.
  intros Hq (Hh & Hl & Hr). unfold blinky_inv. rewrite requests_emit_issued.
  split; [exact Hh|split; [exact Hl|]]. apply Forall_app. split; [exact Hr|]. now constructor.
Qed.

Lemma blinky_inv_exited code w : blinky_inv w -> blinky_inv (set_exited code w).
Proof. now apply blinky_inv_frame. Qed.

Lemma blinky_inv_pending f w : blinky_inv w -> blinky_inv (set_pending f w).
Proof. now apply blinky_inv_frame. Qed.

Lemma blinky_inv_stdin b w : blinky_inv w -> blinky_inv (set_stdin_buffer b w).
Proof. now apply blinky_inv_frame. Qed.

(** Registering a listener on a fresh array [0, 0]. *)
Lemma blinky_inv_listen d w :
  blinky_inv w ->
  blinky_inv (set_stdin_listeners (fun l => l ++ [(d, length (heap w))])
                (set_heap (fun h => h ++ [[0; 0]]) w)).
Proof.
  intros (Hh & Hl & Hr). unfold blinky_inv. cbn.
  split; [|split; [|exact Hr]].
  - apply Forall_app. split; [exact Hh|]. constructor; [now left|constructor].
  - rewrite map_app, Hl, length_app. cbn. now rewrite seq_app.
Qed.

(** The array of a registered listener. *)
Lemma blinky_inv_lookup d a w :
  blinky_inv w -> In (d, a) (stdin_listeners w) ->
  heap w !! a = Some [0; 0] \/ heap w !! a = Some [1; 0].
Proof.
  intros (Hh & Hl & _) Hin.
  assert (Ha : (a < length (heap w))%nat).
  { apply (in_map snd) in Hin. rewrite Hl in Hin. apply in_seq in Hin. cbn in Hin. lia. }
  destruct (lookup_lt_is_Some_2 _ _ Ha) as [bytes Hb].
  rewrite Forall_forall in Hh.
  destruct (Hh bytes (list_elem_of_lookup_2 _ _ _ Hb)) as [-> | ->]; [now left|now right].
Qed.

Lemma blinky_inv_array_set a e v w :
  blinky_inv w -> heap w !! a = Some [e; 0] -> v = 0 \/ v = 1 ->
  blinky_inv (set_heap (array_set a 0 v) w).
Proof.
  intros (Hh & Hl & Hr) Ha Hv. unfold blinky_inv. cbn.
  rewrite (array_set_pair _ _ _ _ Ha).
  split; [|split; [|exact Hr]].
  - apply Forall_insert; [exact Hh|]. destruct Hv as [-> | ->]; [now left|now right].
  - now rewrite length_insert.
Qed.

Ltac inv_tac :=
  repeat first
    [ assumption
    | apply blinky_inv_console
    | apply blinky_inv_exited
    | apply blinky_inv_pending
    | apply blinky_inv_stdin
    | apply blinky_inv_listen
    | apply blinky_inv_issued; [exact I|] ].

Ltac keeps_tac :=
  repeat (cbn [keeps bind mbind Proc_bind then_ catch_ console_log snapshot];
    match goal with
    | |- blinky_inv _ => fail 1
    | |- _ /\ _ => split
    | |- forall _, _ => intro
    | |- context [match ?x with _ => _ end] => destruct x
    end);
  inv_tac.

Lemma blinky_on_keeps tty e w :
  blinky_inv w -> keeps blinky_inv (Blinky.addAdapterListener tty e) w.
Proof.
  intros Hw. destruct e; unfold Blinky.addAdapterListener.
  all: unfold Blinky.discoverBlinkyService, Blinky.discoverButtonCharacteristic,
         Blinky.discoverButtonCharCCCD, Blinky.addUserInputListener,
         Blinky.startScan, Blinky.connect.
  all: keeps_tac.
Qed.

Lemma blinky_script_keeps argv w :
  blinky_inv w -> keeps blinky_inv (Blinky.main argv) w.
Proof.
  intros Hw. unfold Blinky.main, help.
  destruct argv as [|? [|? [|? [|? [|? ?]]]]];
    unfold Blinky.openAdapter, Blinky.startScan; keeps_tac.
Qed.

Lemma blinky_readable_keeps d a w :
  blinky_inv w -> In (d, a) (stdin_listeners w) ->
  keeps blinky_inv (Blinky.on_readable d a) w.
Proof.
  intros Hw Hin. unfold Blinky.on_readable. cbn [keeps].
  destruct (stdin_buffer w) as [chunk|]; [|now apply blinky_inv_stdin].
  destruct (first_is chunk "q" || first_is chunk "Q"); [keeps_tac|].
  destruct (first_is chunk "l" || first_is chunk "L"); [keeps_tac|].
  cbn [keeps set_stdin_buffer heap].
  assert (Hw' : blinky_inv (set_stdin_buffer None w)) by now apply blinky_inv_stdin.
  destruct (blinky_inv_lookup d a w Hw Hin) as [Ha | Ha];
    pose proof (lookup_lt_Some _ _ _ Ha) as Hlen;
    unfold deref at 1; rewrite Ha; cbn [default lookup list_lookup truthy Z.eqb negb];
    cbn [keeps bind mbind Proc_bind console_log]; (split; [|keeps_tac]);
    apply blinky_inv_pending, blinky_inv_issued.
  - cbn. rewrite (array_set_pair _ _ _ _ Ha), (deref_insert _ _ _ Hlen).
    split; [now right|reflexivity].
  - apply blinky_inv_console. apply (blinky_inv_array_set a 0 1); [exact Hw'|exact Ha|now right].
  - cbn. rewrite (array_set_pair _ _ _ _ Ha), (deref_insert _ _ _ Hlen).
    split; [now left|reflexivity].
  - apply blinky_inv_console. apply (blinky_inv_array_set a 1 0); [exact Hw'|exact Ha|now left].
Qed.

Lemma blinky_step_keeps (tty : bool) ev w :
  blinky_inv w -> callbacks_keep blinky_inv w ->
  blinky_inv (step (Blinky.program tty) ev w) /\ callbacks_keep blinky_inv (step (Blinky.program tty) ev w).
Proof.
  intros Hw Hp. unfold step. destruct (exited w) as [code|] eqn:Hx; [now split|].
  destruct ev as [e|chunk|i r].
  - apply exec_keeps; [now apply blinky_on_keeps|exact Hp].
  - assert (Hl : forall l, In l (stdin_listeners w) ->
                           In l (stdin_listeners (set_stdin_buffer chunk w))) by (intros; assumption).
    assert (Hw0 : blinky_inv (set_stdin_buffer chunk w)) by now apply blinky_inv_stdin.
    assert (Hp0 : callbacks_keep blinky_inv (set_stdin_buffer chunk w)) by exact Hp.
    revert Hl Hw0 Hp0. generalize (set_stdin_buffer chunk w).
    induction (stdin_listeners w) as [|[d a] l IH]; intros w0 Hl Hw0 Hp0; [now split|].
    cbn [foldl].
    assert (Hturn : blinky_inv (turn (Blinky.on_readable d a) w0) /\
                    callbacks_keep blinky_inv (turn (Blinky.on_readable d a) w0) /\
                    forall x, In x (stdin_listeners w0) ->
                              In x (stdin_listeners (turn (Blinky.on_readable d a) w0))).
    { unfold turn.
      destruct (exited w0); [split; [exact Hw0|split; [exact Hp0|intros x Hx'; exact Hx']]|].
      destruct (exec_keeps blinky_inv (Blinky.on_readable d a) w0) as [H1 H2];
        [apply blinky_readable_keeps; [exact Hw0|apply Hl; now left]|exact Hp0|].
      split; [exact H1|split; [exact H2|]].
      intros x Hx'. now apply exec_keeps_listeners. }
    destruct Hturn as (H1 & H2 & H3).
    apply IH; [|exact H1|exact H2].
    intros x Hx'. apply H3, Hl. now right.
  - destruct (pending w !! i) as [k|] eqn:Hk; [|now split].
    apply exec_keeps.
    + apply (Forall_lookup_1 _ _ _ _ Hp Hk). now apply blinky_inv_pending.
    + unfold callbacks_keep. cbn. now apply Forall_delete.
Qed.

Lemma blinky_invariant (tty : bool) argv evs :
  blinky_inv (steps (Blinky.program tty) evs (boot (Blinky.program tty) argv)).
Proof.
  assert (Hboot : blinky_inv (boot (Blinky.program tty) argv) /\
                  callbacks_keep blinky_inv (boot (Blinky.program tty) argv)).
  { unfold boot. apply exec_keeps; [|constructor].
    apply blinky_script_keeps. repeat split; constructor. }
  revert Hboot. generalize (boot (Blinky.program tty) argv).
  induction evs as [|ev evs IH]; intros w [Hw Hp]; [exact Hw|].
  rewrite steps_cons. apply IH. now apply blinky_step_keeps.
Qed.


Lemma notifying_run :
  notifying =
  steps (Blinky.program true)
    (([Reply 0 success; Reply 0 success] ++ session BlinkyVariant) ++ [Readable (Some "n")])
    (boot (Blinky.program true) argv_example).
Proof.
  unfold notifying. rewrite (subscribed_run BlinkyVariant).
  change (program_of true BlinkyVariant) with (Blinky.program true).
  rewrite (steps_app (Blinky.program true) _ [Readable (Some "n")]), steps_cons, steps_nil.
  reflexivity.
Qed.


(** ** Listeners outlive the connection *)

Lemma blinky_rescan (tty : bool) w device r :
  running w -> accepted r ->
  let w' := conversation (Blinky.program tty) (Emit (deviceDisconnected device)) [r] w in
  running w' /\ heap w' = heap w /\ stdin_listeners w' = stdin_listeners w /\
  requests w' = requests w ++ [Adapter_startScan scanParameters].
Proof.
  intros Hw Hr w'. subst w'. unfold accepted in Hr.
  rewrite conversation_feed by exact Hw. cbn. rewrite Hr. cbn.
  split; [exact Hw|split; [reflexivity|split; [reflexivity|list_eq]]].
Qed.

(** A disconnection unregisters nothing in the Blinky central (run from a
    terminal, as a registered listener implies).  After a
    disconnection, a rescan and the discovery of a second connection, the
    listener of the first connection is still the first one registered:
    the next toggling key is read by it, flips its array and is written to
    the descriptor of the first connection, while the array of the new
    listener stays [0, 0]. *)
Theorem blinky_listener_survives_reconnect
    (w : World) (d1 : Attribute) (a1 : Ref) (others : list (Attribute * Ref)) (e : Z)
    (old new : Device) (rscan r1 r2 r3 : Response)
    (service characteristic d2 : Attribute) (chunk : string) :
  running w -> stdin_listeners w = (d1, a1) :: others -> heap w !! a1 = Some [e; 0] ->
  accepted rscan ->
  first_match Blinky.BLE_UUID_BLINKY_SERVICE r1 service ->
  first_match Blinky.LBS_UUID_BLINKY_BUTTON_CHAR r2 characteristic ->
  first_match Blinky.BLE_UUID_CCCD r3 d2 ->
  toggle_key BlinkyVariant chunk ->
  let w1 := conversation (Blinky.program true) (Emit (deviceDisconnected old)) [rscan] w in
  let w2 := conversation (Blinky.program true) (Emit (deviceConnected new)) [r1; r2; r3] w1 in
  let w3 := step (Blinky.program true) (Readable (Some chunk)) w2 in
  stdin_listeners w3 = (d1, a1) :: others ++ [(d2, length (heap w))] /\
  heap w3 = <[a1 := [if Z.eqb e 0 then 1 else 0; 0]]> (heap w) ++ [[0; 0]] /\
  requests w3 = requests w ++
    [Adapter_startScan scanParameters;
     Adapter_getServices (dev_instanceId new);
     Adapter_getCharacteristics (instanceId service);
     Adapter_getDescriptors (instanceId characteristic);
     Adapter_writeDescriptorValue (instanceId d1) [if Z.eqb e 0 then 1 else 0; 0] false].
Proof.
  intros Hw Hl Ha Hscan H1 H2 H3 Hk w1 w2 w3.
  pose proof (lookup_lt_Some _ _ _ Ha) as Hlen.
  destruct (blinky_rescan true w old rscan Hw Hscan) as (Hw1 & Hh1 & Hl1 & Hr1). fold w1 in Hw1, Hh1, Hl1, Hr1.
  destruct (blinky_discovery_found true w1 new r1 r2 r3 _ _ _ Hw1 H1 H2 H3)
    as (_ & Hr2 & Hw2 & Hh2 & Hl2).
  fold w2 in Hw2, Hr2, Hh2, Hl2.
  rewrite Hl1, Hl, Hh1 in Hl2. rewrite Hh1 in Hh2. rewrite Hr1 in Hr2.
  assert (Ha2 : heap w2 !! a1 = Some [e; 0]).
  { rewrite Hh2. rewrite lookup_app_l by exact Hlen. exact Ha. }
  destruct (keystroke_toggles true BlinkyVariant w2 chunk d1 a1 _ e Hw2 Hl2 Ha2 Hk)
    as (_ & Hl3 & Hh3 & Hr3).
  cbn [program_of] in Hl3, Hh3, Hr3. fold w3 in Hl3, Hh3, Hr3.
  rewrite Hl3, Hl2, Hh3, Hh2, Hr3, Hr2, <- !app_assoc. cbn.
  split; [reflexivity|split; [|reflexivity]].
  now rewrite insert_app_l.
Qed.

Lemma blinky_listener_survives_reconnect_witness :
  running notifying /\ stdin_listeners notifying = [(cccd, 0%nat)] /\
  heap notifying !! 0%nat = Some [1; 0] /\ accepted success /\
  toggle_key BlinkyVariant "x" /\
  heap (step (Blinky.program true) (Readable (Some "x"))
          (conversation (Blinky.program true) (Emit (deviceConnected blinky_peer))
             [listing [service_of BlinkyVariant]; listing [characteristic_of BlinkyVariant];
              listing [second_service_of BlinkyVariant; cccd]]
             (conversation (Blinky.program true) (Emit (deviceDisconnected blinky_peer)) [success]
                notifying))) = [[0; 0]; [0; 0]].
Proof.
  assert (Hx : toggle_key BlinkyVariant "x").
  { intros c rest [= <- <-]. repeat split; discriminate. }
  assert (H1 : first_match Blinky.BLE_UUID_BLINKY_SERVICE
                 (listing [service_of BlinkyVariant]) (service_of BlinkyVariant)).
  { split; [reflexivity|]. exists [], []. repeat split. constructor. }
  assert (H2 : first_match Blinky.LBS_UUID_BLINKY_BUTTON_CHAR
                 (listing [characteristic_of BlinkyVariant]) (characteristic_of BlinkyVariant)).
  { split; [reflexivity|]. exists [], []. repeat split. constructor. }
  assert (H3 : first_match Blinky.BLE_UUID_CCCD
                 (listing [second_service_of BlinkyVariant; cccd]) cccd).
  { split; [reflexivity|]. exists [second_service_of BlinkyVariant], [].
    split; [reflexivity|split; [reflexivity|]]. repeat constructor. discriminate. }
  destruct (blinky_listener_survives_reconnect notifying cccd 0%nat [] 1
              blinky_peer blinky_peer success _ _ _ _ _ _ "x"
              eq_refl eq_refl eq_refl eq_refl H1 H2 H3 Hx) as (_ & Hh & _).
  do 3 (split; [reflexivity|]). split; [reflexivity|]. split; [exact Hx|].
  rewrite Hh. reflexivity.
Defined.

(** ** The key listener of the UART central *)

(** [addUserInputListener] of the UART central, which the program never
    calls, registers (from a terminal) a listener on the global array, the
    one [handleConnectedDevice] writes.  Had it been called, a toggling key
    would change what the next rediscovery writes: the write after the next
    accepted parameter update carries the flipped array, not the initial
    [1, 0]. *)
Theorem uart_listener_shares_the_global_array
    (w : World) (d : Attribute) (chunk : string) (e : Z)
    (device : Device) (params : ConnParams) (r0 r1 r2 r3 : Response)
    (service characteristic descriptor : Attribute) :
  running w -> stdin_listeners w = [] ->
  heap w !! Uart.notificationsEnabled = Some [e; 0] ->
  toggle_key UartVariant chunk -> accepted r0 ->
  first_match Uart.BLE_UUID_NUS_SERVICE r1 service ->
  first_match Uart.LBS_UUID_NUS_TX_CHAR r2 characteristic ->
  first_match Uart.BLE_UUID_CCCD r3 descriptor ->
  let w1 := exec (Uart.addUserInputListener true d;; Ret tt) w in
  let w2 := step Uart.program (Readable (Some chunk)) w1 in
  let w3 := conversation Uart.program (Emit (connParamUpdateRequest device params))
              [r0; r1; r2; r3] w2 in
  stdin_listeners w1 = [(d, Uart.notificationsEnabled)] /\
  heap w1 = heap w /\
  heap w3 = <[Uart.notificationsEnabled := [if Z.eqb e 0 then 1 else 0; 0]]> (heap w) /\
  last (requests w3) =
    Some (Adapter_writeDescriptorValue (instanceId descriptor)
            [if Z.eqb e 0 then 1 else 0; 0] false).
Proof.
  intros Hw Hl Ha Hk H0 H1 H2 H3 w1 w2 w3.
  pose proof (lookup_lt_Some _ _ _ Ha) as Hlen.
  assert (Hl1 : stdin_listeners w1 = [(d, Uart.notificationsEnabled)]).
  { subst w1. cbn. now rewrite Hl. }
  assert (Hh1 : heap w1 = heap w) by reflexivity.
  assert (Hw1 : running w1) by exact Hw.
  assert (Ha1 : heap w1 !! Uart.notificationsEnabled = Some [e; 0]) by exact Ha.
  destruct (keystroke_toggles true UartVariant w1 chunk d _ [] e Hw1 Hl1 Ha1 Hk)
    as (Hw2 & _ & Hh2 & _).
  cbn [program_of] in Hw2, Hh2. fold w2 in Hw2, Hh2.
  destruct (uart_rediscovery w2 device params r0 r1 r2 r3 _ _ _ Hw2 H0 H1 H2 H3)
    as (_ & Hh3 & Hr3).
  fold w3 in Hh3, Hr3.
  split; [exact Hl1|split; [exact Hh1|]].
  rewrite Hh3, Hr3, Hh2, Hh1, (deref_insert _ _ _ Hlen).
  split; [reflexivity|].
  rewrite last_app. reflexivity.
Qed.

Lemma uart_listener_shares_the_global_array_witness :
  running (subscribed UartVariant) /\ stdin_listeners (subscribed UartVariant) = [] /\
  heap (subscribed UartVariant) !! Uart.notificationsEnabled = Some [1; 0] /\
  toggle_key UartVariant "s" /\
  last (requests
          (conversation Uart.program (Emit (connParamUpdateRequest uart_peer requested_params))
             [success; listing [service_of UartVariant];
              listing [characteristic_of UartVariant]; listing [cccd]]
             (step Uart.program (Readable (Some "s"))
                (exec (Uart.addUserInputListener true cccd;; Ret tt)
                   (subscribed UartVariant))))) =
    Some (Adapter_writeDescriptorValue "dsc.9" [0; 0] false).
Proof.
  assert (Hs : toggle_key UartVariant "s").
  { intros c rest [= <- <-]. repeat split; discriminate. }
  assert (H1 : first_match Uart.BLE_UUID_NUS_SERVICE
                 (listing [service_of UartVariant]) (service_of UartVariant)).
  { split; [reflexivity|]. exists [], []. repeat split. constructor. }
  assert (H2 : first_match Uart.LBS_UUID_NUS_TX_CHAR
                 (listing [characteristic_of UartVariant]) (characteristic_of UartVariant)).
  { split; [reflexivity|]. exists [], []. repeat split. constructor. }
  assert (H3 : first_match Uart.BLE_UUID_CCCD (listing [cccd]) cccd).
  { split; [reflexivity|]. exists [], []. repeat split. constructor. }
  destruct (uart_listener_shares_the_global_array (subscribed UartVariant) cccd "s" 1
              uart_peer requested_params success _ _ _ _ _ _
              eq_refl eq_refl eq_refl Hs eq_refl H1 H2 H3) as (_ & _ & _ & Hlast).
  do 3 (split; [reflexivity|]). split; [exact Hs|exact Hlast].
Defined.

(** In no run does the UART central ask the adapter to close: its quit
    path is never registered, so the process only ends through
    [process.exit] on an error or a scan timeout. *)
Theorem uart_never_closes_the_adapter (argv : list string) (evs : list Event) :
  Forall (fun req => kind req <> K_close)
    (requests (steps Uart.program evs (boot Uart.program argv))).
Proof.
  apply (reachable_safe Uart.program uart_open_ended never_closed).
  - intros w w' _ Hl Ho. unfold never_closed, requests. now rewrite Hl, Ho.
  - intros n w Hn (Hl & Hr). unfold never_closed.
    destruct n as [o| | | |req]; try contradiction; cbn [act];
      rewrite ?requests_emit_console, ?requests_set_heap; try (now split).
    rewrite requests_emit_issued. split; [exact Hl|].
    apply Forall_app. split; [exact Hr|]. constructor; [|constructor].
    destruct req; try discriminate. contradiction.
  - split; constructor.
  - intros argv'. cbn. destruct argv' as [|? [|? [|? [|? [|? ?]]]]]; always_tac.
  - intros e. destruct e; always_tac.
  - intros w (Hl & _). rewrite Hl. constructor.
Qed.

(** ** Reading stdin *)

(** A ['readable'] event for which [process.stdin.read()] returns [null]
    changes nothing, however many listeners are registered. *)
Theorem readable_without_data_is_ignored (tty : bool) (v : Variant) (w : World) :
  running w ->
  step (program_of tty v) (Readable None) w = set_stdin_buffer None w.
Proof.
  intros Hw. unfold step. rewrite Hw. now apply listeners_idle.
Qed.

Lemma readable_without_data_is_ignored_witness :
  running notifying /\ step (Blinky.program true) (Readable None) notifying = notifying.
Proof.
  pose proof (readable_without_data_is_ignored true BlinkyVariant notifying eq_refl) as Hstep.
  cbn [program_of] in Hstep.
  split; [reflexivity|]. rewrite Hstep. vm_compute. reflexivity.
Defined.

(** The key listener looks at the first character of what it reads and at
    nothing else: two chunks with the same first character have the same
    effect. *)
Theorem only_the_first_character_counts (tty : bool)
    (v : Variant) (w : World) (c : ascii) (rest rest' : string)
    (d : Attribute) (a : Ref) (others : list (Attribute * Ref)) :
  stdin_listeners w = (d, a) :: others ->
  step (program_of tty v) (Readable (Some (String c rest))) w =
  step (program_of tty v) (Readable (Some (String c rest'))) w.
Proof.
  intros Hl. unfold step. destruct (exited w) eqn:Hx; [reflexivity|].
  rewrite Hl. cbn [foldl]. f_equal.
  unfold turn. cbn [exited set_stdin_buffer]. rewrite Hx.
  destruct v; reflexivity.
Qed.

Lemma only_the_first_character_counts_witness :
  stdin_listeners notifying = [(cccd, 0%nat)] /\
  step (Blinky.program true) (Readable (Some "quit")) notifying =
  step (Blinky.program true) (Readable (Some "q")) notifying.
Proof.
  pose proof (only_the_first_character_counts true BlinkyVariant notifying "q" "uit" "" cccd 0%nat []
                eq_refl) as Hstep.
  cbn [program_of] in Hstep.
  split; [reflexivity|exact Hstep].
Defined.
